(** * SCS (secure cloud storage): the browser client

    A shallow embedding of the browser client of the repository: the
    [SCSCrypto] module (hex codec, key derivation, per-file authenticated
    encryption), the operations of [SCSApi], the two storage providers
    and [SCSStorage] that dispatches to them, the helpers of [SCSUI] that
    compute (password strength, search filter, statistics), and the
    controller flows (registration, login, session, upload, download,
    file list, delete, storage settings) that compose them.

    Conventions.
    - A JavaScript string is the list of its UTF-16 code units ([list N],
      every unit below 2^16).
    - A [Uint8Array] / [ArrayBuffer] is a [list byte]; a store to an index
      outside the array is dropped, as for typed arrays, which is what
      stdpp's list insert does.
    - What the browser provides and the repository does not implement
      (SHA-256, PBKDF2, AES-GCM, Unicode lower-casing, the texts of the
      engine's exceptions) is a field of the class [Platform]; what is
      assumed of it is stated as a named contract and is a hypothesis of
      exactly the theorems that use it.
    - An [async] function is modelled by the value its promise settles to:
      [Ok v] when it fulfils, [Throw e] when it rejects; the operations of
      the storage stack also return the calls that left the page, in
      order ([Traced]).
    - The backend and a Supabase project are functions from a call to
      its answer. *)

From Stdlib Require Import ZArith NArith Lia.
From Stdlib Require Import Strings.Ascii Strings.Byte.
From stdpp Require Import base option list strings gmap.

Open Scope N_scope.

(** ** JavaScript values *)

Abbreviation JSString := (list N).

(** An ASCII literal as a JavaScript string. *)
Fixpoint js (s : string) : JSString :=
  match s with
  | EmptyString => []
  | String a s' => N_of_ascii a :: js s'
  end.

#[global] Instance byte_eqdecision : EqDecision byte := Byte.byte_eq_dec.

(** The result of [parseInt]: [NaN] or an integer. Negative zero is
    identified with zero: every consumer below converts with [ToUint8],
    which maps both to 0. *)
Inductive Number :=
| NaN
| Num (z : Z).

(** ECMAScript [ToUint8], as applied by a store into a [Uint8Array]. *)
Definition ToUint8 (v : Number) : byte :=
  match v with
  | NaN => x00
  | Num z => default x00 (Byte.of_N (Z.to_N (z mod 256)))
  end.

(** [WhiteSpace] and [LineTerminator] code units ([StrWhiteSpaceChar]). *)
Definition isStrWhiteSpaceChar (c : N) : bool :=
  (c =? 0x9) || (c =? 0xA) || (c =? 0xB) || (c =? 0xC) || (c =? 0xD)
  || (c =? 0x20) || (c =? 0xA0) || (c =? 0x1680)
  || ((0x2000 <=? c) && (c <=? 0x200A))
  || (c =? 0x2028) || (c =? 0x2029) || (c =? 0x202F) || (c =? 0x205F)
  || (c =? 0x3000) || (c =? 0xFEFF).

(** The value of a radix-16 digit, [None] for any other code unit. *)
Definition hexDigitValue (c : N) : option N :=
  if (0x30 <=? c) && (c <=? 0x39) then Some (c - 0x30)
  else if (0x61 <=? c) && (c <=? 0x66) then Some (c - 0x61 + 10)
  else if (0x41 <=? c) && (c <=? 0x46) then Some (c - 0x41 + 10)
  else None.

Definition isHexDigit (c : N) : bool := bool_decide (is_Some (hexDigitValue c)).

Fixpoint dropWhile {A} (p : A -> bool) (l : list A) : list A :=
  match l with
  | [] => []
  | x :: l' => if p x then dropWhile p l' else l
  end.

Fixpoint takeWhile {A} (p : A -> bool) (l : list A) : list A :=
  match l with
  | [] => []
  | x :: l' => if p x then x :: takeWhile p l' else []
  end.

(** The integer a string of radix-16 digits denotes. *)
Definition hexValue (digits : JSString) : N :=
  foldl (fun acc c => 16 * acc + default 0 (hexDigitValue c)) 0 digits.

(** [parseInt(string, 16)], following the steps of the ECMAScript
    algorithm: trim leading white space, read a sign, strip a [0x]/[0X]
    prefix (the radix is 16), keep the longest prefix of radix-16 digits;
    no digit gives [NaN]. The integer is exact whenever it is below 2^53,
    which holds for the inputs of at most two code units used here. *)
Definition parseInt16 (inputString : JSString) : Number :=
  let S := dropWhile isStrWhiteSpaceChar inputString in
  let sign : Z := match S with
                  | c :: _ => if c =? 0x2D then (-1)%Z else 1%Z
                  | [] => 1%Z
                  end in
  let S := match S with
           | c :: S' => if (c =? 0x2B) || (c =? 0x2D) then S' else S
           | [] => S
           end in
  let S := match S with
           | c :: d :: S' =>
               if (c =? 0x30) && ((d =? 0x78) || (d =? 0x58)) then S' else S
           | _ => S
           end in
  let Z := takeWhile isHexDigit S in
  match Z with
  | [] => NaN
  | _ => Num (sign * Z.of_N (hexValue Z))
  end.

(** [String.prototype.substr(start, length)] for a non-negative [start]. *)
Definition substr (s : JSString) (start len : nat) : JSString :=
  take len (drop start s).

(** [Number.prototype.toString(16)] on the value of a byte (0..255). *)
Definition hexDigit (d : N) : N :=
  if d <? 10 then 0x30 + d else 0x61 + (d - 10).

Definition toString16 (b : byte) : JSString :=
  let n := Byte.to_N b in
  if n <? 16 then [hexDigit n] else [hexDigit (n / 16); hexDigit (n mod 16)].

(** [String.prototype.padStart(targetLength, '0')]. *)
Definition padStart (targetLength : nat) (s : JSString) : JSString :=
  replicate (targetLength - length s) 0x30 ++ s.

(** ** SCSCrypto: the hex codec *)

(** [bufferToHex]: two lower-case hex digits per byte, joined. *)
Definition bufferToHex (buffer : list byte) : JSString :=
  concat ((fun b => padStart 2 (toString16 b)) <$> buffer).

(** The loop of [hexToBytes]. [rest] is the part of [hex] from index [i]
    on and [k] is [i / 2]; one iteration stores
    [parseInt(hex.substr(i, 2), 16)] at index [k] and advances by two. *)
Fixpoint hexToBytes_loop (rest : JSString) (k : nat) (bytes : list byte) : list byte :=
  match rest with
  | [] => bytes
  | [c] => <[k := ToUint8 (parseInt16 [c])]> bytes
  | c1 :: c2 :: rest' =>
      hexToBytes_loop rest' (S k) (<[k := ToUint8 (parseInt16 [c1; c2])]> bytes)
  end.

(** [hexToBytes]: [new Uint8Array(hex.length / 2)] truncates a fractional
    length, then the loop fills it. Nothing is validated and nothing
    throws. *)
Definition hexToBytes (hex : JSString) : list byte :=
  hexToBytes_loop hex 0 (replicate (length hex / 2)%nat x00).

(** ** Strings at the platform boundary *)

(** [String.prototype.trim]: white space and line terminators are removed
    from both ends. *)
Definition trim (s : JSString) : JSString :=
  reverse (dropWhile isStrWhiteSpaceChar (reverse (dropWhile isStrWhiteSpaceChar s))).

Definition isHighSurrogate (c : N) : bool := (0xD800 <=? c) && (c <=? 0xDBFF).
Definition isLowSurrogate (c : N) : bool := (0xDC00 <=? c) && (c <=? 0xDFFF).

(** The conversion of a JavaScript string to Unicode scalar values that
    [TextEncoder.encode] applies to its argument: a surrogate pair is one
    scalar value, a surrogate that has no partner becomes U+FFFD. *)
Fixpoint toScalarValues (s : JSString) : list N :=
  match s with
  | [] => []
  | c :: rest =>
      if isHighSurrogate c then
        match rest with
        | d :: rest' =>
            if isLowSurrogate d
            then (0x10000 + (c - 0xD800) * 0x400 + (d - 0xDC00)) :: toScalarValues rest'
            else 0xFFFD :: toScalarValues rest
        | [] => [0xFFFD]
        end
      else if isLowSurrogate c then 0xFFFD :: toScalarValues rest
      else c :: toScalarValues rest
  end.

Definition byteOfN (n : N) : byte := default x00 (Byte.of_N (n mod 256)).

(** The UTF-8 encoding of one scalar value. *)
Definition utf8Encode (cp : N) : list byte :=
  if cp <? 0x80 then [byteOfN cp]
  else if cp <? 0x800 then
    [byteOfN (0xC0 + cp / 0x40); byteOfN (0x80 + cp mod 0x40)]
  else if cp <? 0x10000 then
    [byteOfN (0xE0 + cp / 0x1000); byteOfN (0x80 + (cp / 0x40) mod 0x40);
     byteOfN (0x80 + cp mod 0x40)]
  else
    [byteOfN (0xF0 + cp / 0x40000); byteOfN (0x80 + (cp / 0x1000) mod 0x40);
     byteOfN (0x80 + (cp / 0x40) mod 0x40); byteOfN (0x80 + cp mod 0x40)].

(** [stringToBytes]: [new TextEncoder().encode(str)]. *)
Definition stringToBytes (str : JSString) : list byte :=
  concat (utf8Encode <$> toScalarValues str).

(** ** Exceptions and promises *)

(** A thrown value: what the controller's [catch] reads of it. *)
Record JSError := { name : JSString; message : JSString }.

(** [new Error(message)]. *)
Definition Error (message : JSString) : JSError :=
  {| name := js "Error"; message := message |}.

(** What a promise settles to. *)
Inductive Result (A : Type) :=
| Ok (a : A)
| Throw (e : JSError).
Arguments Ok {A} a.
Arguments Throw {A} e.

#[global] Instance Result_ret : MRet Result := fun A a => Ok a.
#[global] Instance Result_bind : MBind Result := fun A B f m =>
  match m with
  | Ok a => f a
  | Throw e => Throw e
  end.

(** ** The Web platform *)

(** The primitives the client calls and does not implement.
    - [digest_SHA256]: [crypto.subtle.digest('SHA-256', data)];
    - [PBKDF2_HMAC_SHA256 password salt iterations bits]: the derive-bits
      operation of PBKDF2 with SHA-256, which [deriveBits] returns and from
      which [deriveKey] imports the AES key;
    - [GCM_AE] / [GCM_AD]: the authenticated encryption and decryption
      functions of AES-GCM with a 128-bit tag and no additional data;
      [GCM_AE K IV P] is the pair (C, T), [GCM_AD K IV C T] is the plaintext
      or [None] for FAIL;
    - [OperationError_message]: the message of the [OperationError] a
      failed AES-GCM decryption throws (its text is the browser's);
    - [TypeError_message]: the message of the [TypeError] thrown when a
      method of [null] is called (the engine's text);
    - [toLowerCase]: [String.prototype.toLowerCase] (Unicode case
      mapping). *)
Class Platform := {
  digest_SHA256 : list byte -> list byte;
  PBKDF2_HMAC_SHA256 : list byte -> list byte -> N -> N -> list byte;
  GCM_AE : list byte -> list byte -> list byte -> list byte * list byte;
  GCM_AD : list byte -> list byte -> list byte -> list byte -> option (list byte);
  OperationError_message : JSString;
  TypeError_message : JSString;
  toLowerCase : JSString -> JSString;
}.

(** Contracts of the platform, each assumed only where it is named. *)

(** A SHA-256 digest is 32 bytes. *)
Definition digest_length `{Platform} : Prop :=
  forall data, length (digest_SHA256 data) = 32%nat.

(** AES-GCM keeps the length of the plaintext and produces a 16-byte tag. *)
Definition GCM_lengths `{Platform} : Prop :=
  forall K IV P,
    length (GCM_AE K IV P).1 = length P /\ length (GCM_AE K IV P).2 = 16%nat.

(** AES-GCM decrypts what it encrypted under the same key and IV. *)
Definition GCM_correct `{Platform} : Prop :=
  forall K IV P, GCM_AD K IV (GCM_AE K IV P).1 (GCM_AE K IV P).2 = Some P.

(** A buffer with one bit inverted: bit [j] of byte [i]. *)
Definition flipByte (j : N) (b : byte) : byte :=
  default b (Byte.of_N (N.lxor (Byte.to_N b) (2 ^ j))).

Definition flipBit (i : nat) (j : N) (data : list byte) : list byte :=
  match data !! i with
  | Some b => <[i := flipByte j b]> data
  | None => data
  end.

(** AES-GCM under the key [K] notices a single inverted bit: when a
    ciphertext with its tag verifies, the same buffer with one bit
    inverted, in the ciphertext or in the tag, does not. (The tag is a
    function of the ciphertext, and two ciphertexts that differ in one
    bit have different tags under every key whose hash subkey is not
    zero.) *)
Definition GCM_detects_bit_flips `{Platform} (K : list byte) : Prop :=
  forall IV C T i j,
    length T = 16%nat -> GCM_AD K IV C T <> None ->
    (i < length (C ++ T))%nat -> j < 8 ->
    let data := flipBit i j (C ++ T) in
    GCM_AD K IV (take (length C) data) (drop (length C) data) = None.

(** What AES-GCM decrypts is what it encrypts: a ciphertext and a tag
    that verify are the ones encryption produces, under the same key and
    IV, for the plaintext that decryption returns. *)
Definition GCM_sound `{Platform} : Prop :=
  forall K IV C T P, GCM_AD K IV C T = Some P -> GCM_AE K IV P = (C, T).

(** PBKDF2 returns as many bits as it is asked for. *)
Definition PBKDF2_length `{Platform} : Prop :=
  forall password salt iterations bits,
    length (PBKDF2_HMAC_SHA256 password salt iterations bits) = N.to_nat (bits / 8).


(** What else the page relies on and this development leaves open: the
    texts of three more exceptions of the engine (the second and the
    third for reading the named property of [null] and of [undefined]),
    the number formatting behind [formatFileSize] ([Math.log], [toFixed])
    for a size that is not 0, and the two string constants of
    [MANAGED_CONFIG], the address and the key of the built-in Supabase
    project, whose text is not repeated here. *)
Class Environment := {
  QuotaExceededError_message : JSString;
  nullPropertyError_message : JSString -> JSString;
  undefinedPropertyError_message : JSString -> JSString;
  formatNonzeroFileSize : N -> JSString;
  MANAGED_CONFIG_url : JSString;
  MANAGED_CONFIG_key : JSString;
}.

(** [crypto.getRandomValues]: the generator is the sequence of bytes it
    will supply and the position reached in it. *)
Record RNG := { tape : nat -> byte; cursor : nat }.

Definition getRandomValues (n : nat) (g : RNG) : list byte * RNG :=
  (tape g <$> seq (cursor g) n, {| tape := tape g; cursor := cursor g + n |}).

Section SCSCrypto.
Context `{Platform}.

Definition PBKDF2_ITERATIONS : N := 100000.
Definition SALT_BYTES : nat := 16.
Definition IV_BYTES : nat := 12.

(** The [DOMException] AES-GCM decryption throws when the tag does not
    verify. *)
Definition OperationError : JSError :=
  {| name := js "OperationError"; message := OperationError_message |}.

(** [crypto.subtle.encrypt({name: 'AES-GCM', iv}, key, data)]: the
    ciphertext followed by the tag. *)
Definition subtle_encrypt (iv key data : list byte) : list byte :=
  let CT := GCM_AE key iv data in CT.1 ++ CT.2.

(** [crypto.subtle.decrypt({name: 'AES-GCM', iv}, key, data)]: the last 16
    bytes are the tag; a shorter input or a tag that does not verify
    throws [OperationError]. (An engine may word the message of the two
    differently; one text stands for both here. The controller reads the
    name.) *)
Definition subtle_decrypt (iv key data : list byte) : Result (list byte) :=
  if decide (length data < 16)%nat then Throw OperationError
  else
    let C := take (length data - 16) data in
    let T := drop (length data - 16) data in
    match GCM_AD key iv C T with
    | Some P => Ok P
    | None => Throw OperationError
    end.

(** [generateRandomHex]: [bytes] fresh bytes from the generator, as hex. *)
Definition generateRandomHex (bytes : nat) (g : RNG) : JSString * RNG :=
  let '(array, g) := getRandomValues bytes g in
  (bufferToHex array, g).

(** [deriveKey]: the AES-256-GCM key is the 256 bits PBKDF2 derives from
    the UTF-8 bytes of the password. The salt is used as given. *)
Definition deriveKey (password : JSString) (salt : list byte) : list byte :=
  PBKDF2_HMAC_SHA256 (stringToBytes password) salt PBKDF2_ITERATIONS 256.

(** [hashPassword]: the hex of the 256 bits [deriveBits] returns, the
    authentication token. *)
Definition hashPassword (password : JSString) (salt : list byte) : JSString :=
  bufferToHex (PBKDF2_HMAC_SHA256 (stringToBytes password) salt PBKDF2_ITERATIONS 256).

(** [hashEmail] and [hashFile]: SHA-256 as hex. *)
Definition hashEmail (email : JSString) : JSString :=
  bufferToHex (digest_SHA256 (stringToBytes (trim (toLowerCase email)))).

Definition hashFile (data : list byte) : JSString :=
  bufferToHex (digest_SHA256 data).

(** The object [encryptFile] returns. *)
Record Envelope := {
  ciphertext : list byte;
  iv : JSString;
  salt : JSString;
  fileHash : JSString;
}.

(** [encryptFile]: the envelope and the generator afterwards. The salt and
    the IV go through hex and back, as in the source. (AES-GCM rejects
    plaintexts of 2^36 bytes and more; no [ArrayBuffer] is that long, and
    the upload flow stops at 50 MB, so the promise always fulfils.) *)
Definition encryptFile (data : list byte) (password : JSString) (g : RNG)
  : Envelope * RNG :=
  let '(saltHex, g) := generateRandomHex SALT_BYTES g in
  let salt := hexToBytes saltHex in
  let '(ivHex, g) := generateRandomHex IV_BYTES g in
  let iv := hexToBytes ivHex in
  let fileHash := hashFile data in
  let key := deriveKey password salt in
  let ciphertext := subtle_encrypt iv key data in
  ({| ciphertext := ciphertext; iv := bufferToHex iv;
      salt := bufferToHex salt; fileHash := fileHash |}, g).

(** [decryptFile]: what the promise settles to. *)
Definition decryptFile (ciphertext : list byte) (ivHex saltHex password : JSString)
  : Result (list byte) :=
  let iv := hexToBytes ivHex in
  let salt := hexToBytes saltHex in
  let key := deriveKey password salt in
  subtle_decrypt iv key ciphertext.

End SCSCrypto.

(** ** SCSApi: the requests sent to the backend *)

(** A [fetch] call. [body] holds the members of the object given to
    [JSON.stringify], in order. *)
Record Request := {
  url : JSString;
  method : JSString;
  body : list (JSString * JSString);
}.

(** What the backend answers to a registration or a login: [res.ok] and
    the body. A body is not JSON ([response.json()] rejects) or a JSON
    value, [None] for [null]; of an object the client reads [detail],
    the empty string when the member is absent or falsy, and [salt],
    [None] when the member is absent. *)
Record AuthData := {
  detail : JSString;
  response_salt : option JSString;
}.

Inductive AuthBody :=
| AuthNotJSON
| AuthJSON (value : option AuthData).

Record Response := {
  ok : bool;
  response_body : AuthBody;
}.

(** The backend and the network: a request is answered, or [fetch]
    rejects. *)
Definition Server := Request -> Result Response.

Definition BASE_URL : JSString := js "/api".

Definition orElse (a b : JSString) : JSString :=
  match a with [] => b | _ => a end.

Definition register_request (email passwordHash salt : JSString) : Request :=
  {| url := BASE_URL ++ js "/register"; method := js "POST";
     body := [(js "email", email); (js "password_hash", passwordHash); (js "salt", salt)] |}.

Definition login_request (email passwordHash : JSString) : Request :=
  {| url := BASE_URL ++ js "/login"; method := js "POST";
     body := [(js "email", email); (js "password_hash", passwordHash)] |}.

(** A [TypeError] for reading a property of [null]. *)
Definition nullPropertyError `{Environment} (key : JSString) : JSError :=
  {| name := js "TypeError"; message := nullPropertyError_message key |}.

(** A [TypeError] for reading a property of [undefined]. *)
Definition undefinedPropertyError `{Environment} (key : JSString) : JSError :=
  {| name := js "TypeError"; message := undefinedPropertyError_message key |}.

(** [parseResponse] on the answer to a registration or a login. *)
Definition parseAuthResponse (response : Response) : option AuthData :=
  match response_body response with
  | AuthJSON value => value
  | AuthNotJSON =>
      Some {| detail := js "Unexpected server response."; response_salt := None |}
  end.

(** Reading [data.detail]. *)
Definition detailOf `{Environment} (data : option AuthData) : Result JSString :=
  match data with
  | Some d => Ok (detail d)
  | None => Throw (nullPropertyError (js "detail"))
  end.

(** [SCSApi.register] and [SCSApi.login]: the settled value and the
    requests that were sent. *)
Definition SCSApi_register `{Environment} (server : Server)
    (email passwordHash salt : JSString) : Result (option AuthData) * list Request :=
  let req := register_request email passwordHash salt in
  (res ← server req;
   let data := parseAuthResponse res in
   if negb (ok res) then
     detail ← detailOf data; Throw (Error (orElse detail (js "Registration failed.")))
   else Ok data,
   [req]).

Definition SCSApi_login `{Environment} (server : Server) (email passwordHash : JSString)
  : Result (option AuthData) * list Request :=
  let req := login_request email passwordHash in
  (res ← server req;
   let data := parseAuthResponse res in
   if negb (ok res) then
     detail ← detailOf data; Throw (Error (orElse detail (js "Login failed.")))
   else Ok data,
   [req]).

(** ** The controller *)

(** The module state of the controller and the tab's [sessionStorage]. *)
Record AppState := {
  currentEmail : option JSString;
  currentPasswordHash : option JSString;
  currentSalt : option JSString;
  isUploading : bool;
  sessionStorage : gmap JSString JSString;
}.

Definition initialState : AppState :=
  {| currentEmail := None; currentPasswordHash := None; currentSalt := None;
     isUploading := false; sessionStorage := ∅ |}.

Definition saveSession (email passwordHash salt : JSString) (st : AppState) : AppState :=
  {| currentEmail := Some email;
     currentPasswordHash := Some passwordHash;
     currentSalt := Some salt;
     isUploading := isUploading st;
     sessionStorage :=
       <[js "scs_salt" := salt]>
         (<[js "scs_hash" := passwordHash]>
            (<[js "scs_email" := email]> (sessionStorage st))) |}.

(** [saveSession(email, passwordHash, undefined)], as the login handler
    calls it when the answer has no [salt]: [currentSalt] is [undefined],
    written [None] here, and [setItem] stores the string "undefined". *)
Definition saveSession_undefinedSalt (email passwordHash : JSString) (st : AppState)
  : AppState :=
  {| currentEmail := Some email;
     currentPasswordHash := Some passwordHash;
     currentSalt := None;
     isUploading := isUploading st;
     sessionStorage :=
       <[js "scs_salt" := js "undefined"]>
         (<[js "scs_hash" := passwordHash]>
            (<[js "scs_email" := email]> (sessionStorage st))) |}.

Definition clearSession (st : AppState) : AppState :=
  {| currentEmail := None; currentPasswordHash := None; currentSalt := None;
     isUploading := isUploading st;
     sessionStorage :=
       delete (js "scs_salt") (delete (js "scs_hash") (delete (js "scs_email") (sessionStorage st))) |}.

(** *** Validation helpers *)

Definition isAlpha (c : N) : bool :=
  ((0x61 <=? c) && (c <=? 0x7A)) || ((0x41 <=? c) && (c <=? 0x5A)).
Definition isDigit (c : N) : bool := (0x30 <=? c) && (c <=? 0x39).
(** [[a-zA-Z0-9._%+\-]] *)
Definition isLocalChar (c : N) : bool :=
  isAlpha c || isDigit c || (c =? 0x2E) || (c =? 0x5F) || (c =? 0x25) || (c =? 0x2B) || (c =? 0x2D).
(** [[a-zA-Z0-9.\-]] *)
Definition isDomainChar (c : N) : bool :=
  isAlpha c || isDigit c || (c =? 0x2E) || (c =? 0x2D).

(** [validateEmail]: the test of
    [/^[a-zA-Z0-9._%+\-]+@[a-zA-Z0-9.\-]+\.[a-zA-Z]{2,}$/]. Neither class
    contains [@], so the local part is the run before the first [@]; the
    last group holds letters only, so it is the run of letters that ends the
    string, and a dot must stand before it. *)
Definition validateEmail (email : JSString) : bool :=
  match dropWhile isLocalChar email with
  | 0x40 :: rest =>
      bool_decide (takeWhile isLocalChar email <> [])
      && match dropWhile isAlpha (reverse rest) with
         | 0x2E :: domain =>
             bool_decide (2 <= length (takeWhile isAlpha (reverse rest)))%nat
             && bool_decide (domain <> [])
             && forallb isDomainChar domain
         | _ => false
         end
  | _ => false
  end.

(** [String.prototype.includes]. *)
Fixpoint startsWith (s p : JSString) : bool :=
  match p, s with
  | [], _ => true
  | _ :: _, [] => false
  | a :: p', b :: s' => (a =? b) && startsWith s' p'
  end.

Fixpoint includes (s p : JSString) : bool :=
  startsWith s p || match s with [] => false | _ :: s' => includes s' p end.

Section Controller.
Context `{Platform} `{Environment}.

(** The deterministic authentication salt, as each of the three flows
    computes it in line:
    [new Uint8Array(await crypto.subtle.digest('SHA-256',
       new TextEncoder().encode(email.toLowerCase().trim()))).slice(0, 16)]. *)
Definition authSalt_register (email : JSString) : list byte :=
  let emailHash := digest_SHA256 (stringToBytes (trim (toLowerCase email))) in
  take 16 emailHash.

Definition authSalt_login (email : JSString) : list byte :=
  let emailHash := digest_SHA256 (stringToBytes (trim (toLowerCase email))) in
  take 16 emailHash.

Definition authSalt_decrypt (currentEmail : JSString) : list byte :=
  let emailHash := digest_SHA256 (stringToBytes (trim (toLowerCase currentEmail))) in
  take 16 emailHash.

(** What a submit handler of the authentication forms ends with. *)
Inductive AuthOutcome :=
| Ignored
| FieldError (element text : JSString)
| EnteredDashboard (toast : JSString)
| AuthFailed (toast : JSString).

(** The submit handler of the registration form: the new state, the
    requests it sent through SCSApi, and what the user sees. The outcome
    [EnteredDashboard] stands for the call of [enterDashboard], which
    starts [loadFiles]; the storage calls of that are those of
    [registerRun] below. *)
Definition registerSubmit (server : Server) (btnDisabled : bool)
    (emailField passwordField confirmField : JSString) (st : AppState)
  : AppState * list Request * AuthOutcome :=
  if btnDisabled then (st, [], Ignored) else
  let email := trim emailField in
  let password := passwordField in
  let confirm := confirmField in
  if negb (validateEmail email) then
    (st, [], FieldError (js "register-email-error") (js "Please enter a valid email address."))
  else if bool_decide (length password < 8)%nat then
    (st, [], FieldError (js "register-password-error") (js "Password must be at least 8 characters."))
  else if bool_decide (password <> confirm) then
    (st, [], FieldError (js "register-confirm-error") (js "Passwords do not match."))
  else
    let authSalt := authSalt_register email in
    let authSaltHex := bufferToHex authSalt in
    let passwordHash := hashPassword password authSalt in
    let '(res, sent) := SCSApi_register server email passwordHash authSaltHex in
    match res with
    | Ok _ =>
        (saveSession email passwordHash authSaltHex st, sent,
         EnteredDashboard (js "Account created successfully!"))
    | Throw err => (st, sent, AuthFailed (message err))
    end.

(** The submit handler of the login form, in the same way. Reading
    [result.salt] throws when the body of the answer was [null]. *)
Definition loginSubmit (server : Server) (btnDisabled : bool)
    (emailField passwordField : JSString) (st : AppState)
  : AppState * list Request * AuthOutcome :=
  if btnDisabled then (st, [], Ignored) else
  let email := trim emailField in
  let password := passwordField in
  if negb (validateEmail email) then
    (st, [], FieldError (js "login-email-error") (js "Please enter a valid email address."))
  else if bool_decide (password = []) then
    (st, [], FieldError (js "login-password-error") (js "Password is required."))
  else
    let authSalt := authSalt_login email in
    let passwordHash := hashPassword password authSalt in
    let '(res, sent) := SCSApi_login server email passwordHash in
    match res with
    | Ok (Some result) =>
        (match response_salt result with
         | Some salt => saveSession email passwordHash salt st
         | None => saveSession_undefinedSalt email passwordHash st
         end, sent, EnteredDashboard (js "Welcome back!"))
    | Ok None => (st, sent, AuthFailed (message (nullPropertyError (js "salt"))))
    | Throw err => (st, sent, AuthFailed (message err))
    end.

(** *** Upload *)

Record File := { file_name : JSString; file_data : list byte }.
Definition file_size (f : File) : N := N.of_nat (length (file_data f)).

Record Metadata := {
  original_name : JSString;
  original_size : N;
  md_iv : JSString;
  md_salt : JSString;
  file_hash : JSString;
}.

(** The arguments of a call of [SCSStorage.saveFile]. *)
Record SaveFile := {
  save_email : option JSString;
  save_passwordHash : option JSString;
  save_blob : list byte;
  save_metadata : Metadata;
  save_filename : JSString;
}.

(** The storage provider: what [saveFile] settles to. *)
Definition Storage := SaveFile -> Result unit.

Inductive UploadOutcome :=
| UploadBusy
| UploadTooLarge
| Uploaded (toast : JSString)
| UploadFailed (toast : JSString).

(** A [null] reaching [TextEncoder.encode] is converted to the string
    ["null"]. *)
Definition passwordArgument (v : option JSString) : JSString :=
  default (js "null") v.

(** [isUploading = value] *)
Definition setUploading (value : bool) (st : AppState) : AppState :=
  {| currentEmail := currentEmail st; currentPasswordHash := currentPasswordHash st;
     currentSalt := currentSalt st; isUploading := value;
     sessionStorage := sessionStorage st |}.

(** [handleFileUpload] up to its first [await]: the outcome when a guard
    made it return at once, and otherwise the state in which it waits
    for the file, the encryption and the storage, with [isUploading]
    set. *)
Definition handleFileUpload_begin (file : File) (st : AppState)
  : AppState * option UploadOutcome :=
  if isUploading st then (st, Some UploadBusy)
  else if 50 * 1024 * 1024 <? file_size file then (st, Some UploadTooLarge)
  else (setUploading true st, None).

(** [handleFileUpload] from the moment [file.arrayBuffer()] has settled,
    on the state as it is then, when no other handler runs before it has
    finished: the state and generator afterwards, the calls of [saveFile]
    made, and what the user sees. [currentPasswordHash] and
    [currentEmail] are read here, not when the handler started. The
    [finally] block resets [isUploading]. The outcome [Uploaded] stands
    also for the timer the handler sets after a success, which fetches
    the file list again 1.5 s later ([uploadOnPage] below). *)
Definition handleFileUpload_resume (storage : Storage) (file : File) (st : AppState)
    (g : RNG) : AppState * RNG * list SaveFile * UploadOutcome :=
  let arrayBuffer := file_data file in
  let '(encrypted, g) :=
    encryptFile arrayBuffer (passwordArgument (currentPasswordHash st)) g in
  let metadata :=
    {| original_name := file_name file; original_size := file_size file;
       md_iv := iv encrypted; md_salt := salt encrypted;
       file_hash := fileHash encrypted |} in
  let call :=
    {| save_email := currentEmail st; save_passwordHash := currentPasswordHash st;
       save_blob := ciphertext encrypted; save_metadata := metadata;
       save_filename := file_name file |} in
  match storage call with
  | Ok _ =>
      (setUploading false st, g, [call],
       Uploaded ([0x22] ++ file_name file ++ [0x22]
                 ++ js " uploaded and encrypted successfully!"))
  | Throw err =>
      (setUploading false st, g, [call],
       UploadFailed (js "Upload failed: " ++ message err))
  end.

(** [handleFileUpload] when no other handler runs while it waits. *)
Definition handleFileUpload (storage : Storage) (file : File) (st : AppState) (g : RNG)
  : AppState * RNG * list SaveFile * UploadOutcome :=
  match handleFileUpload_begin file st with
  | (st, Some rejected) => (st, g, [], rejected)
  | (st, None) => handleFileUpload_resume storage file st g
  end.

(** *** Download *)

Record DownloadTarget := { filename : JSString; originalName : JSString }.

(** The state the download modal ends in. [Downloaded] is the only one in
    which a blob is handed to the user. *)
Inductive DecryptOutcome :=
| PasswordRequired
| Downloaded (blob : list byte) (download : JSString)
| ErrorState (title text : JSString).

Definition IntegrityCheckFailed : DecryptOutcome :=
  ErrorState (js "Integrity Check Failed")
    (js "The file appears to have been tampered with. The SHA-256 hash does not match the original. This file should not be trusted.").

Definition DecryptionFailed : DecryptOutcome :=
  ErrorState (js "Decryption Failed")
    (js "The password you entered is incorrect, or the file is corrupted. Please check your password and try again.").

Definition DownloadFailed (err : JSError) : DecryptOutcome :=
  ErrorState (js "Download Failed")
    (orElse (message err) (js "An unexpected error occurred. Please try again.")).

(** The [catch] block of [performDecrypt]. *)
Definition decryptCatch (err : JSError) : DecryptOutcome :=
  if bool_decide (message err = js "INTEGRITY_FAIL") then IntegrityCheckFailed
  else if bool_decide (name err = js "OperationError") || includes (message err) (js "decrypt")
  then DecryptionFailed
  else DownloadFailed err.

(** Reading [currentEmail.toLowerCase()] while [currentEmail] is [null]
    throws a [TypeError]. *)
Definition nullEmailError : JSError :=
  {| name := js "TypeError"; message := TypeError_message |}.

(** The [try] block of [performDecrypt]: the value it completes with is the
    plaintext handed to the user and the name it is saved under.
    [fetchedMetadata] and [fetchedBlob] are what [SCSStorage.getMetadata]
    and [SCSStorage.getFileBlob] settled to. *)
Definition performDecrypt_try (password : JSString) (target : DownloadTarget)
    (fetchedMetadata : Result Metadata) (fetchedBlob : Result (list byte))
    (st : AppState) : Result (list byte * JSString) :=
  metadata ← fetchedMetadata;
  ciphertext ← fetchedBlob;
  email ← match currentEmail st with
          | Some email => Ok email
          | None => Throw nullEmailError
          end;
  let authSalt := authSalt_decrypt email in
  let enteredHash := hashPassword password authSalt in
  decrypted ← decryptFile ciphertext (md_iv metadata) (md_salt metadata) enteredHash;
  let computedHash := hashFile decrypted in
  if bool_decide (computedHash <> file_hash metadata) then Throw (Error (js "INTEGRITY_FAIL"))
  else Ok (decrypted, orElse (original_name metadata) (filename target)).

Definition performDecrypt (passwordField : JSString) (target : DownloadTarget)
    (fetchedMetadata : Result Metadata) (fetchedBlob : Result (list byte))
    (st : AppState) : DecryptOutcome :=
  let password := passwordField in
  if bool_decide (password = []) then PasswordRequired
  else
    match performDecrypt_try password target fetchedMetadata fetchedBlob st with
    | Ok (decrypted, download) => Downloaded decrypted download
    | Throw err => decryptCatch err
    end.

End Controller.

(** ** Vocabulary of the statements *)

(** The two characters [bufferToHex] writes for a byte. *)
Definition hexPair (b : byte) : JSString := padStart 2 (toString16 b).

(** The groups the loop of [hexToBytes] reads: [hex.substr(i, 2)] for
    i = 0, 2, 4, ... *)
Fixpoint hexGroups (hex : JSString) : list JSString :=
  match hex with
  | [] => []
  | [c] => [[c]]
  | c1 :: c2 :: rest => [c1; c2] :: hexGroups rest
  end.

(** The byte the loop stores for a group. *)
Definition parseGroup (group : JSString) : byte := ToUint8 (parseInt16 group).

(** A string all of whose code units are radix-16 digits. *)
Definition isHexString (s : JSString) : bool := forallb isHexDigit s.

(** A lower-case radix-16 digit. *)
Definition isLowerHexDigit (c : N) : bool :=
  ((0x30 <=? c) && (c <=? 0x39)) || ((0x61 <=? c) && (c <=? 0x66)).

(** Every byte, and every byte string of a given length. *)
Definition allBytes : list byte := omap Byte.of_N (N.of_nat <$> seq 0 256).

Fixpoint allByteStrings (n : nat) : list (list byte) :=
  match n with
  | O => [[]]
  | S n' => b ← allBytes; (fun l => b :: l) <$> allByteStrings n'
  end.

(** The password of [i] letters [a]. *)
Definition lettersPassword (i : nat) : JSString := replicate i 0x61.

(** The bytes [encryptFile] draws from a generator: first the salt, then
    the IV. *)
Definition drawnSalt (g : RNG) : list byte := tape g <$> seq (cursor g) SALT_BYTES.
Definition drawnIV (g : RNG) : list byte :=
  tape g <$> seq (cursor g + SALT_BYTES) IV_BYTES.

(** The failure of the AEAD tag verification, as a promise shows it: a
    rejection whose error is named [OperationError]. *)
Definition AuthenticationFailure (r : Result (list byte)) : Prop :=
  exists e, r = Throw e /\ name e = js "OperationError".

(** The requests a submit handler sent. *)
Definition requestsSent (r : AppState * list Request * AuthOutcome) : list Request := r.1.2.

(** The calls of [saveFile] an upload made. *)
Definition savedCalls (r : AppState * RNG * list SaveFile * UploadOutcome) : list SaveFile :=
  r.1.2.


(** ** An executable platform

    An instance of [Platform] on which the flows evaluate. It meets the
    contracts stated above and has no cryptographic strength: the digest
    and the derived key are prefixes of their padded input, the cipher
    reverses the plaintext, and the tag is the sum of the bytes of the
    ciphertext modulo 256 followed by a prefix of IV and key. *)

Definition zeroPad (n : nat) (l : list byte) : list byte :=
  take n (l ++ replicate n x00).

Definition asciiLower (c : N) : N :=
  if (0x41 <=? c) && (c <=? 0x5A) then c + 0x20 else c.

Definition sumBytes (l : list byte) : N := foldr (fun b sum => Byte.to_N b + sum) 0 l.

Definition checksum (l : list byte) : byte :=
  default x00 (Byte.of_N (sumBytes l mod 256)).

Definition modelTag (K IV C : list byte) : list byte :=
  checksum C :: zeroPad 15 (IV ++ K).

#[local] Instance modelPlatform : Platform := {|
  digest_SHA256 data := zeroPad 32 data;
  PBKDF2_HMAC_SHA256 password salt iterations bits :=
    zeroPad (N.to_nat (bits / 8)) (password ++ salt);
  GCM_AE K IV P := (reverse P, modelTag K IV (reverse P));
  GCM_AD K IV C T := if decide (T = modelTag K IV C) then Some (reverse C) else None;
  OperationError_message := js "The operation failed for an operation-specific reason";
  TypeError_message := js "currentEmail is null";
  toLowerCase s := asciiLower <$> s;
|}.

(** An instance of [Environment] for the examples; its address and key
    are placeholders. *)
#[local] Instance modelEnvironment : Environment := {|
  QuotaExceededError_message := js "The requested length exceeds 65536 bytes";
  nullPropertyError_message := fun key =>
    js "Cannot read properties of null (reading '" ++ key ++ js "')";
  undefinedPropertyError_message := fun key =>
    js "Cannot read properties of undefined (reading '" ++ key ++ js "')";
  formatNonzeroFileSize := fun bytes => js "some bytes";
  MANAGED_CONFIG_url := js "https://project.example";
  MANAGED_CONFIG_key := js "anon-key";
|}.

(** ** Inputs of the examples *)

(** Generators: byte [i] of the tape is [start + i] modulo 256; a tape of
    zeros; and the tape of zeros with one byte of the IV changed. *)
Definition countingRNG (start : nat) : RNG :=
  {| tape i := byteOfN (N.of_nat (start + i)); cursor := 0 |}.
Definition zeroRNG : RNG := {| tape _ := x00; cursor := 0 |}.
Definition zeroSaltOtherIV : RNG :=
  {| tape i := if decide (i = 16%nat) then x01 else x00; cursor := 0 |}.

(** The spec's scenario: the 11 bytes of "hello world", the password
    "Str0ngP@ss!", the email "user@example.com". *)
Definition helloWorld : list byte := stringToBytes (js "hello world").
Definition demoEmail : JSString := js "user@example.com".
Definition demoPassword : JSString := js "Str0ngP@ss!".

(** A backend that accepts every request and a store that saves every
    file. *)
Definition acceptingServer : Server :=
  fun req =>
    Ok {| ok := true;
          response_body :=
            AuthJSON (Some {| detail := []; response_salt := snd <$> last (body req) |}) |}.
Definition acceptingStorage : Storage := fun _ => Ok tt.

(** A session, a file uploaded in it, and what the store then holds. *)
Definition demoToken : JSString := hashPassword demoPassword (authSalt_register demoEmail).
Definition demoState : AppState :=
  saveSession demoEmail demoToken (bufferToHex (authSalt_register demoEmail)) initialState.
Definition demoRegistration : AppState * list Request * AuthOutcome :=
  registerSubmit acceptingServer false (js " user@example.com ") demoPassword demoPassword
    initialState.
Definition demoFile : File := {| file_name := js "hello.txt"; file_data := helloWorld |}.
Definition demoTarget : DownloadTarget :=
  {| filename := js "hello.txt"; originalName := js "hello.txt" |}.
Definition demoEnvelope : Envelope := (encryptFile helloWorld demoToken (countingRNG 7)).1.
Definition demoMetadata : Metadata :=
  {| original_name := js "hello.txt"; original_size := 11;
     md_iv := iv demoEnvelope; md_salt := salt demoEnvelope;
     file_hash := fileHash demoEnvelope |}.


(** ** More of the client: helpers, session restore, listing, settings *)

(** *** validateEmail, read as a pattern *)

(** The strings the regular expression of [validateEmail] denotes: one or
    more characters of the first class, [@], one or more of the second
    class, a dot, two or more letters, and nothing else. *)
Definition matchesEmailPattern (email : JSString) : Prop :=
  exists localPart domain tld : JSString,
    email = localPart ++ [0x40] ++ domain ++ [0x2E] ++ tld
    /\ localPart <> [] /\ forallb isLocalChar localPart = true
    /\ domain <> [] /\ forallb isDomainChar domain = true
    /\ (2 <= length tld)%nat /\ forallb isAlpha tld = true.

(** *** SCSUI: password strength *)

Definition isLower (c : N) : bool := (0x61 <=? c) && (c <=? 0x7A).
Definition isUpper (c : N) : bool := (0x41 <=? c) && (c <=? 0x5A).
(** [[a-zA-Z0-9]] *)
Definition isAlphaNumeric (c : N) : bool := isLower c || isUpper c || isDigit c.

(** The object [getPasswordStrength] returns. *)
Record Strength := { level : JSString; label : JSString }.

(** The score [getPasswordStrength] counts: one point for each test that
    holds. A regular expression without anchors tests whether some code
    unit of the string is in its class. *)
Definition strengthScore (password : JSString) : nat :=
  let score := 0%nat in
  let score := if bool_decide (8 <= length password)%nat then S score else score in
  let score := if bool_decide (12 <= length password)%nat then S score else score in
  let score := if existsb isLower password && existsb isUpper password
               then S score else score in
  let score := if existsb isDigit password then S score else score in
  let score := if existsb (fun c => negb (isAlphaNumeric c)) password
               then S score else score in
  score.

Definition getPasswordStrength (password : JSString) : Strength :=
  let score := strengthScore password in
  if bool_decide (score <= 1)%nat then {| level := js "weak"; label := js "Weak" |}
  else if bool_decide (score <= 2)%nat then {| level := js "fair"; label := js "Fair" |}
  else if bool_decide (score <= 3)%nat then {| level := js "good"; label := js "Good" |}
  else {| level := js "strong"; label := js "Strong" |}.

(** [updatePasswordStrength]: the class of the bar, the class of the
    label and its text. *)
Definition updatePasswordStrength (password : JSString) : JSString * JSString * JSString :=
  match password with
  | [] => (js "password-strength-fill", js "password-strength-label", [])
  | _ =>
      let strength := getPasswordStrength password in
      (js "password-strength-fill " ++ level strength,
       js "password-strength-label " ++ level strength,
       label strength)
  end.

(** The four levels in the order of the thresholds. *)
Definition strengthRank (s : Strength) : nat :=
  if bool_decide (level s = js "weak") then 0
  else if bool_decide (level s = js "fair") then 1
  else if bool_decide (level s = js "good") then 2
  else 3.

(** *** SCSCrypto: secureClear *)

Section SecureClear.
Context `{Environment}.

(** The exception [crypto.getRandomValues] throws for a view of more than
    65536 bytes. *)
Definition QuotaExceededError : JSError :=
  {| name := js "QuotaExceededError"; message := QuotaExceededError_message |}.

(** [crypto.getRandomValues(view)] on a view of any length: it fills the
    view, or throws and leaves view and generator as they were. *)
Definition getRandomValues_into (view : list byte) (g : RNG) : Result (list byte) * RNG :=
  if 65536 <? N.of_nat (length view) then (Throw QuotaExceededError, g)
  else let '(random, g) := getRandomValues (length view) g in (Ok random, g).

(** [secureClear] on a [Uint8Array] or an [ArrayBuffer]: the bytes the
    buffer holds afterwards, what the call completed with, and the
    generator. (For any other value the function does nothing.) *)
Definition secureClear (buffer : list byte) (g : RNG) : list byte * Result unit * RNG :=
  match getRandomValues_into buffer g with
  | (Ok view, g) => ((fun _ => x00) <$> view, Ok tt, g)
  | (Throw e, g) => (buffer, Throw e, g)
  end.

End SecureClear.

(** *** Session restore *)

(** The controller's variables when the page has just loaded, with what
    the tab's [sessionStorage] holds. *)
Definition pageLoad (storage : gmap JSString JSString) : AppState :=
  {| currentEmail := None; currentPasswordHash := None; currentSalt := None;
     isUploading := false; sessionStorage := storage |}.

(** A value [getItem] returned is truthy when it is a string that is not
    empty. *)
Definition truthy (v : option JSString) : bool :=
  match v with
  | Some (_ :: _) => true
  | _ => false
  end.

(** [restoreSession]: the state, and whether the dashboard was entered. *)
Definition restoreSession (st : AppState) : AppState * bool :=
  let email := sessionStorage st !! js "scs_email" in
  let hash := sessionStorage st !! js "scs_hash" in
  let salt := sessionStorage st !! js "scs_salt" in
  if truthy email && truthy hash && truthy salt then
    ({| currentEmail := email; currentPasswordHash := hash; currentSalt := salt;
        isUploading := isUploading st; sessionStorage := sessionStorage st |}, true)
  else (st, false).

(** *** The file list *)

(** An element of the list [SCSStorage.listFiles] settles to. A name is
    a string, or absent ([None]: the member is missing or [null]); a
    size that is absent is 0, the value the code puts in its place. *)
Record FileEntry := {
  entry_original_name : option JSString;
  entry_stored_name : option JSString;
  entry_original_size : N;
  entry_uploaded_at : JSString;
  entry_encrypted_size : N;
}.

(** [f.original_name || f.stored_name]: the first name unless it is absent
    or empty, otherwise the second, which may be absent. *)
Definition entryName (f : FileEntry) : option JSString :=
  match entry_original_name f with
  | Some (c :: name) => Some (c :: name)
  | _ => entry_stored_name f
  end.

(** [Array.prototype.filter] with a test that may throw: the elements are
    tested in order, and the first exception ends the call. *)
Fixpoint filterResult {A} (test : A -> Result bool) (l : list A) : Result (list A) :=
  match l with
  | [] => Ok []
  | x :: l =>
      match test x with
      | Ok keep =>
          match filterResult test l with
          | Ok kept => Ok (if keep then x :: kept else kept)
          | Throw err => Throw err
          end
      | Throw err => Throw err
      end
  end.

(** What [renderFileList] leaves in the list: the empty state with its two
    texts, or one card per file. *)
Inductive FileListView :=
| EmptyState (text sub : JSString)
| FileCards (files : list FileEntry).

Section FileList.
Context `{Platform} `{Environment}.

(** The test of the search filter on one file:
    [(f.original_name || f.stored_name).toLowerCase().includes(filter.toLowerCase())].
    Calling [toLowerCase] on a name that is absent throws a [TypeError]. *)
Definition nameIncludes (query : JSString) (f : FileEntry) : Result bool :=
  match entryName f with
  | Some fileName => Ok (includes (toLowerCase fileName) (toLowerCase query))
  | None => Throw (undefinedPropertyError (js "toLowerCase"))
  end.

(** The files [renderFileList] keeps for a search query. Without a query
    the names are not read. *)
Definition filteredFiles (files : list FileEntry) (query : JSString)
  : Result (list FileEntry) :=
  match query with
  | [] => Ok files
  | _ => filterResult (nameIncludes query) files
  end.

(** [renderFileList]: what it leaves in the list, or the exception it
    throws before it has changed anything. *)
Definition renderFileList (files : list FileEntry) (query : JSString)
  : Result FileListView :=
  match filteredFiles files query with
  | Ok [] =>
      match query with
      | [] => Ok (EmptyState (js "No files yet") (js "Upload your first file to get started"))
      | _ => Ok (EmptyState (js "No matches found")
                   (js "Adjust your search for " ++ [0x22] ++ query ++ [0x22]))
      end
  | Ok shown => Ok (FileCards shown)
  | Throw err => Throw err
  end.

(** [formatFileSize]: only the size 0 has a text that does not depend on
    floating point. *)
Definition formatFileSize (bytes : N) : JSString :=
  if bytes =? 0 then js "0 B" else formatNonzeroFileSize bytes.

(** [updateStats]: the number of files and the text of the storage used. *)
Definition updateStats (files : list FileEntry) : nat * JSString :=
  let totalSize := foldl (fun sum f => sum + entry_encrypted_size f) 0 files in
  (length files, formatFileSize totalSize).

End FileList.

(** ** The storage stack: SCSApi, the two providers, SCSStorage *)

(** A value that is a string or [null], where the platform converts it to
    a string ([FormData.append], [URLSearchParams]). *)
Definition ToString (v : option JSString) : JSString := default (js "null") v.

(** *** The requests of the file operations *)

Inductive FormValue :=
| FormString (value : JSString)
| FormJSON (metadata : Metadata)
| FormBlob (blob : list byte) (blobName : JSString).

(** The body of a [fetch] call: none, the members of the object given to
    [JSON.stringify] (a member that is [null] is [None]), or the fields
    appended to a [FormData], in order. *)
Inductive Payload :=
| NoBody
| JSONBody (members : list (JSString * option JSString))
| FormBody (fields : list (JSString * FormValue)).

(** A [fetch] call of a file operation. [api_params] holds the entries of
    the [URLSearchParams] that follow the [?] of the URL. *)
Record ApiRequest := {
  api_url : JSString;
  api_params : list (JSString * JSString);
  api_method : JSString;
  api_headers : list (JSString * JSString);
  api_payload : Payload;
}.

(** The members of a parsed body that the client reads. [data_detail] is
    the text [new Error(data.detail)] gets, the empty string when the
    member is absent or falsy. *)
Record Data := {
  data_detail : JSString;
  data_files : option (list FileEntry);
  data_metadata : option Metadata;
}.

(** The body of a response: not JSON ([response.json()] rejects), or a
    JSON value, [None] for [null]. *)
Inductive ResponseBody :=
| NotJSON
| JSONValue (value : option Data).

Record HttpResponse := {
  res_ok : bool;
  res_body : ResponseBody;
  res_arrayBuffer : list byte;
}.

(** The backend and the network for the file operations. *)
Definition Backend := ApiRequest -> Result HttpResponse.

(** *** The Supabase client *)

Definition BUCKET_NAME : JSString := js "scs_files".
Definition TABLE_NAME : JSString := js "scs_metadata".

(** A row of the table [scs_metadata]. *)
Record MetadataRow := {
  row_email : option JSString;
  row_filename : JSString;
  row_metadata : Metadata;
  row_updated_at : JSString;
}.

(** The calls the provider makes on the client of the Supabase library,
    with the arguments it gives them. *)
Inductive SupabaseCall :=
| StorageUpload (bucket path : JSString) (blob : list byte) (upsert : bool)
    (contentType : JSString)
| StorageDownload (bucket path : JSString)
| StorageRemove (bucket : JSString) (paths : list JSString)
| TableUpsert (table : JSString) (row : MetadataRow) (onConflict : JSString)
| TableSelect (table columns : JSString) (eqs : list (JSString * option JSString))
    (order : option (JSString * bool)) (single : bool)
| TableDelete (table : JSString) (eqs : list (JSString * option JSString)).

(** The object [{ data, error }] a call resolves to: the message of
    [error] when there is one, and [data] as the provider reads it (the
    rows of a select, the [metadata] member of a single row, the bytes of
    a downloaded blob). *)
Record SupabaseReply := {
  reply_error : option JSString;
  reply_rows : list MetadataRow;
  reply_metadata : option Metadata;
  reply_blob : list byte;
}.

(** A client made by [supabase.createClient]: the project behind it. *)
Definition SupabaseClient := SupabaseCall -> SupabaseReply.

(** [supabase.createClient(url, key)] of the Supabase library: the client,
    or [None] when it throws. *)
Class SupabaseLibrary := {
  createClient : JSString -> JSString -> option SupabaseClient;
}.

(** *** Operations that call out *)

(** A call that left the page. *)
Inductive Call :=
| AuthFetch (req : Request)
| Fetch (req : ApiRequest)
| Supabase (call : SupabaseCall).

(** What an asynchronous operation settled to, and the calls it made on
    the way, in order. *)
Record Traced (A : Type) := { outcome : Result A; trace : list Call }.
Arguments outcome {A} _.
Arguments trace {A} _.

#[global] Instance Traced_ret : MRet Traced :=
  fun A a => {| outcome := Ok a; trace := [] |}.
#[global] Instance Traced_bind : MBind Traced :=
  fun A B f m =>
    match outcome m with
    | Ok a => {| outcome := outcome (f a); trace := trace m ++ trace (f a) |}
    | Throw e => {| outcome := Throw e; trace := trace m |}
    end.

Definition throw {A} (e : JSError) : Traced A := {| outcome := Throw e; trace := [] |}.
Definition settled {A} (r : Result A) : Traced A := {| outcome := r; trace := [] |}.
Definition fetch (backend : Backend) (req : ApiRequest) : Traced HttpResponse :=
  {| outcome := backend req; trace := [Fetch req] |}.
Definition supabaseCall (client : SupabaseClient) (call : SupabaseCall) : Traced SupabaseReply :=
  {| outcome := Ok (client call); trace := [Supabase call] |}.

(** The value a storage operation resolves to when the caller only
    awaits it: the parsed body of the backend, or the object literal of
    the Supabase provider. *)
Inductive Settled :=
| ServerData (data : option Data)
| StatusObject (members : list (JSString * JSString)).

Section StorageStack.
Context `{Platform} `{Environment} `{SupabaseLibrary}.

(** *** SCSApi *)

(** [parseResponse] *)
Definition parseResponse (response : HttpResponse) : option Data :=
  match res_body response with
  | JSONValue value => value
  | NotJSON =>
      Some {| data_detail := js "Unexpected server response.";
              data_files := None; data_metadata := None |}
  end.

(** Reading [data.key]: a [TypeError] when [data] is [null]. *)
Definition member {A} (key : JSString) (get : Data -> A) (data : option Data) : Result A :=
  match data with
  | Some d => Ok (get d)
  | None => Throw {| name := js "TypeError"; message := nullPropertyError_message key |}
  end.

Definition uploadFile_request (email passwordHash : option JSString)
    (encryptedBlob : list byte) (metadata : Metadata) (filename : JSString) : ApiRequest :=
  {| api_url := BASE_URL ++ js "/upload"; api_params := [];
     api_method := js "POST"; api_headers := [];
     api_payload :=
       FormBody [(js "email", FormString (ToString email));
                 (js "password_hash", FormString (ToString passwordHash));
                 (js "metadata", FormJSON metadata);
                 (js "file", FormBlob encryptedBlob filename)] |}.

Definition SCSApi_uploadFile (backend : Backend) (email passwordHash : option JSString)
    (encryptedBlob : list byte) (metadata : Metadata) (filename : JSString)
  : Traced (option Data) :=
  res ← fetch backend (uploadFile_request email passwordHash encryptedBlob metadata filename);
  let data := parseResponse res in
  if negb (res_ok res) then
    detail ← settled (member (js "detail") data_detail data);
    throw (Error (orElse detail (js "Upload failed.")))
  else mret data.

Definition getFileInfo_request (email : option JSString) (filename : JSString) : ApiRequest :=
  {| api_url := BASE_URL ++ js "/download";
     api_params := [(js "email", ToString email); (js "filename", filename)];
     api_method := js "GET"; api_headers := []; api_payload := NoBody |}.

Definition SCSApi_getFileInfo (backend : Backend) (email : option JSString)
    (filename : JSString) : Traced (option Data) :=
  res ← fetch backend (getFileInfo_request email filename);
  let data := parseResponse res in
  if negb (res_ok res) then
    detail ← settled (member (js "detail") data_detail data);
    throw (Error (orElse detail (js "File not found.")))
  else mret data.

Definition downloadBlob_request (email : option JSString) (filename : JSString) : ApiRequest :=
  {| api_url := BASE_URL ++ js "/download/blob";
     api_params := [(js "email", ToString email); (js "filename", filename)];
     api_method := js "GET"; api_headers := []; api_payload := NoBody |}.

Definition SCSApi_downloadBlob (backend : Backend) (email : option JSString)
    (filename : JSString) : Traced (list byte) :=
  res ← fetch backend (downloadBlob_request email filename);
  if negb (res_ok res) then
    let data := parseResponse res in
    detail ← settled (member (js "detail") data_detail data);
    throw (Error (orElse detail (js "Download failed.")))
  else mret (res_arrayBuffer res).

Definition listFiles_request (email : option JSString) : ApiRequest :=
  {| api_url := BASE_URL ++ js "/files";
     api_params := [(js "email", ToString email)];
     api_method := js "GET"; api_headers := []; api_payload := NoBody |}.

Definition SCSApi_listFiles (backend : Backend) (email : option JSString)
  : Traced (option Data) :=
  res ← fetch backend (listFiles_request email);
  let data := parseResponse res in
  if negb (res_ok res) then
    detail ← settled (member (js "detail") data_detail data);
    throw (Error (orElse detail (js "Failed to load files.")))
  else mret data.

Definition deleteFile_request (email : option JSString) (filename : JSString)
    (passwordHash : option JSString) : ApiRequest :=
  {| api_url := BASE_URL ++ js "/delete"; api_params := [];
     api_method := js "DELETE";
     api_headers := [(js "Content-Type", js "application/json")];
     api_payload :=
       JSONBody [(js "email", email); (js "filename", Some filename);
                 (js "password_hash", passwordHash)] |}.

Definition SCSApi_deleteFile (backend : Backend) (email : option JSString)
    (filename : JSString) (passwordHash : option JSString) : Traced (option Data) :=
  res ← fetch backend (deleteFile_request email filename passwordHash);
  let data := parseResponse res in
  if negb (res_ok res) then
    detail ← settled (member (js "detail") data_detail data);
    throw (Error (orElse detail (js "Delete failed.")))
  else mret data.

(** *** SCSLocalProvider *)

Definition SCSLocalProvider_saveFile (backend : Backend) (email passwordHash : option JSString)
    (encryptedBlob : list byte) (metadata : Metadata) (filename : JSString)
  : Traced Settled :=
  data ← SCSApi_uploadFile backend email passwordHash encryptedBlob metadata filename;
  mret (ServerData data).

(** [data.files || []] *)
Definition SCSLocalProvider_listFiles (backend : Backend) (email : option JSString)
  : Traced (list FileEntry) :=
  data ← SCSApi_listFiles backend email;
  files ← settled (member (js "files") data_files data);
  mret (default [] files).

Definition SCSLocalProvider_getFileBlob (backend : Backend) (email : option JSString)
    (filename : JSString) : Traced (list byte) :=
  SCSApi_downloadBlob backend email filename.

(** [data.metadata], [None] when the member is absent. *)
Definition SCSLocalProvider_getMetadata (backend : Backend) (email : option JSString)
    (filename : JSString) : Traced (option Metadata) :=
  data ← SCSApi_getFileInfo backend email filename;
  settled (member (js "metadata") data_metadata data).

Definition SCSLocalProvider_deleteFile (backend : Backend) (email : option JSString)
    (filename : JSString) (passwordHash : option JSString) : Traced Settled :=
  data ← SCSApi_deleteFile backend email filename passwordHash;
  mret (ServerData data).

(** *** SCSSupabaseProvider *)

(** [SCSSupabaseProvider.init]: whether it succeeded, and the module's
    [supabaseClient] afterwards. *)
Definition SCSSupabaseProvider_init (url key : option JSString) (isManaged : bool)
    (supabaseClient : option SupabaseClient) : bool * option SupabaseClient :=
  let targetUrl := if isManaged then Some MANAGED_CONFIG_url else url in
  let targetKey := if isManaged then Some MANAGED_CONFIG_key else key in
  if negb (truthy targetUrl) || negb (truthy targetKey) then (false, supabaseClient)
  else
    match createClient (default [] targetUrl) (default [] targetKey) with
    | Some client => (true, Some client)
    | None => (false, supabaseClient)
    end.

(** [await SCSCrypto.hashEmail(email)]: [email.toLowerCase()] throws when
    [email] is [null]. *)
Definition hashEmail_of (email : option JSString) : Result JSString :=
  match email with
  | Some email => Ok (hashEmail email)
  | None => Throw nullEmailError
  end.

(** The path of a blob in the bucket. *)
Definition filePath (emailHash filename : JSString) : JSString :=
  emailHash ++ js "/" ++ filename.

(** [saveFile]. [now] is [new Date().toISOString()] at the time of the
    second step. *)
Definition SCSSupabaseProvider_saveFile (supabaseClient : option SupabaseClient)
    (now : JSString) (email passwordHash : option JSString) (encryptedBlob : list byte)
    (metadata : Metadata) (filename : JSString) : Traced Settled :=
  match supabaseClient with
  | None => throw (Error (js "Supabase not initialized."))
  | Some client =>
      emailHash ← settled (hashEmail_of email);
      let filePath := filePath emailHash filename in
      uploaded ← supabaseCall client
        (StorageUpload BUCKET_NAME filePath encryptedBlob true (js "application/octet-stream"));
      match reply_error uploaded with
      | Some uploadError => throw (Error (js "Supabase Upload failed: " ++ uploadError))
      | None =>
          stored ← supabaseCall client
            (TableUpsert TABLE_NAME
               {| row_email := email; row_filename := filename;
                  row_metadata := metadata; row_updated_at := now |}
               (js "email, filename"));
          match reply_error stored with
          | Some dbError => throw (Error (js "Supabase DB update failed: " ++ dbError))
          | None =>
              mret (StatusObject [(js "status", js "success"); (js "source", js "supabase")])
          end
      end
  end.

(** The element [listFiles] makes of a row. It has no [encrypted_size]. *)
Definition rowEntry (item : MetadataRow) : FileEntry :=
  {| entry_original_name := Some (row_filename item);
     entry_stored_name := Some (row_filename item);
     entry_original_size := original_size (row_metadata item);
     entry_uploaded_at := row_updated_at item;
     entry_encrypted_size := 0 |}.

Definition SCSSupabaseProvider_listFiles (supabaseClient : option SupabaseClient)
    (email : option JSString) : Traced (list FileEntry) :=
  match supabaseClient with
  | None => throw (Error (js "Supabase not initialized."))
  | Some client =>
      reply ← supabaseCall client
        (TableSelect TABLE_NAME (js "*") [(js "email", email)]
           (Some (js "updated_at", false)) false);
      match reply_error reply with
      | Some error => throw (Error (js "Supabase list failed: " ++ error))
      | None => mret (rowEntry <$> reply_rows reply)
      end
  end.

Definition SCSSupabaseProvider_getFileBlob (supabaseClient : option SupabaseClient)
    (email : option JSString) (filename : JSString) : Traced (list byte) :=
  match supabaseClient with
  | None => throw (Error (js "Supabase not initialized."))
  | Some client =>
      emailHash ← settled (hashEmail_of email);
      let filePath := filePath emailHash filename in
      reply ← supabaseCall client (StorageDownload BUCKET_NAME filePath);
      match reply_error reply with
      | Some error => throw (Error (js "Supabase download failed: " ++ error))
      | None => mret (reply_blob reply)
      end
  end.

Definition SCSSupabaseProvider_getMetadata (supabaseClient : option SupabaseClient)
    (email : option JSString) (filename : JSString) : Traced (option Metadata) :=
  match supabaseClient with
  | None => throw (Error (js "Supabase not initialized."))
  | Some client =>
      reply ← supabaseCall client
        (TableSelect TABLE_NAME (js "metadata")
           [(js "email", email); (js "filename", Some filename)] None true);
      match reply_error reply with
      | Some error => throw (Error (js "Supabase metadata fetch failed: " ++ error))
      | None => mret (reply_metadata reply)
      end
  end.

Definition SCSSupabaseProvider_deleteFile (supabaseClient : option SupabaseClient)
    (email : option JSString) (filename : JSString) (passwordHash : option JSString)
  : Traced Settled :=
  match supabaseClient with
  | None => throw (Error (js "Supabase not initialized."))
  | Some client =>
      emailHash ← settled (hashEmail_of email);
      let filePath := filePath emailHash filename in
      removed ← supabaseCall client (StorageRemove BUCKET_NAME [filePath]);
      match reply_error removed with
      | Some storageError => throw (Error (js "Supabase delete failed: " ++ storageError))
      | None =>
          deleted ← supabaseCall client
            (TableDelete TABLE_NAME [(js "email", email); (js "filename", Some filename)]);
          match reply_error deleted with
          | Some dbError => throw (Error (js "Supabase DB delete failed: " ++ dbError))
          | None => mret (StatusObject [(js "status", js "success")])
          end
      end
  end.

(** *** SCSStorage *)

Inductive Provider := SCSLocalProvider | SCSSupabaseProvider.

Definition provider_name (provider : Provider) : JSString :=
  match provider with
  | SCSLocalProvider => js "Local Server"
  | SCSSupabaseProvider => js "Supabase Cloud"
  end.

(** The state the storage modules keep: [currentProvider] of SCSStorage,
    [supabaseClient] of SCSSupabaseProvider, and the browser's
    [localStorage]. *)
Record Modules := {
  currentProvider : option Provider;
  supabaseClient : option SupabaseClient;
  localStorage : gmap JSString JSString;
}.

(** The modules when the scripts have just been evaluated. *)
Definition scriptsLoaded (stored : gmap JSString JSString) : Modules :=
  {| currentProvider := None; supabaseClient := None; localStorage := stored |}.

Definition setProvider (provider : Provider) (m : Modules) : Modules :=
  {| currentProvider := Some provider; supabaseClient := supabaseClient m;
     localStorage := localStorage m |}.

Definition getProviderName (m : Modules) : JSString :=
  match currentProvider m with
  | Some provider => provider_name provider
  | None => js "None"
  end.

Definition noProvider : JSError := Error (js "No storage provider configured.").

Definition SCSStorage_saveFile (backend : Backend) (now : JSString) (m : Modules)
    (email passwordHash : option JSString) (encryptedBlob : list byte)
    (metadata : Metadata) (filename : JSString) : Traced Settled :=
  match currentProvider m with
  | None => throw noProvider
  | Some SCSLocalProvider =>
      SCSLocalProvider_saveFile backend email passwordHash encryptedBlob metadata filename
  | Some SCSSupabaseProvider =>
      SCSSupabaseProvider_saveFile (supabaseClient m) now email passwordHash
        encryptedBlob metadata filename
  end.

Definition SCSStorage_listFiles (backend : Backend) (m : Modules) (email : option JSString)
  : Traced (list FileEntry) :=
  match currentProvider m with
  | None => throw noProvider
  | Some SCSLocalProvider => SCSLocalProvider_listFiles backend email
  | Some SCSSupabaseProvider => SCSSupabaseProvider_listFiles (supabaseClient m) email
  end.

Definition SCSStorage_getFileBlob (backend : Backend) (m : Modules) (email : option JSString)
    (filename : JSString) : Traced (list byte) :=
  match currentProvider m with
  | None => throw noProvider
  | Some SCSLocalProvider => SCSLocalProvider_getFileBlob backend email filename
  | Some SCSSupabaseProvider =>
      SCSSupabaseProvider_getFileBlob (supabaseClient m) email filename
  end.

Definition SCSStorage_deleteFile (backend : Backend) (m : Modules) (email : option JSString)
    (filename : JSString) (passwordHash : option JSString) : Traced Settled :=
  match currentProvider m with
  | None => throw noProvider
  | Some SCSLocalProvider => SCSLocalProvider_deleteFile backend email filename passwordHash
  | Some SCSSupabaseProvider =>
      SCSSupabaseProvider_deleteFile (supabaseClient m) email filename passwordHash
  end.

Definition SCSStorage_getMetadata (backend : Backend) (m : Modules) (email : option JSString)
    (filename : JSString) : Traced (option Metadata) :=
  match currentProvider m with
  | None => throw noProvider
  | Some SCSLocalProvider => SCSLocalProvider_getMetadata backend email filename
  | Some SCSSupabaseProvider =>
      SCSSupabaseProvider_getMetadata (supabaseClient m) email filename
  end.

(** *** The controller: storage settings *)

(** [localStorage.getItem(key) || fallback] *)
Definition getItemOr (stored : gmap JSString JSString) (key fallback : JSString) : JSString :=
  match stored !! key with
  | Some (c :: v) => c :: v
  | _ => fallback
  end.

(** [initStorage] *)
Definition initStorage (m : Modules) : Modules :=
  let provider := getItemOr (localStorage m) (js "scs_provider") (js "managed") in
  if bool_decide (provider = js "supabase") then
    let url := localStorage m !! js "scs_supabase_url" in
    let key := localStorage m !! js "scs_supabase_key" in
    let '(initialised, client) := SCSSupabaseProvider_init url key false (supabaseClient m) in
    let m := {| currentProvider := currentProvider m; supabaseClient := client;
                localStorage := localStorage m |} in
    if initialised then setProvider SCSSupabaseProvider m
    else setProvider SCSLocalProvider m
  else if bool_decide (provider = js "managed") then
    let '(initialised, client) := SCSSupabaseProvider_init None None true (supabaseClient m) in
    let m := {| currentProvider := currentProvider m; supabaseClient := client;
                localStorage := localStorage m |} in
    if initialised then setProvider SCSSupabaseProvider m
    else setProvider SCSLocalProvider m
  else setProvider SCSLocalProvider m.

Definition setItem (key value : JSString) (m : Modules) : Modules :=
  {| currentProvider := currentProvider m; supabaseClient := supabaseClient m;
     localStorage := <[key := value]> (localStorage m) |}.

(** The click handler of the save button of the settings: the modules
    afterwards and the text of the toast. [provider] is the value of the
    select, [urlField] and [keyField] the values of the two inputs. (The
    handler then reloads the file list when a user is signed in.) *)
Definition saveSettings (provider urlField keyField : JSString) (m : Modules)
  : Modules * JSString :=
  let m := setItem (js "scs_provider") provider m in
  let m :=
    if bool_decide (provider = js "supabase") then
      let url := trim urlField in
      let key := trim keyField in
      setItem (js "scs_supabase_key") key (setItem (js "scs_supabase_url") url m)
    else m in
  let m := initStorage m in
  (m, js "Storage provider updated to " ++ getProviderName m).

(** *** The controller on top of SCSStorage *)

(** [SCSStorage.saveFile] as [handleFileUpload] uses it: it awaits the
    call and ignores the value. *)
Definition storageOf (backend : Backend) (now : JSString) (m : Modules) : Storage :=
  fun call =>
    _ ← outcome (SCSStorage_saveFile backend now m (save_email call)
                   (save_passwordHash call) (save_blob call) (save_metadata call)
                   (save_filename call));
    Ok tt.

(** The calls that leave the page for a call of [SCSStorage.saveFile]. *)
Definition callsOf (backend : Backend) (now : JSString) (m : Modules) (call : SaveFile)
  : list Call :=
  trace (SCSStorage_saveFile backend now m (save_email call) (save_passwordHash call)
           (save_blob call) (save_metadata call) (save_filename call)).

End StorageStack.

(** *** The controller: file list and delete *)

(** The dashboard: the session, the storage modules, the controller's
    [cachedFiles] and [deleteTarget], and what the page shows, the file
    list as [renderFileList] last drew it and the two statistics. *)
Record Dashboard := {
  session : AppState;
  modules : Modules;
  cachedFiles : list FileEntry;
  deleteTarget : option DownloadTarget;
  fileList : FileListView;
  stats : nat * JSString;
}.

(** A call of [SCSUI.showToast]. *)
Record Toast := { toast_message : JSString; toast_type : JSString }.

Section DashboardHandlers.
Context `{Platform} `{Environment} `{SupabaseLibrary}.

(** [loadFiles]: the dashboard afterwards, the calls made and the toasts
    shown. [cachedFiles] is assigned before the list is drawn. *)
Definition loadFiles (backend : Backend) (d : Dashboard)
  : Dashboard * list Call * list Toast :=
  let listed := SCSStorage_listFiles backend (modules d) (currentEmail (session d)) in
  match outcome listed with
  | Ok data =>
      match renderFileList data [] with
      | Ok drawn =>
          ({| session := session d; modules := modules d;
              cachedFiles := data; deleteTarget := deleteTarget d;
              fileList := drawn; stats := updateStats data |},
           trace listed, [])
      | Throw err =>
          ({| session := session d; modules := modules d;
              cachedFiles := data; deleteTarget := deleteTarget d;
              fileList := fileList d; stats := stats d |},
           trace listed,
           [{| toast_message := js "Failed to load files: " ++ message err;
               toast_type := js "error" |}])
      end
  | Throw err =>
      (d, trace listed,
       [{| toast_message := js "Failed to load files: " ++ message err;
           toast_type := js "error" |}])
  end.

(** The handler of the search box. An exception of [renderFileList] ends
    the handler and leaves the list as it was. *)
Definition searchInput (value : JSString) (d : Dashboard) : Dashboard :=
  let query := trim value in
  match renderFileList (cachedFiles d) query with
  | Ok drawn =>
      {| session := session d; modules := modules d;
         cachedFiles := cachedFiles d; deleteTarget := deleteTarget d;
         fileList := drawn; stats := stats d |}
  | Throw _ => d
  end.

Definition setDeleteTarget (target : option DownloadTarget) (d : Dashboard) : Dashboard :=
  {| session := session d; modules := modules d;
     cachedFiles := cachedFiles d; deleteTarget := target;
     fileList := fileList d; stats := stats d |}.

(** [confirmDelete], and the handlers that dismiss the dialog (the cancel
    button, a click on the overlay). *)
Definition confirmDelete (filename originalName : JSString) (d : Dashboard) : Dashboard :=
  setDeleteTarget (Some {| filename := filename; originalName := originalName |}) d.

Definition cancelDelete (d : Dashboard) : Dashboard := setDeleteTarget None d.

(** [performDelete] up to its first [await]: nothing without a target,
    otherwise the call of [SCSStorage.deleteFile] it waits for. The
    controller's variables are not touched. *)
Definition performDelete_call (backend : Backend) (d : Dashboard) : option (Traced Settled) :=
  match deleteTarget d with
  | None => None
  | Some target =>
      Some (SCSStorage_deleteFile backend (modules d) (currentEmail (session d))
              (filename target) (currentPasswordHash (session d)))
  end.

(** [performDelete] from the moment the call has settled, on the
    dashboard as it is then: the rest of the [try] block, the [catch] and
    the [finally]. Reading [deleteTarget.originalName] throws when
    [deleteTarget] is [null]. *)
Definition performDelete_settled (backend : Backend) (result : Result Settled) (d : Dashboard)
  : Dashboard * list Call * list Toast :=
  let tried : Result (Dashboard * list Call * list Toast) :=
    _ ← result;
    target ← match deleteTarget d with
             | Some target => Ok target
             | None => Throw {| name := js "TypeError";
                                message := nullPropertyError_message (js "originalName") |}
             end;
    let deleted := {| toast_message := [0x22] ++ originalName target ++ [0x22] ++ js " deleted.";
                      toast_type := js "success" |} in
    let '(d, calls, toasts) := loadFiles backend d in
    Ok (d, calls, deleted :: toasts) in
  let '(d, calls, toasts) :=
    match tried with
    | Ok done => done
    | Throw err =>
        (d, [], [{| toast_message := js "Delete failed: " ++ message err;
                    toast_type := js "error" |}])
    end in
  (setDeleteTarget None d, calls, toasts).

(** [performDelete] when no other handler runs before it has finished. *)
Definition performDelete (backend : Backend) (d : Dashboard)
  : Dashboard * list Call * list Toast :=
  match performDelete_call backend d with
  | None => (d, [], [])
  | Some called =>
      let '(d, calls, toasts) := performDelete_settled backend (outcome called) d in
      (d, trace called ++ calls, toasts)
  end.

End DashboardHandlers.

(** *** The controller: leaving and entering the dashboard *)

Definition withSession (st : AppState) (d : Dashboard) : Dashboard :=
  {| session := st; modules := modules d; cachedFiles := cachedFiles d;
     deleteTarget := deleteTarget d; fileList := fileList d; stats := stats d |}.

(** The click handler of the logout button: [clearSession], then the
    sign-in screen and a toast. *)
Definition logout (d : Dashboard) : Dashboard * list Toast :=
  (withSession (clearSession (session d)) d,
   [{| toast_message := js "Signed out securely."; toast_type := js "info" |}]).

Section SignIn.
Context `{Platform} `{Environment} `{SupabaseLibrary}.

(** The registration form on the page: [registerSubmit], whose success
    path calls [enterDashboard], which starts [loadFiles] without waiting
    for it, so that the toast of the handler comes first. The dashboard
    afterwards, every call that left the page, in order, and the toasts
    shown. *)
Definition registerRun (server : Server) (backend : Backend) (btnDisabled : bool)
    (emailField passwordField confirmField : JSString) (d : Dashboard)
  : Dashboard * list Call * list Toast :=
  let '(st, sent, result) :=
    registerSubmit server btnDisabled emailField passwordField confirmField (session d) in
  let d := withSession st d in
  match result with
  | EnteredDashboard welcome =>
      let '(d, listed, toasts) := loadFiles backend d in
      (d, (AuthFetch <$> sent) ++ listed,
       {| toast_message := welcome; toast_type := js "success" |} :: toasts)
  | AuthFailed text =>
      (d, AuthFetch <$> sent, [{| toast_message := text; toast_type := js "error" |}])
  | _ => (d, AuthFetch <$> sent, [])
  end.

(** The login form on the page, in the same way. *)
Definition loginRun (server : Server) (backend : Backend) (btnDisabled : bool)
    (emailField passwordField : JSString) (d : Dashboard)
  : Dashboard * list Call * list Toast :=
  let '(st, sent, result) :=
    loginSubmit server btnDisabled emailField passwordField (session d) in
  let d := withSession st d in
  match result with
  | EnteredDashboard welcome =>
      let '(d, listed, toasts) := loadFiles backend d in
      (d, (AuthFetch <$> sent) ++ listed,
       {| toast_message := welcome; toast_type := js "success" |} :: toasts)
  | AuthFailed text =>
      (d, AuthFetch <$> sent, [{| toast_message := text; toast_type := js "error" |}])
  | _ => (d, AuthFetch <$> sent, [])
  end.

(** The dashboard and the toasts of a login. *)
Definition loginOnPage (server : Server) (backend : Backend) (btnDisabled : bool)
    (emailField passwordField : JSString) (d : Dashboard) : Dashboard * list Toast :=
  let '(d, _, toasts) :=
    loginRun server backend btnDisabled emailField passwordField d in
  (d, toasts).

End SignIn.

(** *** The controller: an upload on the dashboard *)

Section UploadOnPage.
Context `{Platform} `{Environment} `{SupabaseLibrary}.

(** [handleFileUpload] on the page, with SCSStorage as the store and with
    the timer the handler sets after a success, which runs
    [resetUploadZone] and [loadFiles]. The dashboard when the timer has
    run, the generator, every call that left the page, in order, and the
    toasts shown. [now] is the time of the upload. *)
Definition uploadOnPage (backend : Backend) (now : JSString) (file : File)
    (d : Dashboard) (g : RNG) : Dashboard * RNG * list Call * list Toast :=
  let '(st, g, saved, result) :=
    handleFileUpload (storageOf backend now (modules d)) file (session d) g in
  let calls := concat (callsOf backend now (modules d) <$> saved) in
  let d := withSession st d in
  match result with
  | UploadBusy =>
      (d, g, calls,
       [{| toast_message := js "Please wait for the current upload to finish.";
           toast_type := js "info" |}])
  | UploadTooLarge =>
      (d, g, calls,
       [{| toast_message := js "File too large. Maximum size is 50 MB.";
           toast_type := js "error" |}])
  | Uploaded text =>
      let '(d, listed, toasts) := loadFiles backend d in
      (d, g, calls ++ listed,
       {| toast_message := text; toast_type := js "success" |} :: toasts)
  | UploadFailed text =>
      (d, g, calls, [{| toast_message := text; toast_type := js "error" |}])
  end.

End UploadOnPage.

(** ** More vocabulary of the statements *)

(** The test of the search filter on a file, [false] for a file without
    a name. *)
Definition nameMatches `{Platform} (query : JSString) (f : FileEntry) : bool :=
  match entryName f with
  | Some fileName => includes (toLowerCase fileName) (toLowerCase query)
  | None => false
  end.

(** What each of the file operations of SCSApi does with the response:
    [fallback] is the operation's own message. *)
Definition answered `{Environment} {A} (fallback : JSString) (value : HttpResponse -> A)
    (backend : Backend) (req : ApiRequest) : Traced A :=
  {| outcome :=
       match backend req with
       | Throw e => Throw e
       | Ok res =>
           if res_ok res then Ok (value res)
           else match res_body res with
                | NotJSON => Throw (Error (js "Unexpected server response."))
                | JSONValue None =>
                    Throw {| name := js "TypeError";
                             message := nullPropertyError_message (js "detail") |}
                | JSONValue (Some d) => Throw (Error (orElse (data_detail d) fallback))
                end
       end;
     trace := [Fetch req] |}.

(** ** More inputs of the examples *)

(** A project that accepts every call and holds nothing. *)
Definition emptyProject : SupabaseClient :=
  fun _ => {| reply_error := None; reply_rows := []; reply_metadata := None;
              reply_blob := [] |}.

(** A library whose [createClient] throws for an address that does not
    start with [h]. *)
#[local] Instance modelLibrary : SupabaseLibrary := {|
  createClient := fun url key =>
    match url with
    | 0x68 :: _ => Some emptyProject
    | _ => None
    end;
|}.

(** A backend that answers every request with 200 and an empty object. *)
Definition acceptingBackend : Backend :=
  fun _ => Ok {| res_ok := true;
                 res_body := JSONValue (Some {| data_detail := []; data_files := None;
                                                data_metadata := None |});
                 res_arrayBuffer := [] |}.

Definition demoNow : JSString := js "2026-01-01T00:00:00.000Z".

Definition localModules : Modules := setProvider SCSLocalProvider (scriptsLoaded ∅).

(** The dashboard of the signed-in user with the delete dialog open. *)
Definition demoDashboard : Dashboard :=
  {| session := demoState; modules := localModules; cachedFiles := [];
     deleteTarget := Some demoTarget;
     fileList := EmptyState (js "No files yet") (js "Upload your first file to get started");
     stats := (0%nat, js "0 B") |}.

(** The page as loaded, before anyone has signed in, with the Local
    provider. *)
Definition loadedPage : Dashboard :=
  {| session := initialState; modules := localModules; cachedFiles := [];
     deleteTarget := None;
     fileList := EmptyState (js "No files yet") (js "Upload your first file to get started");
     stats := (0%nat, js "0 B") |}.

(** A backend that answers with the JSON value [null], and one whose
    answer has no [salt]. *)
Definition nullBodyServer : Server :=
  fun _ => Ok {| ok := true; response_body := AuthJSON None |}.
Definition noSaltServer : Server :=
  fun _ => Ok {| ok := true;
                 response_body := AuthJSON (Some {| detail := []; response_salt := None |}) |}.

(** A file without a name in the list, and one with both names. *)
Definition namelessEntry : FileEntry :=
  {| entry_original_name := None; entry_stored_name := None; entry_original_size := 3;
     entry_uploaded_at := demoNow; entry_encrypted_size := 19 |}.
Definition namedEntry : FileEntry :=
  {| entry_original_name := Some (js "Hello.TXT"); entry_stored_name := Some (js "0001.bin");
     entry_original_size := 11; entry_uploaded_at := demoNow; entry_encrypted_size := 27 |}.

(** * Properties *)

(** ** Evaluation on concrete inputs *)

Example hexToBytes_ff00 : hexToBytes (js "ff00a1") = [xff; x00; xa1].
Proof. reflexivity. Qed.

Example hexToBytes_1g : hexToBytes (js "1g") = [x01].
Proof. reflexivity. Qed.

Example hexToBytes_odd : hexToBytes (js "abc") = [xab].
Proof. reflexivity. Qed.

Example bufferToHex_ex : bufferToHex [x0a; xff; x00] = js "0aff00".
Proof. reflexivity. Qed.

Example stringToBytes_ascii : stringToBytes (js "aZ") = [x61; x5a].
Proof. reflexivity. Qed.

Example stringToBytes_euro : stringToBytes [0x20AC] = [xe2; x82; xac].
Proof. reflexivity. Qed.

Example stringToBytes_lone_surrogate : stringToBytes [0xD800] = [xef; xbf; xbd].
Proof. reflexivity. Qed.

Example validateEmail_ok : validateEmail (js "user@example.com") = true.
Proof. reflexivity. Qed.
Example validateEmail_subdomain : validateEmail (js "a.b+c@mail.example.org") = true.
Proof. reflexivity. Qed.
Example validateEmail_short_tld : validateEmail (js "user@example.c") = false.
Proof. reflexivity. Qed.
Example validateEmail_two_at : validateEmail (js "a@b@example.com") = false.
Proof. reflexivity. Qed.
Example validateEmail_no_domain : validateEmail (js "user@.com") = false.
Proof. reflexivity. Qed.

(** ** The executable platform meets the contracts *)

Lemma length_zeroPad n l : length (zeroPad n l) = n.
Proof.
  unfold zeroPad. rewrite length_take, length_app, length_replicate. lia.
Qed.

Lemma modelPlatform_digest_length : @digest_length modelPlatform.
Proof. intros data. apply length_zeroPad. Qed.

Lemma modelPlatform_GCM_lengths : @GCM_lengths modelPlatform.
Proof.
  intros K IV P. simpl. split; [apply length_reverse|].
  by rewrite length_zeroPad.
Qed.

Lemma modelPlatform_GCM_correct : @GCM_correct modelPlatform.
Proof.
  intros K IV P. simpl. rewrite decide_True by reflexivity.
  by rewrite reverse_involutive.
Qed.

Lemma modelPlatform_GCM_sound : @GCM_sound modelPlatform.
Proof.
  intros K IV C T P. simpl. case_decide as HT; [|discriminate].
  intros [= <-]. by rewrite reverse_involutive, HT.
Qed.

Lemma flipByte_changes (j : N) (b : byte) : j < 8 -> flipByte j b <> b.
Proof.
  intros Hj.
  assert (j = 0 \/ j = 1 \/ j = 2 \/ j = 3 \/ j = 4 \/ j = 5 \/ j = 6 \/ j = 7)
    as Hcases by lia.
  destruct Hcases as [->|[->|[->|[->|[->|[->|[->| ->]]]]]]];
    destruct b; vm_compute; discriminate.
Qed.

Lemma length_flipBit i j data : length (flipBit i j data) = length data.
Proof. unfold flipBit. destruct (data !! i); [apply length_insert | reflexivity]. Qed.

Lemma flipBit_changes i j data :
  (i < length data)%nat -> j < 8 -> flipBit i j data <> data.
Proof.
  intros Hi Hj. unfold flipBit.
  destruct (data !! i) as [b|] eqn:Hb; [|apply lookup_ge_None in Hb; lia].
  intros E. apply (f_equal (fun l => l !! i)) in E.
  rewrite list_lookup_insert_eq in E by done. rewrite Hb in E.
  injection E. by apply flipByte_changes.
Qed.

Lemma flipBit_app i j (C T : list byte) :
  flipBit i j (C ++ T)
  = if decide (i < length C)%nat then flipBit i j C ++ T
    else C ++ flipBit (i - length C) j T.
Proof.
  unfold flipBit. case_decide as Hi.
  - rewrite lookup_app_l by done.
    destruct (C !! i) as [b|] eqn:Hb; [|apply lookup_ge_None in Hb; lia].
    by rewrite insert_app_l.
  - rewrite lookup_app_r by lia.
    destruct (T !! (i - length C)%nat) as [b|]; [|done].
    rewrite insert_app_r_alt by lia. done.
Qed.

Lemma sumBytes_insert (l : list byte) (i : nat) (b b' : byte) :
  l !! i = Some b ->
  sumBytes (<[i := b']> l) + Byte.to_N b = sumBytes l + Byte.to_N b'.
Proof.
  assert (forall a k, sumBytes (a :: k) = Byte.to_N a + sumBytes k) as Hcons by done.
  revert i. induction l as [|a l IH]; intros [|i]; try discriminate.
  - intros [= ->]. change (<[0%nat := b']> (b :: l)) with (b' :: l).
    rewrite !Hcons. lia.
  - intros Hb. cbn [lookup list_lookup] in Hb. specialize (IH i Hb).
    change (<[S i := b']> (a :: l)) with (a :: <[i := b']> l).
    rewrite !Hcons. lia.
Qed.

Lemma checksum_flipBit i j (C : list byte) :
  (i < length C)%nat -> j < 8 -> checksum (flipBit i j C) <> checksum C.
Proof.
  intros Hi Hj. unfold flipBit.
  destruct (C !! i) as [b|] eqn:Hb; [|apply lookup_ge_None in Hb; lia].
  pose proof (sumBytes_insert C i b (flipByte j b) Hb) as Hsum.
  pose proof (Byte.to_N_bounded b) as Hb1.
  pose proof (Byte.to_N_bounded (flipByte j b)) as Hb2.
  assert (Byte.to_N (flipByte j b) <> Byte.to_N b) as Hne.
  { intros E. apply (flipByte_changes j b Hj).
    apply (f_equal Byte.of_N) in E. rewrite !Byte.of_to_N in E. by injection E. }
  unfold checksum. intros E.
  set (n1 := sumBytes (<[i := flipByte j b]> C) mod 256) in *.
  set (n2 := sumBytes C mod 256) in *.
  assert (n1 < 256) as Hn1 by (apply N.mod_upper_bound; lia).
  assert (n2 < 256) as Hn2 by (apply N.mod_upper_bound; lia).
  destruct (Byte.of_N n1) as [c1|] eqn:E1; [|apply Byte.of_N_None_iff in E1; lia].
  destruct (Byte.of_N n2) as [c2|] eqn:E2; [|apply Byte.of_N_None_iff in E2; lia].
  apply Byte.to_of_N in E1, E2. cbn in E. subst c2. rewrite E1 in E2.
  apply Hne. subst n1 n2.
  pose proof (N.Div0.div_mod (sumBytes (<[i := flipByte j b]> C)) 256).
  pose proof (N.Div0.div_mod (sumBytes C) 256).
  lia.
Qed.

Lemma modelPlatform_detects_bit_flips (K : list byte) :
  @GCM_detects_bit_flips modelPlatform K.
Proof.
  intros IV C T i j HT Hok Hi Hj data. subst data.
  cbn [GCM_AD modelPlatform] in *.
  case_decide as E; [clear Hok|done]. rewrite flipBit_app.
  destruct (decide (i < length C)%nat) as [HiC|HiC].
  - rewrite (take_app_length' (flipBit i j C) T) by (by rewrite length_flipBit).
    rewrite (drop_app_length' (flipBit i j C) T) by (by rewrite length_flipBit).
    rewrite decide_False; [done|]. rewrite E. unfold modelTag.
    intros [= Hc]. by apply (checksum_flipBit i j C).
  - rewrite take_app_length, drop_app_length.
    rewrite decide_False; [done|]. rewrite <- E.
    apply flipBit_changes; [|done]. rewrite length_app in Hi. lia.
Qed.


(** ** The hex codec *)

Lemma hexPair_shape b : exists c1 c2, hexPair b = [c1; c2].
Proof. destruct b; vm_compute; eauto. Qed.

Lemma parseGroup_hexPair b : parseGroup (hexPair b) = b.
Proof. destruct b; vm_compute; reflexivity. Qed.

(** Induction over a string two code units at a time, as the loop reads
    it. *)
Lemma pairwise_ind {A} (P : list A -> Prop) :
  P [] -> (forall a, P [a]) -> (forall a b l, P l -> P (a :: b :: l)) ->
  forall l, P l.
Proof.
  intros Hnil Hone Hstep l.
  enough (P l /\ forall a, P (a :: l)) by tauto.
  induction l as [|b l [IH1 IH2]]; split; auto.
Qed.

Lemma hexToBytes_loop_groups hex : forall k bytes,
  hexToBytes_loop hex k bytes = list_inserts k (parseGroup <$> hexGroups hex) bytes.
Proof.
  induction hex as [|c|c1 c2 rest IH] using pairwise_ind; intros k bytes;
    [reflexivity..|].
  cbn [hexToBytes_loop hexGroups fmap list_fmap list_inserts].
  rewrite IH. symmetry. apply list_insert_inserts_lt. lia.
Qed.

Lemma length_hexGroups hex : length (hexGroups hex) = ((length hex + 1) / 2)%nat.
Proof.
  induction hex as [|c|c1 c2 rest IH] using pairwise_ind; [reflexivity..|].
  cbn [hexGroups length]. rewrite IH.
  replace (S (S (length rest)) + 1)%nat with (1 * 2 + (length rest + 1))%nat by lia.
  rewrite Nat.div_add_l by lia. lia.
Qed.

Lemma hexGroups_lookup i : forall hex,
  (2 * i < length hex)%nat -> hexGroups hex !! i = Some (substr hex (2 * i) 2).
Proof.
  induction i as [|i IH]; intros hex Hi.
  - destruct hex as [|c1 [|c2 rest]]; simpl in *; try lia; reflexivity.
  - destruct hex as [|c1 [|c2 rest]]; simpl in *; try lia.
    rewrite IH by lia. unfold substr.
    replace (i + S (i + 0))%nat with (S (2 * i)) by lia. reflexivity.
Qed.

(** [hexToBytes] is the groups parsed one by one, cut to the array. *)
Lemma hexToBytes_groups hex :
  hexToBytes hex = take (length hex / 2) (parseGroup <$> hexGroups hex).
Proof.
  unfold hexToBytes. rewrite hexToBytes_loop_groups.
  set (l := parseGroup <$> hexGroups hex).
  rewrite <- (take_drop (length hex / 2) l) at 1.
  apply list_inserts_0_l.
  rewrite length_take, length_replicate. subst l.
  rewrite length_fmap, length_hexGroups.
  assert (length hex / 2 <= (length hex + 1) / 2)%nat
    by (apply Nat.Div0.div_le_mono; lia).
  lia.
Qed.

Lemma length_hexToBytes hex : length (hexToBytes hex) = (length hex / 2)%nat.
Proof.
  unfold hexToBytes. rewrite hexToBytes_loop_groups, length_inserts.
  apply length_replicate.
Qed.

Lemma hexGroups_bufferToHex buffer : hexGroups (bufferToHex buffer) = hexPair <$> buffer.
Proof.
  induction buffer as [|b buffer IH]; [reflexivity|].
  unfold bufferToHex in *. cbn [fmap list_fmap concat].
  fold (hexPair b). destruct (hexPair_shape b) as (c1 & c2 & ->).
  cbn [app hexGroups]. by rewrite IH.
Qed.

Lemma length_bufferToHex buffer : length (bufferToHex buffer) = (2 * length buffer)%nat.
Proof.
  induction buffer as [|b buffer IH]; [reflexivity|].
  unfold bufferToHex in *. cbn [fmap list_fmap concat].
  fold (hexPair b). destruct (hexPair_shape b) as (c1 & c2 & ->).
  rewrite length_app, IH. simpl. lia.
Qed.

(** Decoding what [bufferToHex] wrote gives the bytes back. *)
Lemma hexToBytes_bufferToHex buffer : hexToBytes (bufferToHex buffer) = buffer.
Proof.
  rewrite hexToBytes_groups, hexGroups_bufferToHex, length_bufferToHex.
  rewrite <- list_fmap_compose.
  replace (2 * length buffer / 2)%nat with (length buffer)
    by (rewrite Nat.mul_comm, Nat.div_mul; lia).
  rewrite <- (length_fmap (parseGroup ∘ hexPair) buffer), firstn_all.
  rewrite <- (list_fmap_id buffer) at 2.
  apply list_fmap_ext. intros _ b _. apply parseGroup_hexPair.
Qed.

Lemma bufferToHex_inj b1 b2 : bufferToHex b1 = bufferToHex b2 -> b1 = b2.
Proof.
  intros E. rewrite <- (hexToBytes_bufferToHex b1), <- (hexToBytes_bufferToHex b2).
  by rewrite E.
Qed.

(** ** encryptFile and decryptFile *)

Section SCSCryptoProperties.
Context `{Platform}.

(** [encryptFile] in closed form: the hex round trips of the salt and the
    IV inside it are the identity. *)
Lemma encryptFile_unfold data password g :
  encryptFile data password g =
  ({| ciphertext := subtle_encrypt (drawnIV g) (deriveKey password (drawnSalt g)) data;
      iv := bufferToHex (drawnIV g);
      salt := bufferToHex (drawnSalt g);
      fileHash := hashFile data |},
   {| tape := tape g; cursor := cursor g + SALT_BYTES + IV_BYTES |}).
Proof.
  unfold encryptFile, generateRandomHex, getRandomValues. cbn [tape cursor].
  rewrite !hexToBytes_bufferToHex. reflexivity.
Qed.

Lemma subtle_decrypt_encrypt IV K P :
  GCM_lengths -> GCM_correct -> subtle_decrypt IV K (subtle_encrypt IV K P) = Ok P.
Proof.
  intros Hlen Hcorrect. unfold subtle_decrypt, subtle_encrypt.
  destruct (Hlen K IV P) as [HC HT]. specialize (Hcorrect K IV P).
  destruct (GCM_AE K IV P) as [C T]. cbn [fst snd] in *.
  rewrite length_app, HT. rewrite decide_False by lia.
  replace (length C + 16 - 16)%nat with (length C) by lia.
  rewrite take_app_length, drop_app_length, Hcorrect. reflexivity.
Qed.

(** C1. Round trip: for every plaintext [P], password [W] and state of the
    random generator, decrypting the ciphertext of the envelope
    [encryptFile] returns, with the envelope's hex [iv] and [salt] and the
    same password, returns exactly [P]. AES-GCM is assumed to decrypt what
    it encrypted and to produce a 16-byte tag. *)
Theorem encryptFile_decryptFile_roundtrip :
  GCM_lengths -> GCM_correct ->
  forall (P : list byte) (W : JSString) (g : RNG),
    let envelope := (encryptFile P W g).1 in
    decryptFile (ciphertext envelope) (iv envelope) (salt envelope) W = Ok P.
Proof.
  intros Hlen Hcorrect P W g. rewrite encryptFile_unfold. cbn [fst].
  unfold decryptFile. cbn [ciphertext iv salt].
  rewrite !hexToBytes_bufferToHex. by apply subtle_decrypt_encrypt.
Qed.

(** C10. For a plaintext of n bytes the [ciphertext] member of the
    envelope is n + 16 bytes: the n bytes AES-GCM produced followed by its
    16-byte tag. The envelope is the record of the four members
    [ciphertext], [iv], [salt], [fileHash]; the tag has no member of its
    own. *)
Theorem encryptFile_ciphertext_length :
  GCM_lengths ->
  forall (P : list byte) (W : JSString) (g : RNG),
    let envelope := (encryptFile P W g).1 in
    let CT := GCM_AE (deriveKey W (drawnSalt g)) (drawnIV g) P in
    length (ciphertext envelope) = (length P + 16)%nat
    /\ take (length P) (ciphertext envelope) = CT.1
    /\ drop (length P) (ciphertext envelope) = CT.2
    /\ length CT.2 = 16%nat
    /\ envelope = {| ciphertext := CT.1 ++ CT.2; iv := iv envelope;
                     salt := salt envelope; fileHash := fileHash envelope |}.
Proof.
  intros Hlen P W g. rewrite encryptFile_unfold. cbn [fst ciphertext iv salt fileHash].
  unfold subtle_encrypt.
  destruct (Hlen (deriveKey W (drawnSalt g)) (drawnIV g) P) as [HC HT].
  destruct (GCM_AE _ _ P) as [C T]. cbn [fst snd] in *.
  rewrite length_app, HC, HT, <- HC, take_app_length, drop_app_length.
  repeat split; reflexivity.
Qed.

End SCSCryptoProperties.

Lemma encryptFile_decryptFile_roundtrip_witness :
  @GCM_lengths modelPlatform /\ @GCM_correct modelPlatform /\
  let envelope := (encryptFile helloWorld (js "Str0ngP@ss!") (countingRNG 7)).1 in
  decryptFile (ciphertext envelope) (iv envelope) (salt envelope) (js "Str0ngP@ss!")
  = Ok helloWorld.
Proof.
  split; [exact modelPlatform_GCM_lengths|].
  split; [exact modelPlatform_GCM_correct|].
  exact (encryptFile_decryptFile_roundtrip modelPlatform_GCM_lengths
           modelPlatform_GCM_correct helloWorld (js "Str0ngP@ss!") (countingRNG 7)).
Defined.

Lemma encryptFile_ciphertext_length_witness :
  @GCM_lengths modelPlatform /\
  length (ciphertext (encryptFile helloWorld (js "Str0ngP@ss!") (countingRNG 7)).1)
  = (11 + 16)%nat.
Proof.
  split; [exact modelPlatform_GCM_lengths|].
  exact (proj1 (encryptFile_ciphertext_length modelPlatform_GCM_lengths
                  helloWorld (js "Str0ngP@ss!") (countingRNG 7))).
Defined.

Example encryptFile_hello :
  (encryptFile helloWorld (js "pw") (countingRNG 0)).1 =
  {| ciphertext := stringToBytes (js "dlrow olleh")
       ++ [x5c; x10; x11; x12; x13; x14; x15; x16; x17; x18; x19; x1a; x1b;
           x70; x77; x00];
     iv := js "101112131415161718191a1b";
     salt := js "000102030405060708090a0b0c0d0e0f";
     fileHash := js "68656c6c6f20776f726c64000000000000000000000000000000000000000000" |}.
Proof. vm_compute. reflexivity. Qed.

(** ** hexToBytes on arbitrary strings *)

Lemma hexToBytes_lookup (s : JSString) (i : nat) :
  (i < length s / 2)%nat ->
  hexToBytes s !! i = Some (ToUint8 (parseInt16 (substr s (2 * i) 2))).
Proof.
  intros Hi. rewrite hexToBytes_groups, lookup_take_lt by done.
  rewrite list_lookup_fmap, hexGroups_lookup; [reflexivity|].
  assert (2 * (length s / 2) <= length s)%nat by (apply Nat.Div0.mul_div_le).
  lia.
Qed.

Lemma hexDigitValue_cases c d :
  hexDigitValue c = Some d ->
  (0x30 <= c <= 0x39 /\ d = c - 0x30)
  \/ (0x61 <= c <= 0x66 /\ d = c - 0x61 + 10)
  \/ (0x41 <= c <= 0x46 /\ d = c - 0x41 + 10).
Proof.
  unfold hexDigitValue. repeat case_match; intros [= <-];
    repeat match goal with
           | E : (_ && _) = true |- _ => apply andb_true_iff in E as [? ?]
           | E : (_ <=? _) = true |- _ => apply N.leb_le in E
           end; lia.
Qed.

(** A hex digit followed by a code unit that is none: [parseInt] reads the
    digit and stops. (For ["0x"] and ["0X"] the prefix is stripped, nothing
    is left, and the byte is 0, the value of the digit [0].) *)
Lemma ToUint8_Num_of_N (v : N) : ToUint8 (Num (Z.of_N v)) = byteOfN v.
Proof.
  unfold ToUint8, byteOfN. change 256%Z with (Z.of_N 256).
  by rewrite <- N2Z.inj_mod, N2Z.id.
Qed.

Ltac decide_N_tests :=
  repeat match goal with
         | |- context [N.eqb ?a ?b] =>
             first [ rewrite (proj2 (N.eqb_eq a b)) by lia
                   | rewrite (proj2 (N.eqb_neq a b)) by lia ]
         | |- context [N.leb ?a ?b] =>
             first [ rewrite (proj2 (N.leb_le a b)) by lia
                   | rewrite (proj2 (N.leb_gt a b)) by lia ]
         end.

Lemma hexDigit_not_white c d :
  hexDigitValue c = Some d -> isStrWhiteSpaceChar c = false.
Proof.
  intros Hc%hexDigitValue_cases. unfold isStrWhiteSpaceChar.
  destruct Hc as [?|[?|?]]; decide_N_tests; reflexivity.
Qed.

Lemma parseGroup_digit_then_other c1 c2 d :
  hexDigitValue c1 = Some d -> hexDigitValue c2 = None ->
  ToUint8 (parseInt16 [c1; c2]) = byteOfN d.
Proof.
  intros H1 H2.
  assert (isHexDigit c2 = false) as Hc2 by (unfold isHexDigit; by rewrite H2).
  assert (isHexDigit c1 = true) as Hc1 by (unfold isHexDigit; by rewrite H1).
  pose proof (hexDigit_not_white _ _ H1) as Hw.
  pose proof (hexDigitValue_cases _ _ H1) as Hr.
  unfold parseInt16. cbn [dropWhile]. rewrite Hw.
  assert ((c1 =? 0x2D) = false) as -> by (apply N.eqb_neq; lia).
  assert ((c1 =? 0x2B) = false) as -> by (apply N.eqb_neq; lia).
  cbn [orb].
  destruct ((c1 =? 0x30) && ((c2 =? 0x78) || (c2 =? 0x58))) eqn:E.
  - apply andb_true_iff in E as [E%N.eqb_eq _]. subst c1.
    injection H1 as <-. reflexivity.
  - cbn [takeWhile]. rewrite Hc1. cbn [takeWhile]. rewrite Hc2.
    unfold hexValue. cbn [foldl]. rewrite H1. cbn [default from_option id].
    rewrite Z.mul_1_l, N.mul_0_r, N.add_0_l. apply ToUint8_Num_of_N.
Qed.

Lemma parseGroup_two_digits c1 c2 d1 d2 :
  hexDigitValue c1 = Some d1 -> hexDigitValue c2 = Some d2 ->
  ToUint8 (parseInt16 [c1; c2]) = byteOfN (16 * d1 + d2).
Proof.
  intros H1 H2.
  assert (isHexDigit c1 = true) as Hc1 by (unfold isHexDigit; by rewrite H1).
  assert (isHexDigit c2 = true) as Hc2 by (unfold isHexDigit; by rewrite H2).
  pose proof (hexDigit_not_white _ _ H1) as Hw.
  pose proof (hexDigitValue_cases _ _ H1) as Hr1.
  pose proof (hexDigitValue_cases _ _ H2) as Hr2.
  unfold parseInt16. cbn [dropWhile]. rewrite Hw.
  assert ((c1 =? 0x2D) = false) as -> by (apply N.eqb_neq; lia).
  assert ((c1 =? 0x2B) = false) as -> by (apply N.eqb_neq; lia).
  cbn [orb].
  assert ((c2 =? 0x78) = false) as -> by (apply N.eqb_neq; lia).
  assert ((c2 =? 0x58) = false) as -> by (apply N.eqb_neq; lia).
  cbn [orb]. rewrite andb_false_r.
  cbn [takeWhile]. rewrite Hc1. cbn [takeWhile]. rewrite Hc2.
  unfold hexValue. cbn [foldl]. rewrite H1, H2. cbn [default from_option id].
  rewrite Z.mul_1_l, N.mul_0_r, N.add_0_l. apply ToUint8_Num_of_N.
Qed.

(** C9, as the code has it. [hexToBytes] is total and validates nothing:
    for every string, of odd length or with characters that are no hex
    digits, it returns floor(length / 2) bytes. Byte i is [ToUint8] of
    [parseInt(hex.substr(2i, 2), 16)]: 0 when [parseInt] finds no digit
    ([NaN]), 16 d1 + d2 for two hex digits, and the value of the first
    digit when a hex digit is followed by a code unit that is none (so
    ["1g"] decodes to 1, not to 0). *)
Theorem hexToBytes_total_unvalidated (s : JSString) :
  length (hexToBytes s) = (length s / 2)%nat
  /\ (forall i, (i < length s / 2)%nat ->
        hexToBytes s !! i = Some (ToUint8 (parseInt16 (substr s (2 * i) 2))))
  /\ (forall i, (i < length s / 2)%nat ->
        parseInt16 (substr s (2 * i) 2) = NaN -> hexToBytes s !! i = Some x00)
  /\ (forall i c1 c2 d1 d2, (i < length s / 2)%nat ->
        substr s (2 * i) 2 = [c1; c2] ->
        hexDigitValue c1 = Some d1 -> hexDigitValue c2 = Some d2 ->
        hexToBytes s !! i = Some (byteOfN (16 * d1 + d2)))
  /\ (forall i c1 c2 d1, (i < length s / 2)%nat ->
        substr s (2 * i) 2 = [c1; c2] ->
        hexDigitValue c1 = Some d1 -> hexDigitValue c2 = None ->
        hexToBytes s !! i = Some (byteOfN d1)).
Proof.
  split; [apply length_hexToBytes|].
  split; [apply hexToBytes_lookup|].
  split; [|split].
  - intros i Hi E. by rewrite hexToBytes_lookup, E.
  - intros i c1 c2 d1 d2 Hi E H1 H2.
    rewrite hexToBytes_lookup, E by done. f_equal. by apply parseGroup_two_digits.
  - intros i c1 c2 d1 Hi E H1 H2.
    rewrite hexToBytes_lookup, E by done. f_equal. by apply parseGroup_digit_then_other.
Qed.

(** C9 as stated fails: the group ["1g"] is not valid hexadecimal and
    still decodes to the byte 1. *)
Lemma hexToBytes_invalid_group_not_zero :
  ~ (forall (s : JSString) (i : nat),
       (i < length s / 2)%nat ->
       isHexString (substr s (2 * i) 2) = false ->
       hexToBytes s !! i = Some x00).
Proof.
  intros claim.
  specialize (claim (js "1g") 0%nat).
  assert (hexToBytes (js "1g") !! 0%nat = Some x01) as E by reflexivity.
  rewrite claim in E; [discriminate E | vm_compute; lia | reflexivity].
Qed.

Example hexToBytes_minus_one : hexToBytes (js "-1") = [xff].
Proof. reflexivity. Qed.

Example hexToBytes_space_f : hexToBytes (js " f") = [x0f].
Proof. reflexivity. Qed.

Example hexToBytes_zz : hexToBytes (js "zzzz") = [x00; x00].
Proof. reflexivity. Qed.

Example hexToBytes_0x : hexToBytes (js "0x") = [x00].
Proof. reflexivity. Qed.

Example hexToBytes_upper : hexToBytes (js "FF") = [xff].
Proof. reflexivity. Qed.

(** ** What decryptFile checks, and what it does not *)

Section DecryptFileProperties.
Context `{Platform}.

(** The only exception [subtle_decrypt] throws is [OperationError]. *)
Lemma subtle_decrypt_cases IV K data :
  (subtle_decrypt IV K data = Throw OperationError
   /\ ((length data < 16)%nat
       \/ GCM_AD K IV (take (length data - 16) data) (drop (length data - 16) data) = None))
  \/ (exists P, subtle_decrypt IV K data = Ok P
      /\ (16 <= length data)%nat
      /\ GCM_AD K IV (take (length data - 16) data) (drop (length data - 16) data) = Some P).
Proof.
  unfold subtle_decrypt. case_decide as Hlen; [left; auto|].
  destruct (GCM_AD K IV _ _) as [P|] eqn:E; [right|left; auto].
  exists P. split; [reflexivity|]. split; [lia | done].
Qed.

Lemma decryptFile_subtle_encrypt IV salt W P :
  GCM_lengths -> GCM_correct ->
  decryptFile (subtle_encrypt IV (deriveKey W salt) P) (bufferToHex IV) (bufferToHex salt) W
  = Ok P.
Proof.
  intros Hlen Hcorrect. unfold decryptFile. rewrite !hexToBytes_bufferToHex.
  by apply subtle_decrypt_encrypt.
Qed.

Lemma decryptFile_throws_only_OperationError ct ivHex saltHex W e :
  decryptFile ct ivHex saltHex W = Throw e -> e = OperationError.
Proof.
  unfold decryptFile.
  destruct (subtle_decrypt_cases (hexToBytes ivHex) (deriveKey W (hexToBytes saltHex)) ct)
    as [[-> _] | (p & -> & _)]; [by intros [= <-] | discriminate].
Qed.

(** A password that derives the same key decrypts; one with the same UTF-8
    encoding does. *)
Lemma decryptFile_same_key (P : list byte) (W W' : JSString) (g : RNG) :
  GCM_lengths -> GCM_correct ->
  deriveKey W' (drawnSalt g) = deriveKey W (drawnSalt g) ->
  let envelope := (encryptFile P W g).1 in
  decryptFile (ciphertext envelope) (iv envelope) (salt envelope) W' = Ok P.
Proof.
  intros Hlen Hcorrect E. rewrite encryptFile_unfold. cbn [fst].
  unfold decryptFile. cbn [ciphertext iv salt].
  rewrite !hexToBytes_bufferToHex, E. by apply subtle_decrypt_encrypt.
Qed.

Lemma decryptFile_same_encoding (P : list byte) (W W' : JSString) (g : RNG) :
  GCM_lengths -> GCM_correct ->
  stringToBytes W' = stringToBytes W ->
  let envelope := (encryptFile P W g).1 in
  decryptFile (ciphertext envelope) (iv envelope) (salt envelope) W' = Ok P.
Proof.
  intros Hlen Hcorrect E. apply decryptFile_same_key; [done..|].
  unfold deriveKey. by rewrite E.
Qed.

(** [decryptFile] on an envelope of [encryptFile] is AES-GCM decryption
    under the IV and the salt that were drawn. *)
Lemma decryptFile_envelope (P : list byte) (W : JSString) (g : RNG)
    (ct' : list byte) (W' : JSString) :
  let envelope := (encryptFile P W g).1 in
  decryptFile ct' (iv envelope) (salt envelope) W'
  = subtle_decrypt (drawnIV g) (deriveKey W' (drawnSalt g)) ct'.
Proof.
  intros envelope. subst envelope. rewrite encryptFile_unfold. cbn [fst iv salt].
  unfold decryptFile. by rewrite !hexToBytes_bufferToHex.
Qed.

(** C2, as the code has it. For an envelope [encryptFile] produced:
    - the stored ciphertext with any single bit inverted, in the
      ciphertext proper or in the tag, makes [decryptFile] fail with
      [OperationError] and return no plaintext, under the encryption
      password and under every password that derives the same key (this
      is AES-GCM noticing an inverted bit);
    - for any supplied ciphertext [ct'] and password [W'], [decryptFile]
      fails with [OperationError] exactly when the input is shorter than
      a tag or the tag does not verify under the key derived from [W']
      and the stored salt, it throws nothing else, and it returns a
      plaintext exactly when the tag verified over the whole input;
    - what it returns is never partial or altered: the input is then the
      complete AES-GCM encryption of the returned plaintext, and under
      the key of the file the plaintext that was encrypted is returned
      for the stored ciphertext and for no other input. *)
Theorem decryptFile_authenticated (P : list byte) (W : JSString) (g : RNG) :
  GCM_lengths -> GCM_correct -> GCM_sound ->
  GCM_detects_bit_flips (deriveKey W (drawnSalt g)) ->
  let envelope := (encryptFile P W g).1 in
  let stored := ciphertext envelope in
  let decrypt ct' W' := decryptFile ct' (iv envelope) (salt envelope) W' in
  (forall (i : nat) (j : N) (W' : JSString),
     (i < length stored)%nat -> j < 8 ->
     deriveKey W' (drawnSalt g) = deriveKey W (drawnSalt g) ->
     AuthenticationFailure (decrypt (flipBit i j stored) W'))
  /\ (forall (ct' : list byte) (W' : JSString),
        let K' := deriveKey W' (drawnSalt g) in
        let C' := take (length ct' - 16) ct' in
        let T' := drop (length ct' - 16) ct' in
        (AuthenticationFailure (decrypt ct' W') <->
           (length ct' < 16)%nat \/ GCM_AD K' (drawnIV g) C' T' = None)
        /\ (forall e, decrypt ct' W' = Throw e -> name e = js "OperationError")
        /\ (forall p, decrypt ct' W' = Ok p <->
              (16 <= length ct')%nat /\ GCM_AD K' (drawnIV g) C' T' = Some p)
        /\ (forall p, decrypt ct' W' = Ok p -> ct' = subtle_encrypt (drawnIV g) K' p))
  /\ (forall (ct' : list byte) (W' : JSString) (p : list byte),
        deriveKey W' (drawnSalt g) = deriveKey W (drawnSalt g) ->
        decrypt ct' W' = Ok p -> (p = P <-> ct' = stored)).
Proof.
  intros Hlen Hcorrect Hsound Hflip envelope stored decrypt.
  assert (forall ct' W', decrypt ct' W'
            = subtle_decrypt (drawnIV g) (deriveKey W' (drawnSalt g)) ct') as Hdecrypt.
  { intros ct' W'. apply decryptFile_envelope. }
  assert (stored = subtle_encrypt (drawnIV g) (deriveKey W (drawnSalt g)) P) as Hstored.
  { subst stored envelope. by rewrite encryptFile_unfold. }
  assert (forall ct' K p, subtle_decrypt (drawnIV g) K ct' = Ok p ->
            ct' = subtle_encrypt (drawnIV g) K p) as Hwhole.
  { intros ct' K p Hp.
    destruct (subtle_decrypt_cases (drawnIV g) K ct')
      as [[E _] | (p0 & E & Hlong & Hok)]; rewrite E in Hp; [discriminate|].
    injection Hp as ->. apply Hsound in Hok. unfold subtle_encrypt.
    rewrite Hok. cbn [fst snd]. by rewrite take_drop. }
  split; [|split].
  - intros i j W' Hi Hj HK. rewrite Hdecrypt, HK, Hstored.
    unfold subtle_encrypt in *. rewrite Hstored in Hi.
    destruct (Hlen (deriveKey W (drawnSalt g)) (drawnIV g) P) as [HC HT].
    specialize (Hcorrect (deriveKey W (drawnSalt g)) (drawnIV g) P).
    destruct (GCM_AE (deriveKey W (drawnSalt g)) (drawnIV g) P) as [C T].
    cbn [fst snd] in *.
    assert (GCM_AD (deriveKey W (drawnSalt g)) (drawnIV g) C T <> None) as Hok
      by (by rewrite Hcorrect).
    pose proof (Hflip (drawnIV g) C T i j HT Hok Hi Hj) as Hnone. cbv zeta in Hnone.
    unfold subtle_decrypt. rewrite length_flipBit, length_app, HT.
    rewrite decide_False by lia.
    replace (length C + 16 - 16)%nat with (length C) by lia.
    rewrite Hnone. exists OperationError. by split.
  - intros ct' W' K' C' T'. rewrite Hdecrypt. fold K'. subst C' T'.
    destruct (subtle_decrypt_cases (drawnIV g) K' ct')
      as [[E Hfail] | (p0 & E & Hlong & Hok)]; rewrite E.
    + split; [|split; [|split]].
      * split; [done|]. intros _. exists OperationError. by split.
      * by intros e [= <-].
      * intros p. split; [discriminate|]. intros [? Hp].
        destruct Hfail as [?|Hnone]; [lia|]. rewrite Hp in Hnone. discriminate.
      * discriminate.
    + split; [|split; [|split]].
      * split.
        -- intros (e & He & _). discriminate.
        -- intros [?|Hnone]; [lia|]. rewrite Hnone in Hok. discriminate.
      * discriminate.
      * intros p. split.
        -- by intros [= <-].
        -- intros [_ Hp]. rewrite Hp in Hok. by injection Hok as ->.
      * intros p [= <-]. apply Hwhole. by rewrite E.
  - intros ct' W' p HK Hp. rewrite Hdecrypt, HK in Hp. split.
    + intros ->. rewrite Hstored. by apply Hwhole.
    + intros ->. rewrite Hstored, subtle_decrypt_encrypt in Hp by done.
      by injection Hp.
Qed.

(** C7, as the code has it. Nothing in the cryptographic layer inspects
    the salt or the IV: [hexToBytes] turns any string into
    floor(length / 2) bytes, [deriveKey] runs PBKDF2 on the salt it is
    given whatever its length, and [decryptFile] proceeds to AES-GCM with
    the decoded bytes. The only failure it can raise is the
    [OperationError] of a tag that does not verify. *)
Theorem decryptFile_no_input_validation (ct : list byte) (ivHex saltHex W : JSString) :
  decryptFile ct ivHex saltHex W =
    subtle_decrypt (hexToBytes ivHex)
      (PBKDF2_HMAC_SHA256 (stringToBytes W) (hexToBytes saltHex) 100000 256) ct
  /\ length (hexToBytes saltHex) = (length saltHex / 2)%nat
  /\ length (hexToBytes ivHex) = (length ivHex / 2)%nat
  /\ (forall e, decryptFile ct ivHex saltHex W = Throw e -> e = OperationError).
Proof.
  split; [reflexivity|]. split; [apply length_hexToBytes|].
  split; [apply length_hexToBytes|].
  intros e. apply decryptFile_throws_only_OperationError.
Qed.

(** C5, as the code has it. Every call of [encryptFile] draws 16 bytes for
    the salt and then 12 bytes for the IV from the generator, advancing it
    by 28 bytes, before it derives the key and encrypts under exactly
    these; the envelope's [salt] and [iv] are their hex. Hence two calls
    have equal [salt] members exactly when they drew equal salts, and
    equal [iv] members exactly when they drew equal IVs. *)
Theorem encryptFile_draws_salt_and_iv (P : list byte) (W : JSString) (g : RNG) :
  let envelope := (encryptFile P W g).1 in
  let g' := (encryptFile P W g).2 in
  length (drawnSalt g) = 16%nat /\ length (drawnIV g) = 12%nat
  /\ salt envelope = bufferToHex (drawnSalt g)
  /\ iv envelope = bufferToHex (drawnIV g)
  /\ ciphertext envelope = subtle_encrypt (drawnIV g) (deriveKey W (drawnSalt g)) P
  /\ tape g' = tape g /\ cursor g' = (cursor g + 28)%nat
  /\ drawnSalt g' = tape g <$> seq (cursor g + 28) 16
  /\ (forall P2 W2 g2,
        let envelope2 := (encryptFile P2 W2 g2).1 in
        (salt envelope = salt envelope2 <-> drawnSalt g = drawnSalt g2)
        /\ (iv envelope = iv envelope2 <-> drawnIV g = drawnIV g2)).
Proof.
  intros envelope g'. subst envelope g'. rewrite encryptFile_unfold.
  cbn [fst snd salt iv ciphertext tape cursor].
  unfold drawnSalt, drawnIV. rewrite !length_fmap, !length_seq.
  repeat split; try reflexivity.
  - unfold SALT_BYTES, IV_BYTES. lia.
  - cbn [tape cursor]. unfold SALT_BYTES, IV_BYTES.
    by replace (cursor g + 16 + 12)%nat with (cursor g + 28)%nat by lia.
  - rewrite encryptFile_unfold. cbn [fst salt]. apply bufferToHex_inj.
  - rewrite encryptFile_unfold. cbn [fst salt]. by intros ->.
  - rewrite encryptFile_unfold. cbn [fst iv]. apply bufferToHex_inj.
  - rewrite encryptFile_unfold. cbn [fst iv]. by intros ->.
Qed.

End DecryptFileProperties.

(** C2 as stated fails on every platform whose AES-GCM decrypts what it
    encrypted: the passwords ["\uD800"] and ["\uD801"] differ, yet
    [TextEncoder] encodes both as EF BF BD, so they derive the same key and
    the second decrypts what the first encrypted. *)
Lemma decryptFile_accepts_another_password :
  ~ (exists platform : Platform,
       @GCM_lengths platform /\ @GCM_correct platform /\
       forall (P : list byte) (W W' : JSString) (g : RNG),
         W' <> W ->
         let envelope := (@encryptFile platform P W g).1 in
         exists e,
           @decryptFile platform (ciphertext envelope) (iv envelope) (salt envelope) W'
           = Throw e).
Proof.
  intros (platform & Hlen & Hcorrect & claim).
  destruct (claim helloWorld [0xD800] [0xD801] zeroRNG) as [e He]; [discriminate|].
  rewrite decryptFile_same_encoding in He by (done || reflexivity).
  discriminate He.
Qed.

Lemma decryptFile_authenticated_witness :
  (@GCM_lengths modelPlatform /\ @GCM_correct modelPlatform /\ @GCM_sound modelPlatform
   /\ @GCM_detects_bit_flips modelPlatform (deriveKey demoPassword (drawnSalt (countingRNG 7))))
  /\ let envelope := (encryptFile helloWorld demoPassword (countingRNG 7)).1 in
     AuthenticationFailure
       (decryptFile (flipBit 0 0 (ciphertext envelope)) (iv envelope) (salt envelope)
          demoPassword).
Proof.
  split.
  - split; [exact modelPlatform_GCM_lengths|]. split; [exact modelPlatform_GCM_correct|].
    split; [exact modelPlatform_GCM_sound | apply modelPlatform_detects_bit_flips].
  - refine (proj1 (decryptFile_authenticated helloWorld demoPassword (countingRNG 7)
                     modelPlatform_GCM_lengths modelPlatform_GCM_correct
                     modelPlatform_GCM_sound (modelPlatform_detects_bit_flips _))
              0%nat 0 demoPassword _ _ eq_refl).
    + vm_compute. lia.
    + lia.
Defined.

(** C5 as stated fails on every platform: two generators that supply the
    same salt and different IVs differ in the randomness they supply, and
    the two envelopes have the same [salt]. *)
Lemma encryptFile_distinct_randomness_same_salt :
  ~ (exists platform : Platform,
       forall (P : list byte) (W : JSString) (g1 g2 : RNG),
         (drawnSalt g1, drawnIV g1) <> (drawnSalt g2, drawnIV g2) ->
         let envelope1 := (@encryptFile platform P W g1).1 in
         let envelope2 := (@encryptFile platform P W g2).1 in
         salt envelope1 <> salt envelope2
         /\ iv envelope1 <> iv envelope2
         /\ ciphertext envelope1 <> ciphertext envelope2).
Proof.
  intros (platform & claim).
  destruct (claim helloWorld (js "Str0ngP@ss!") zeroRNG zeroSaltOtherIV) as (Hsalt & _).
  - vm_compute. discriminate.
  - apply Hsalt. rewrite !encryptFile_unfold. reflexivity.
Qed.

(** C7 as stated fails on every platform whose AES-GCM decrypts what it
    encrypted: with a salt and an IV that are no hex at all,
    [decryptFile] raises nothing and returns the plaintext of a file that
    was encrypted under the all-zero salt and IV these strings decode to. *)
Lemma decryptFile_accepts_malformed_hex :
  ~ (exists platform : Platform,
       @GCM_lengths platform /\ @GCM_correct platform /\
       forall (ct : list byte) (ivHex saltHex W : JSString),
         isHexString saltHex = false \/ length (hexToBytes saltHex) <> 16%nat
         \/ isHexString ivHex = false \/ length (hexToBytes ivHex) <> 12%nat ->
         exists e, @decryptFile platform ct ivHex saltHex W = Throw e).
Proof.
  intros (platform & Hlen & Hcorrect & claim).
  pose (ct := ciphertext (encryptFile helloWorld (js "Str0ngP@ss!") zeroRNG).1).
  destruct (claim ct (js "zzzzzzzzzzzzzzzzzzzzzzzz")
              (js "zzzzzzzzzzzzzzzzzzzzzzzzzzzzzzzz") (js "Str0ngP@ss!")) as [e He].
  { left. reflexivity. }
  subst ct. rewrite encryptFile_unfold in He. cbn [fst ciphertext] in He.
  unfold decryptFile in He.
  change (hexToBytes (js "zzzzzzzzzzzzzzzzzzzzzzzz")) with (drawnIV zeroRNG) in He.
  change (hexToBytes (js "zzzzzzzzzzzzzzzzzzzzzzzzzzzzzzzz")) with (drawnSalt zeroRNG) in He.
  rewrite subtle_decrypt_encrypt in He by done. discriminate He.
Qed.

Example decryptFile_malformed_hex_model :
  decryptFile (ciphertext (encryptFile helloWorld (js "pw") zeroRNG).1)
    (js "zzzzzzzzzzzzzzzzzzzzzzzz") (js "zzzzzzzzzzzzzzzzzzzzzzzzzzzzzzzz") (js "pw")
  = Ok helloWorld.
Proof. vm_compute. reflexivity. Qed.

Example decryptFile_short_salt_model :
  decryptFile
    (subtle_encrypt (drawnIV zeroRNG) (deriveKey (js "pw") [xab]) helloWorld)
    (js "000000000000000000000000") (js "ab") (js "pw")
  = Ok helloWorld.
Proof. vm_compute. reflexivity. Qed.

Example decryptFile_wrong_password_model :
  let envelope := (encryptFile helloWorld (js "Str0ngP@ss!") (countingRNG 7)).1 in
  decryptFile (ciphertext envelope) (iv envelope) (salt envelope) (js "wrongpass")
  = Throw OperationError.
Proof. vm_compute. reflexivity. Qed.

(** ** Registration and login *)

Section ControllerProperties.
Context `{Platform} `{Environment}.

(** C3. The authentication salt is the first 16 bytes of the SHA-256
    digest of the lower-cased, trimmed email, and it is a function of that
    normalised email alone: registration, login and the download flow
    compute byte-identical salts, 16 bytes long, from emails with the same
    normal form. A SHA-256 digest is assumed to be 32 bytes. *)
Theorem authSalt_deterministic :
  digest_length ->
  forall e1 e2 e3 : JSString,
    trim (toLowerCase e1) = trim (toLowerCase e2) ->
    trim (toLowerCase e2) = trim (toLowerCase e3) ->
    authSalt_register e1 = take 16 (digest_SHA256 (stringToBytes (trim (toLowerCase e1))))
    /\ length (authSalt_register e1) = 16%nat
    /\ authSalt_login e2 = authSalt_register e1
    /\ authSalt_decrypt e3 = authSalt_register e1.
Proof.
  intros Hdigest e1 e2 e3 E12 E23.
  unfold authSalt_register, authSalt_login, authSalt_decrypt.
  rewrite <- E23, <- E12, length_take, Hdigest. repeat split; lia.
Qed.

(** The registration handler, once its three checks pass: one request,
    and a session only if the backend accepted it. *)
Lemma registerSubmit_valid server emailField password st :
  validateEmail (trim emailField) = true -> (8 <= length password)%nat ->
  let email := trim emailField in
  let authSalt := authSalt_register email in
  let passwordHash := hashPassword password authSalt in
  let req := register_request email passwordHash (bufferToHex authSalt) in
  registerSubmit server false emailField password password st =
  match SCSApi_register server email passwordHash (bufferToHex authSalt) with
  | (Ok _, sent) =>
      (saveSession email passwordHash (bufferToHex authSalt) st, sent,
       EnteredDashboard (js "Account created successfully!"))
  | (Throw err, sent) => (st, sent, AuthFailed (message err))
  end.
Proof.
  intros Hv Hlen. unfold registerSubmit. rewrite Hv. cbn [negb].
  rewrite bool_decide_false by lia. rewrite bool_decide_false by (intros E; by apply E).
  unfold SCSApi_register. by destruct (_ ≫= _).
Qed.

Lemma loginSubmit_valid server emailField password st :
  validateEmail (trim emailField) = true -> password <> [] ->
  let email := trim emailField in
  let passwordHash := hashPassword password (authSalt_login email) in
  loginSubmit server false emailField password st =
  match SCSApi_login server email passwordHash with
  | (Ok (Some result), sent) =>
      (match response_salt result with
       | Some salt => saveSession email passwordHash salt st
       | None => saveSession_undefinedSalt email passwordHash st
       end, sent, EnteredDashboard (js "Welcome back!"))
  | (Ok None, sent) => (st, sent, AuthFailed (message (nullPropertyError (js "salt"))))
  | (Throw err, sent) => (st, sent, AuthFailed (message err))
  end.
Proof.
  intros Hv Hpw. unfold loginSubmit. rewrite Hv. cbn [negb].
  rewrite bool_decide_false by done.
  unfold SCSApi_login. by destruct (_ ≫= _) as [[result|]|err].
Qed.

Lemma registerSubmit_sent server btnDisabled emailField password confirm st :
  let email := trim emailField in
  let authSalt := authSalt_register email in
  requestsSent (registerSubmit server btnDisabled emailField password confirm st) = []
  \/ requestsSent (registerSubmit server btnDisabled emailField password confirm st)
     = [register_request email (hashPassword password authSalt) (bufferToHex authSalt)].
Proof.
  unfold registerSubmit, requestsSent, SCSApi_register.
  destruct btnDisabled; [by left|].
  destruct (negb _); [by left|].
  destruct (bool_decide (length password < 8)%nat); [by left|].
  destruct (bool_decide (password <> confirm)); [by left|].
  destruct (_ ≫= _); by right.
Qed.

Lemma loginSubmit_sent server btnDisabled emailField password st :
  let email := trim emailField in
  requestsSent (loginSubmit server btnDisabled emailField password st) = []
  \/ requestsSent (loginSubmit server btnDisabled emailField password st)
     = [login_request email (hashPassword password (authSalt_login email))].
Proof.
  unfold loginSubmit, requestsSent, SCSApi_login.
  destruct btnDisabled; [by left|].
  destruct (negb _); [by left|].
  destruct (bool_decide (password = [])); [by left|].
  destruct (_ ≫= _) as [[result|]|err]; by right.
Qed.

End ControllerProperties.

Lemma authSalt_deterministic_witness :
  @digest_length modelPlatform
  /\ authSalt_login (js "user@example.com") = authSalt_register (js "User@Example.com")
  /\ authSalt_decrypt (js " USER@EXAMPLE.COM ") = authSalt_register (js "User@Example.com")
  /\ length (authSalt_register (js "User@Example.com")) = 16%nat.
Proof.
  split; [exact modelPlatform_digest_length|].
  pose proof (authSalt_deterministic modelPlatform_digest_length
                (js "User@Example.com") (js "user@example.com") (js " USER@EXAMPLE.COM ")
                eq_refl eq_refl) as (_ & Hlen & Hlogin & Hdecrypt).
  exact (conj Hlogin (conj Hdecrypt Hlen)).
Defined.

Example registerSubmit_request :
  requestsSent (registerSubmit acceptingServer false (js " user@example.com ")
                  (js "Str0ngP@ss!") (js "Str0ngP@ss!") initialState)
  = [{| url := js "/api/register"; method := js "POST";
        body := [(js "email", js "user@example.com");
                 (js "password_hash",
                  js "537472306e67504073732175736572406578616d706c652e636f6d0000000000");
                 (js "salt", js "75736572406578616d706c652e636f6d")] |}].
Proof. vm_compute. reflexivity. Qed.

(** ** Sessions and download *)

Section FlowProperties.
Context `{Platform} `{Environment}.

Lemma registerSubmit_session server btnDisabled emailField password confirm st0 st sent toast :
  registerSubmit server btnDisabled emailField password confirm st0
    = (st, sent, EnteredDashboard toast) ->
  currentEmail st = Some (trim emailField)
  /\ currentPasswordHash st
     = Some (hashPassword password (authSalt_register (trim emailField)))
  /\ currentSalt st = Some (bufferToHex (authSalt_register (trim emailField))).
Proof.
  unfold registerSubmit, SCSApi_register.
  destruct btnDisabled; [discriminate|].
  destruct (negb _); [discriminate|].
  destruct (bool_decide (length password < 8)%nat); [discriminate|].
  destruct (bool_decide (password <> confirm)); [discriminate|].
  destruct (_ ≫= _); [|discriminate].
  intros [= <- _ _]. auto.
Qed.

Lemma loginSubmit_session server btnDisabled emailField password st0 st sent toast :
  loginSubmit server btnDisabled emailField password st0
    = (st, sent, EnteredDashboard toast) ->
  currentEmail st = Some (trim emailField)
  /\ currentPasswordHash st
     = Some (hashPassword password (authSalt_login (trim emailField))).
Proof.
  unfold loginSubmit, SCSApi_login.
  destruct btnDisabled; [discriminate|].
  destruct (negb _); [discriminate|].
  destruct (bool_decide (password = [])); [discriminate|].
  destruct (_ ≫= _) as [[result|]|err]; [|discriminate..].
  intros [= <- _ _]. by destruct (response_salt result).
Qed.



(** [performDecrypt] once a password was entered, the metadata and the blob
    were fetched and a session is open. *)
Lemma performDecrypt_fetched password target md ct st email :
  password <> [] -> currentEmail st = Some email ->
  performDecrypt password target (Ok md) (Ok ct) st =
  match decryptFile ct (md_iv md) (md_salt md)
          (hashPassword password (authSalt_decrypt email)) with
  | Ok decrypted =>
      if bool_decide (hashFile decrypted <> file_hash md)
      then decryptCatch (Error (js "INTEGRITY_FAIL"))
      else Downloaded decrypted (orElse (original_name md) (filename target))
  | Throw err => decryptCatch err
  end.
Proof.
  intros Hpw Hemail. unfold performDecrypt, performDecrypt_try.
  rewrite bool_decide_false by done. rewrite Hemail. cbn [mbind Result_bind].
  destruct (decryptFile _ _ _ _) as [d|e]; [|reflexivity].
  cbn [mbind Result_bind]. by destruct (bool_decide _).
Qed.




End FlowProperties.

(** ** Upload, and upload followed by download *)

Section UploadDownload.
Context `{Platform} `{Environment}.

(** [handleFileUpload] when no upload is running and the file is within
    the size limit: one call of [saveFile], carrying the envelope that
    [encryptFile] made under the session's password hash. *)
Lemma handleFileUpload_saved storage file st g :
  isUploading st = false -> file_size file <= 50 * 1024 * 1024 ->
  let envelope := (encryptFile (file_data file) (passwordArgument (currentPasswordHash st)) g).1 in
  savedCalls (handleFileUpload storage file st g) =
  [{| save_email := currentEmail st;
      save_passwordHash := currentPasswordHash st;
      save_blob := ciphertext envelope;
      save_metadata :=
        {| original_name := file_name file; original_size := file_size file;
           md_iv := iv envelope; md_salt := salt envelope;
           file_hash := fileHash envelope |};
      save_filename := file_name file |}].
Proof.
  intros Hup Hsize. unfold handleFileUpload, handleFileUpload_resume, handleFileUpload_begin, savedCalls.
  rewrite Hup, (proj2 (N.ltb_ge _ _) Hsize).
  cbn [setUploading currentPasswordHash currentEmail].
  destruct (encryptFile _ _ g) as [envelope g']. cbn [fst].
  by destruct (storage _).
Qed.

(** X1. Registration, upload and download end to end: with the password of
    the registration, the download hands back the uploaded bytes. *)
Lemma download_returns_uploaded_file
    (server : Server) (storage : Storage) (emailField password : JSString)
    (file : File) (st0 : AppState) (g : RNG) (target : DownloadTarget)
    (st : AppState) (sent : list Request) (toast : JSString) (call : SaveFile) :
  GCM_lengths -> GCM_correct ->
  registerSubmit server false emailField password password st0
    = (st, sent, EnteredDashboard toast) ->
  isUploading st0 = false -> file_size file <= 50 * 1024 * 1024 ->
  savedCalls (handleFileUpload storage file st g) = [call] ->
  performDecrypt password target (Ok (save_metadata call)) (Ok (save_blob call)) st
  = Downloaded (file_data file) (orElse (file_name file) (filename target)).
Proof.
  intros Hlen Hcorrect Hreg Hup Hsize Hcall.
  assert (password <> []) as Hpw.
  { intros ->. revert Hreg. unfold registerSubmit.
    destruct (negb _); [discriminate|].
    rewrite bool_decide_true by (simpl; lia). discriminate. }
  assert (isUploading st = false) as Hup'.
  { revert Hreg. unfold registerSubmit, SCSApi_register.
    repeat case_match; intros [= <- _ _]; done. }
  pose proof (registerSubmit_session _ _ _ _ _ _ _ _ _ Hreg) as (Hemail & Hhash & _).
  rewrite handleFileUpload_saved in Hcall by done. cbv zeta in Hcall.
  rewrite encryptFile_unfold, Hhash in Hcall.
  cbn [fst ciphertext iv salt fileHash passwordArgument default from_option id] in Hcall.
  injection Hcall as <-.
  rewrite (performDecrypt_fetched _ _ _ _ _ (trim emailField)) by done.
  cbn [save_metadata save_blob md_iv md_salt file_hash original_name].
  change (authSalt_decrypt (trim emailField)) with (authSalt_register (trim emailField)).
  rewrite decryptFile_subtle_encrypt by done.
  rewrite bool_decide_false; [reflexivity | by intros ?].
Qed.

End UploadDownload.


Example performDecrypt_wrong_password :
  performDecrypt (js "wrongpass") demoTarget (Ok demoMetadata)
    (Ok (ciphertext demoEnvelope)) demoState
  = DecryptionFailed.
Proof. vm_compute. reflexivity. Qed.

Example performDecrypt_corrupted_metadata :
  performDecrypt demoPassword demoTarget
    (Ok {| original_name := js "hello.txt"; original_size := 11;
           md_iv := iv demoEnvelope; md_salt := salt demoEnvelope;
           file_hash := js "00" |})
    (Ok (ciphertext demoEnvelope)) demoState
  = IntegrityCheckFailed.
Proof. vm_compute. reflexivity. Qed.

Example performDecrypt_no_password :
  performDecrypt [] demoTarget (Ok demoMetadata) (Ok (ciphertext demoEnvelope)) demoState
  = PasswordRequired.
Proof. reflexivity. Qed.

(** ** Interface conventions, upload limits, session storage *)

Lemma modelPlatform_PBKDF2_length : @PBKDF2_length modelPlatform.
Proof. intros password salt iterations bits. apply length_zeroPad. Qed.

Lemma hexPair_lower b : forallb isLowerHexDigit (hexPair b) = true.
Proof. destruct b; reflexivity. Qed.

Lemma bufferToHex_lower buffer : forallb isLowerHexDigit (bufferToHex buffer) = true.
Proof.
  induction buffer as [|b buffer IH]; [reflexivity|].
  unfold bufferToHex in *. cbn [fmap list_fmap concat]. fold (hexPair b).
  by rewrite forallb_app, hexPair_lower, IH.
Qed.

(** X2. The hex encoding at the boundary: [bufferToHex] writes two lower-case
    hex digits per byte with no separator, and [hexToBytes] reads back
    exactly the bytes that were written. *)
Theorem hex_codec_roundtrip (buffer : list byte) :
  length (bufferToHex buffer) = (2 * length buffer)%nat
  /\ forallb isLowerHexDigit (bufferToHex buffer) = true
  /\ hexToBytes (bufferToHex buffer) = buffer.
Proof.
  split; [apply length_bufferToHex|]. split; [apply bufferToHex_lower|].
  apply hexToBytes_bufferToHex.
Qed.

Section FurtherProperties.
Context `{Platform} `{Environment}.

(** X3. The fixed sizes of the interface: in every envelope [salt] is 32 hex
    characters, [iv] 24 and [fileHash] 64, and a password hash is 64 hex
    characters. *)
Theorem envelope_field_sizes :
  digest_length -> PBKDF2_length ->
  forall (P : list byte) (W : JSString) (g : RNG) (authSalt : list byte),
    let envelope := (encryptFile P W g).1 in
    length (salt envelope) = 32%nat /\ length (iv envelope) = 24%nat
    /\ length (fileHash envelope) = 64%nat
    /\ length (hashPassword W authSalt) = 64%nat
    /\ length (deriveKey W (drawnSalt g)) = 32%nat.
Proof.
  intros Hdigest Hpbkdf P W g authSalt envelope. subst envelope.
  rewrite encryptFile_unfold. cbn [fst salt iv fileHash].
  unfold hashFile, hashPassword, deriveKey.
  rewrite !length_bufferToHex, Hdigest, !Hpbkdf.
  unfold drawnSalt, drawnIV. rewrite !length_fmap, !length_seq.
  repeat split; reflexivity.
Qed.

(** X5. The session: [saveSession] records the email, the password hash and
    the salt, in the controller's variables and under the three keys of
    [sessionStorage]; [clearSession] removes all of them. The raw password
    is not among what is stored. *)
Theorem session_storage (email passwordHash saltHex : JSString) (st : AppState) :
  let st1 := saveSession email passwordHash saltHex st in
  let st2 := clearSession st1 in
  sessionStorage st1 !! js "scs_email" = Some email
  /\ sessionStorage st1 !! js "scs_hash" = Some passwordHash
  /\ sessionStorage st1 !! js "scs_salt" = Some saltHex
  /\ (forall key, key <> js "scs_email" -> key <> js "scs_hash" -> key <> js "scs_salt" ->
        sessionStorage st1 !! key = sessionStorage st !! key)
  /\ currentEmail st2 = None /\ currentPasswordHash st2 = None /\ currentSalt st2 = None
  /\ sessionStorage st2 !! js "scs_email" = None
  /\ sessionStorage st2 !! js "scs_hash" = None
  /\ sessionStorage st2 !! js "scs_salt" = None.
Proof.
  intros st1 st2. subst st1 st2. unfold saveSession, clearSession.
  cbn [sessionStorage currentEmail currentPasswordHash currentSalt].
  repeat split; try by simplify_map_eq.
  intros key H1 H2 H3. by simplify_map_eq.
Qed.

End FurtherProperties.

Lemma download_returns_uploaded_file_witness :
  (@GCM_lengths modelPlatform /\ @GCM_correct modelPlatform
   /\ demoRegistration
      = (demoState, [register_request demoEmail demoToken
                       (bufferToHex (authSalt_register demoEmail))],
         EnteredDashboard (js "Account created successfully!"))
   /\ file_size demoFile <= 50 * 1024 * 1024)
  /\ performDecrypt demoPassword demoTarget (Ok demoMetadata)
       (Ok (ciphertext demoEnvelope)) demoState
     = Downloaded helloWorld (js "hello.txt").
Proof.
  assert (file_size demoFile <= 50 * 1024 * 1024) as Hsize by (vm_compute; discriminate).
  assert (demoRegistration
          = (demoState, [register_request demoEmail demoToken
                           (bufferToHex (authSalt_register demoEmail))],
             EnteredDashboard (js "Account created successfully!"))) as Hreg
    by reflexivity.
  split.
  - split; [exact modelPlatform_GCM_lengths|]. split; [exact modelPlatform_GCM_correct|].
    split; [exact Hreg | exact Hsize].
  - exact (download_returns_uploaded_file acceptingServer acceptingStorage
             (js " user@example.com ") demoPassword demoFile initialState (countingRNG 7)
             demoTarget demoState _ _
             {| save_email := Some demoEmail; save_passwordHash := Some demoToken;
                save_blob := ciphertext demoEnvelope; save_metadata := demoMetadata;
                save_filename := js "hello.txt" |}
             modelPlatform_GCM_lengths modelPlatform_GCM_correct Hreg eq_refl Hsize
             eq_refl).
Defined.

Lemma envelope_field_sizes_witness :
  (@digest_length modelPlatform /\ @PBKDF2_length modelPlatform)
  /\ length (salt demoEnvelope) = 32%nat /\ length (iv demoEnvelope) = 24%nat
  /\ length (fileHash demoEnvelope) = 64%nat.
Proof.
  split; [exact (conj modelPlatform_digest_length modelPlatform_PBKDF2_length)|].
  destruct (envelope_field_sizes modelPlatform_digest_length modelPlatform_PBKDF2_length
              helloWorld demoToken (countingRNG 7) []) as (Hs & Hi & Hf & _).
  exact (conj Hs (conj Hi Hf)).
Defined.

(** ** Passwords and keys: a counting argument *)

Lemma allBytes_complete (b : byte) : b ∈ allBytes.
Proof.
  unfold allBytes. apply list_elem_of_omap. exists (Byte.to_N b).
  split; [|apply Byte.of_to_N].
  apply list_elem_of_fmap. exists (N.to_nat (Byte.to_N b)).
  split; [by rewrite N2Nat.id|].
  apply elem_of_seq. pose proof (Byte.to_N_bounded b). lia.
Qed.

Lemma allByteStrings_complete (n : nat) : forall l : list byte,
  length l = n -> l ∈ allByteStrings n.
Proof.
  induction n as [|n IH]; intros [|b l] Hl; try discriminate Hl.
  - apply list_elem_of_singleton. reflexivity.
  - injection Hl as Hl.
    change (allByteStrings (S n))
      with (b' ← allBytes; (fun l' => b' :: l') <$> allByteStrings n).
    apply list_elem_of_bind. exists b. split; [|apply allBytes_complete].
    apply list_elem_of_fmap. exists l. split; [reflexivity|]. by apply IH.
Qed.

Lemma collision_of_not_NoDup {A} `{EqDecision A} (l : list A) :
  ~ NoDup l -> exists i j x, (i < j)%nat /\ l !! i = Some x /\ l !! j = Some x.
Proof.
  induction l as [|a l IH]; intros Hdup.
  - destruct Hdup. constructor.
  - destruct (decide (a ∈ l)) as [Hin|Hnotin].
    + apply list_elem_of_lookup in Hin as [j Hj].
      exists 0%nat, (S j), a. repeat split; [lia | done].
    + destruct IH as (i & j & x & Hij & Hi & Hj).
      { intros Hl. apply Hdup. by apply NoDup_cons. }
      exists (S i), (S j), x. repeat split; [lia | done..].
Qed.

(** Among the values of a function into byte strings of one length, two
    coincide. *)
Lemma pigeonhole_byte_strings (n : nat) (f : nat -> list byte) :
  (forall i, length (f i) = n) -> exists i j, (i < j)%nat /\ f i = f j.
Proof.
  intros Hlen.
  remember (length (allByteStrings n)) as M eqn:HM.
  pose (l := f <$> seq 0 (S M)).
  destruct (decide (NoDup l)) as [Hnodup|Hdup].
  - exfalso.
    assert (l ⊆+ allByteStrings n) as Hsub.
    { apply NoDup_submseteq; [done|]. intros x Hx.
      apply list_elem_of_fmap in Hx as (k & -> & _). by apply allByteStrings_complete. }
    apply submseteq_length in Hsub. subst l.
    rewrite length_fmap, length_seq in Hsub. lia.
  - destruct (collision_of_not_NoDup l Hdup) as (i & j & x & Hij & Hi & Hj).
    subst l. rewrite list_lookup_fmap in Hi, Hj.
    destruct (seq 0 (S M) !! i) as [i'|] eqn:Ei; [|discriminate].
    destruct (seq 0 (S M) !! j) as [j'|] eqn:Ej; [|discriminate].
    apply lookup_seq in Ei as [-> _]. apply lookup_seq in Ej as [-> _].
    simplify_eq/=. exists i, j. split; [done | congruence].
Qed.

Lemma stringToBytes_lettersPassword (i : nat) :
  stringToBytes (lettersPassword i) = replicate i x61.
Proof.
  unfold stringToBytes, lettersPassword.
  induction i as [|i IH]; [reflexivity|].
  cbn [replicate toScalarValues]. change (isHighSurrogate 0x61) with false.
  change (isLowSurrogate 0x61) with false. cbn [fmap list_fmap concat].
  fold (@fmap list _ _ _ utf8Encode (toScalarValues (replicate i 0x61))).
  by rewrite IH.
Qed.

Section SharedKeys.
Context `{Platform} `{Environment}.

(** X6. Why C2 cannot hold for every pair of passwords, whatever the
    string handling: the derived key has 256 bits, so among the passwords
    ["a"], ["aa"], ["aaa"], ... two with different UTF-8 encodings derive
    the same key, and the second decrypts what the first encrypted. *)
Theorem distinct_passwords_share_a_key :
  PBKDF2_length -> GCM_lengths -> GCM_correct ->
  forall (P : list byte) (g : RNG),
  exists W W' : JSString,
    stringToBytes W <> stringToBytes W'
    /\ let envelope := (encryptFile P W g).1 in
       decryptFile (ciphertext envelope) (iv envelope) (salt envelope) W' = Ok P.
Proof.
  intros Hpbkdf Hlen Hcorrect P g.
  destruct (pigeonhole_byte_strings 32
              (fun i => deriveKey (lettersPassword i) (drawnSalt g)))
    as (i & j & Hij & Hkey).
  { intros i. unfold deriveKey. by rewrite Hpbkdf. }
  exists (lettersPassword i), (lettersPassword j). split.
  - rewrite !stringToBytes_lettersPassword. intros E.
    apply (f_equal length) in E. rewrite !length_replicate in E. lia.
  - by apply decryptFile_same_key.
Qed.

End SharedKeys.

Lemma distinct_passwords_share_a_key_witness :
  (@PBKDF2_length modelPlatform /\ @GCM_lengths modelPlatform /\ @GCM_correct modelPlatform)
  /\ exists W W' : JSString,
       stringToBytes W <> stringToBytes W'
       /\ let envelope := (encryptFile helloWorld W zeroRNG).1 in
          decryptFile (ciphertext envelope) (iv envelope) (salt envelope) W' = Ok helloWorld.
Proof.
  split.
  - split; [exact modelPlatform_PBKDF2_length|].
    split; [exact modelPlatform_GCM_lengths | exact modelPlatform_GCM_correct].
  - exact (distinct_passwords_share_a_key modelPlatform_PBKDF2_length
             modelPlatform_GCM_lengths modelPlatform_GCM_correct helloWorld zeroRNG).
Defined.

(** * Properties of the rest of the client *)

(** ** validateEmail *)

Lemma takeWhile_dropWhile {A} (p : A -> bool) (l : list A) :
  takeWhile p l ++ dropWhile p l = l.
Proof. induction l as [|x l IH]; [done|]. simpl. destruct (p x); [by rewrite <- IH at 3|done]. Qed.

Lemma forallb_takeWhile {A} (p : A -> bool) (l : list A) :
  forallb p (takeWhile p l) = true.
Proof. induction l as [|x l IH]; [done|]. simpl. destruct (p x) eqn:E; [simpl; by rewrite E|done]. Qed.

Lemma takeWhile_stop {A} (p : A -> bool) (l : list A) (x : A) (r : list A) :
  forallb p l = true -> p x = false ->
  takeWhile p (l ++ x :: r) = l /\ dropWhile p (l ++ x :: r) = x :: r.
Proof.
  intros Hl Hx. induction l as [|y l IH]; simpl in *.
  - by rewrite Hx.
  - apply andb_true_iff in Hl as [Hy Hl]. rewrite Hy.
    destruct (IH Hl) as [-> ->]. done.
Qed.

Lemma forallb_reverse {A} (p : A -> bool) (l : list A) :
  forallb p (reverse l) = forallb p l.
Proof.
  induction l as [|x l IH]; [done|].
  rewrite reverse_cons, forallb_app, IH. simpl. by rewrite andb_true_r, andb_comm.
Qed.

(** [validateEmail] with the two literal characters tested by
    comparison. *)
Lemma validateEmail_tests (email : JSString) :
  validateEmail email =
  match dropWhile isLocalChar email with
  | c :: rest =>
      (c =? 0x40)
      && (bool_decide (takeWhile isLocalChar email <> [])
          && match dropWhile isAlpha (reverse rest) with
             | c' :: domain =>
                 (c' =? 0x2E)
                 && (bool_decide (2 <= length (takeWhile isAlpha (reverse rest)))%nat
                     && bool_decide (domain <> [])
                     && forallb isDomainChar domain)
             | [] => false
             end)
  | [] => false
  end.
Proof.
  unfold validateEmail.
  destruct (dropWhile isLocalChar email) as [|c rest]; [reflexivity|].
  destruct (N.eqb_spec c 0x40) as [->|Hc].
  - cbn [andb]. f_equal.
    destruct (dropWhile isAlpha (reverse rest)) as [|c' domain]; [reflexivity|].
    destruct (N.eqb_spec c' 0x2E) as [->|Hc']; [reflexivity|].
    cbn [andb].
    destruct c' as [|p]; [reflexivity|].
    do 6 (destruct p as [p|p|]; try reflexivity). by destruct Hc'.
  - cbn [andb].
    destruct c as [|p]; [reflexivity|].
    do 7 (destruct p as [p|p|]; try reflexivity). by destruct Hc.
Qed.

Lemma isLocalChar_ascii c : isLocalChar c = true -> c < 0x80.
Proof.
  unfold isLocalChar, isAlpha, isDigit. intros Hc.
  repeat (apply orb_true_iff in Hc as [Hc|Hc]);
    repeat (apply andb_true_iff in Hc as [? ?]);
    repeat match goal with
           | E : (_ <=? _) = true |- _ => apply N.leb_le in E
           | E : (_ =? _) = true |- _ => apply N.eqb_eq in E
           end; lia.
Qed.

Lemma isDomainChar_ascii c : isDomainChar c = true -> c < 0x80.
Proof.
  unfold isDomainChar, isAlpha, isDigit. intros Hc.
  repeat (apply orb_true_iff in Hc as [Hc|Hc]);
    repeat (apply andb_true_iff in Hc as [? ?]);
    repeat match goal with
           | E : (_ <=? _) = true |- _ => apply N.leb_le in E
           | E : (_ =? _) = true |- _ => apply N.eqb_eq in E
           end; lia.
Qed.

Lemma isAlpha_domain c : isAlpha c = true -> isDomainChar c = true.
Proof. unfold isDomainChar. by intros ->. Qed.

Lemma forallb_ascii (p : N -> bool) (l : JSString) :
  (forall c, p c = true -> c < 0x80) -> forallb p l = true -> Forall (fun c => c < 0x80) l.
Proof.
  intros Hp. induction l as [|c l IH]; simpl; [constructor|].
  intros [Hc Hl]%andb_true_iff. constructor; auto.
Qed.

(** X7. [validateEmail] accepts exactly the strings of the form
    local@domain.tld that its regular expression denotes: a non-empty
    local part over [a-zA-Z0-9._%+-], one [@], a non-empty domain over
    [a-zA-Z0-9.-], a dot, and two or more letters up to the end of the
    string. Every accepted address consists of ASCII characters only and
    holds exactly one [@]. *)
Theorem validateEmail_accepts_the_pattern (email : JSString) :
  (validateEmail email = true <-> matchesEmailPattern email)
  /\ (validateEmail email = true ->
        Forall (fun c => c < 0x80) email
        /\ length (List.filter (fun c => c =? 0x40) email) = 1%nat).
Proof.
  assert (validateEmail email = true -> matchesEmailPattern email) as Hto.
  { rewrite validateEmail_tests.
    pose proof (takeWhile_dropWhile isLocalChar email) as Hsplit.
    pose proof (forallb_takeWhile isLocalChar email) as Hlocal.
    destruct (dropWhile isLocalChar email) as [|c rest]; [discriminate|].
    intros [Hc%N.eqb_eq [Hne H]%andb_true_iff]%andb_true_iff. subst c.
    apply bool_decide_eq_true in Hne.
    pose proof (takeWhile_dropWhile isAlpha (reverse rest)) as Hsplit2.
    pose proof (forallb_takeWhile isAlpha (reverse rest)) as Htld.
    destruct (dropWhile isAlpha (reverse rest)) as [|c' domain]; [discriminate|].
    apply andb_true_iff in H as [Hc'%N.eqb_eq H]. subst c'.
    apply andb_true_iff in H as [H Hdom]. apply andb_true_iff in H as [Hlen Hdne].
    apply bool_decide_eq_true in Hlen. apply bool_decide_eq_true in Hdne.
    exists (takeWhile isLocalChar email), (reverse domain),
           (reverse (takeWhile isAlpha (reverse rest))).
    repeat split; try done.
    - assert (rest = reverse domain ++ [0x2E]
                     ++ reverse (takeWhile isAlpha (reverse rest))) as Hrest.
      { apply (f_equal reverse) in Hsplit2.
        rewrite reverse_involutive, reverse_app, reverse_cons, <- app_assoc in Hsplit2.
        by rewrite <- Hsplit2 at 1. }
      rewrite <- Hrest. by rewrite <- Hsplit at 1.
    - intros E. apply Hdne. by rewrite <- (reverse_involutive domain), E.
    - by rewrite forallb_reverse.
    - by rewrite length_reverse.
    - by rewrite forallb_reverse. }
  assert (matchesEmailPattern email -> validateEmail email = true) as Hfrom.
  { intros (l & d & t & -> & Hlne & Hl & Hdne & Hd & Hlen & Ht).
    rewrite validateEmail_tests.
    destruct (takeWhile_stop isLocalChar l 0x40 (d ++ [0x2E] ++ t) Hl eq_refl)
      as [Htake Hdrop].
    cbn [app] in *. rewrite Hdrop, Htake. cbn [andb N.eqb Pos.eqb].
    rewrite bool_decide_true by done. cbn [andb].
    assert (reverse (d ++ 0x2E :: t) = reverse t ++ 0x2E :: reverse d) as ->.
    { by rewrite reverse_app, reverse_cons, <- app_assoc. }
    destruct (takeWhile_stop isAlpha (reverse t) 0x2E (reverse d)) as [Htake2 Hdrop2];
      [by rewrite forallb_reverse | reflexivity |].
    rewrite Hdrop2, Htake2. cbn [andb N.eqb Pos.eqb].
    rewrite length_reverse, forallb_reverse, Hd.
    rewrite bool_decide_true by done. rewrite bool_decide_true; [done|].
    intros E. apply Hdne. by rewrite <- (reverse_involutive d), E. }
  split; [split; assumption|].
  intros Hv. destruct (Hto Hv) as (l & d & t & -> & Hlne & Hl & Hdne & Hd & Hlen & Ht).
  split.
  - repeat apply Forall_app_2.
    + by apply (forallb_ascii isLocalChar); [apply isLocalChar_ascii|].
    + by repeat constructor.
    + by apply (forallb_ascii isDomainChar); [apply isDomainChar_ascii|].
    + by repeat constructor.
    + apply (forallb_ascii isAlpha); [|done].
      intros c Hc. by apply isDomainChar_ascii, isAlpha_domain.
  - assert (forall (p : N -> bool) (s : JSString), forallb p s = true ->
              (forall c, p c = true -> (c =? 0x40) = false) ->
              List.filter (fun c => c =? 0x40) s = []) as Hnone.
    { intros p s. induction s as [|c s IH]; [done|]. simpl.
      intros [Hc Hs]%andb_true_iff Hp. rewrite (Hp c Hc). by apply IH. }
    rewrite !List.filter_app.
    rewrite (Hnone isLocalChar l Hl), (Hnone isDomainChar d Hd), (Hnone isAlpha t Ht).
    + reflexivity.
    + intros c Hc. apply N.eqb_neq. intros ->. discriminate Hc.
    + intros c Hc. apply N.eqb_neq. intros ->. discriminate Hc.
    + intros c Hc. apply N.eqb_neq. intros ->. discriminate Hc.
Qed.

(** ** includes and the search filter *)

Lemma startsWith_prefix (s p : JSString) :
  startsWith s p = true <-> exists b, s = p ++ b.
Proof.
  revert s. induction p as [|a p IH]; intros s.
  - destruct s; simpl; split; eauto.
  - destruct s as [|c s]; simpl.
    + split; [done|]. by intros [b ?].
    + rewrite andb_true_iff, N.eqb_eq, IH. split.
      * intros [-> [b ->]]. by exists b.
      * intros [b [= -> ->]]. eauto.
Qed.

Lemma includes_substring (s p : JSString) :
  includes s p = true <-> exists a b, s = a ++ p ++ b.
Proof.
  induction s as [|c s IH].
  - cbn [includes]. rewrite orb_false_r, startsWith_prefix. split.
    + intros [b Hb]. by exists [], b.
    + intros (a & b & Hab). destruct a; [by exists b|done].
  - cbn [includes]. rewrite orb_true_iff, startsWith_prefix, IH. split.
    + intros [[b Hb]|(a & b & ->)]; [by exists [], b | by exists (c :: a), b].
    + intros (a & b & Hab). destruct a as [|c' a].
      * left. by exists b.
      * right. injection Hab as -> ->. by exists a, b.
Qed.

Lemma sublist_List_filter {A} (p : A -> bool) (l : list A) :
  sublist (List.filter p l) l.
Proof.
  induction l as [|x l IH]; [constructor|]. simpl.
  destruct (p x); by constructor.
Qed.

Section FileListProperties.
Context `{Platform} `{Environment}.

Lemma filterResult_named (query : JSString) (files : list FileEntry) :
  (forall f, f ∈ files -> entryName f <> None) ->
  filterResult (nameIncludes query) files = Ok (List.filter (nameMatches query) files).
Proof.
  induction files as [|f files IH]; intros Hnamed; [reflexivity|].
  cbn [filterResult List.filter]. unfold nameIncludes at 1, nameMatches at 1.
  destruct (entryName f) as [fileName|] eqn:Hf.
  - rewrite IH; [done|]. intros f' Hin. apply Hnamed. by right.
  - exfalso. apply (Hnamed f); [by left | done].
Qed.

Lemma filterResult_nameless (query : JSString) (files : list FileEntry) (f : FileEntry) :
  f ∈ files -> entryName f = None ->
  filterResult (nameIncludes query) files = Throw (undefinedPropertyError (js "toLowerCase")).
Proof.
  intros Hin Hf. induction files as [|f' files IH]; [by apply elem_of_nil in Hin|].
  cbn [filterResult]. unfold nameIncludes at 1.
  destruct (entryName f') as [fileName|] eqn:Hf'; [|reflexivity].
  apply elem_of_cons in Hin as [->|Hin]; [congruence|].
  by rewrite IH.
Qed.

(** X8. The search box. Without a query [renderFileList] shows every
    file and reads no name. With a query, when every file has a name
    ([original_name], or [stored_name] when that is absent or empty), it
    shows the files whose name contains the query, both in lower case,
    in the order of the list; the empty state appears exactly when no
    file is left, with the text for no match when a query was typed and
    the text for no files otherwise. With a query and a file that has
    neither name, the filter throws a [TypeError] and nothing is drawn;
    this is the only way [renderFileList] throws. *)
Theorem renderFileList_search (files : list FileEntry) (query : JSString) :
  filteredFiles files [] = Ok files
  /\ renderFileList files []
     = Ok match files with
          | [] => EmptyState (js "No files yet") (js "Upload your first file to get started")
          | _ => FileCards files
          end
  /\ (query <> [] -> (forall f, f ∈ files -> entryName f <> None) ->
        exists shown,
          filteredFiles files query = Ok shown
          /\ sublist shown files
          /\ (forall f, f ∈ shown <->
                f ∈ files
                /\ exists fileName a b,
                     entryName f = Some fileName
                     /\ toLowerCase fileName = a ++ toLowerCase query ++ b)
          /\ renderFileList files query
             = Ok match shown with
                  | [] => EmptyState (js "No matches found")
                            (js "Adjust your search for " ++ [0x22] ++ query ++ [0x22])
                  | _ => FileCards shown
                  end)
  /\ (query <> [] -> (exists f, f ∈ files /\ entryName f = None) ->
        filteredFiles files query = Throw (undefinedPropertyError (js "toLowerCase"))
        /\ renderFileList files query = Throw (undefinedPropertyError (js "toLowerCase")))
  /\ (forall e, renderFileList files query = Throw e ->
        query <> [] /\ e = (undefinedPropertyError (js "toLowerCase")) /\ exists f, f ∈ files /\ entryName f = None).
Proof.
  split; [reflexivity|]. split; [by destruct files|].
  assert (query <> [] -> (exists f, f ∈ files /\ entryName f = None) ->
          filteredFiles files query = Throw (undefinedPropertyError (js "toLowerCase"))) as Hthrows.
  { intros Hq (f & Hin & Hf). destruct query; [done|].
    cbn [filteredFiles]. by apply (filterResult_nameless _ _ f). }
  assert (query <> [] -> (forall f, f ∈ files -> entryName f <> None) ->
          filteredFiles files query = Ok (List.filter (nameMatches query) files)) as Hshown.
  { intros Hq Hnamed. destruct query; [done|].
    cbn [filteredFiles]. by apply filterResult_named. }
  split; [|split].
  - intros Hq Hnamed. exists (List.filter (nameMatches query) files).
    split; [by apply Hshown|]. split; [apply sublist_List_filter|]. split.
    + intros f. rewrite !list_elem_of_In, filter_In. unfold nameMatches.
      split.
      * intros [Hin Hf]. split; [done|].
        destruct (entryName f) as [fileName|]; [|done].
        apply includes_substring in Hf as (a & b & Hf). by exists fileName, a, b.
      * intros [Hin (fileName & a & b & -> & Hf)]. split; [done|].
        apply includes_substring. by exists a, b.
    + unfold renderFileList. rewrite Hshown by done.
      destruct (List.filter _ files); [|done]. by destruct query.
  - intros Hq Hnameless. split; [by apply Hthrows|].
    unfold renderFileList. by rewrite Hthrows.
  - intros e He. destruct query as [|c q].
    { unfold renderFileList in He. cbn [filteredFiles] in He. by destruct files. }
    split; [done|].
    destruct (decide (Forall (fun f => entryName f <> None) files)) as [Hall|Hsome].
    + rewrite Forall_forall in Hall. unfold renderFileList in He.
      rewrite Hshown in He by done. by destruct (List.filter _ files).
    + apply not_Forall_Exists in Hsome; [|intros f; apply _].
      apply Exists_exists in Hsome as (f & Hin & Hf).
      assert (entryName f = None) as Hf'
        by (destruct (entryName f) eqn:E; [exfalso; apply Hf; by rewrite E | done]).
      unfold renderFileList in He. rewrite Hthrows in He by eauto.
      injection He as <-. eauto.
Qed.

End FileListProperties.

(** ** Password strength *)

Lemma existsb_app_l {A} (p : A -> bool) (l k : list A) :
  existsb p l = true -> existsb p (l ++ k) = true.
Proof. intros Hl. by rewrite existsb_app, Hl. Qed.

Lemma existsb_app_r {A} (p : A -> bool) (l k : list A) :
  existsb p l = true -> existsb p (k ++ l) = true.
Proof. intros Hl. by rewrite existsb_app, Hl, orb_true_r. Qed.

Lemma strengthScore_bound (password : JSString) :
  (strengthScore password <= 5)%nat
  /\ ((length password < 8)%nat -> (strengthScore password <= 3)%nat).
Proof.
  unfold strengthScore. repeat case_bool_decide; repeat case_match; lia.
Qed.

Lemma strengthRank_score (password : JSString) :
  strengthRank (getPasswordStrength password)
  = (Nat.min 3 (strengthScore password - 1))%nat.
Proof.
  unfold getPasswordStrength. repeat case_bool_decide; vm_compute strengthRank; lia.
Qed.

Lemma strengthScore_mono (p q : JSString) :
  (forall t : N -> bool, existsb t p = true -> existsb t q = true) ->
  (length p <= length q)%nat ->
  (strengthScore p <= strengthScore q)%nat.
Proof.
  intros Hex Hlen. unfold strengthScore.
  pose proof (Hex isLower). pose proof (Hex isUpper). pose proof (Hex isDigit).
  pose proof (Hex (fun c => negb (isAlphaNumeric c))).
  repeat case_bool_decide; try lia;
    destruct (existsb isLower p), (existsb isUpper p), (existsb isDigit p),
             (existsb (fun c => negb (isAlphaNumeric c)) p);
    repeat match goal with
           | E : true = true -> _ |- _ => rewrite (E eq_refl)
           end; cbn [andb]; repeat case_match; lia.
Qed.

(** X9. The strength meter: the level [getPasswordStrength] returns never
    drops when characters are added to a password, before or after it;
    "strong" is the level of the passwords that pass four of the five
    tests and "weak" of those that pass at most one; a password of fewer
    than 8 characters is rated "good" at best, and one of lower-case
    letters only is "fair" from 12 characters on and "weak" below.
    [updatePasswordStrength] shows a label for every password but the
    empty one. *)
Theorem getPasswordStrength_levels (password before after : JSString) :
  (strengthRank (getPasswordStrength password)
   <= strengthRank (getPasswordStrength (before ++ password ++ after)))%nat
  /\ (getPasswordStrength password = {| level := js "strong"; label := js "Strong" |}
      <-> (4 <= strengthScore password)%nat)
  /\ (getPasswordStrength password = {| level := js "weak"; label := js "Weak" |}
      <-> (strengthScore password <= 1)%nat)
  /\ ((length password < 8)%nat ->
      strengthRank (getPasswordStrength password) <= 2)%nat
  /\ (forallb isLower password = true ->
      getPasswordStrength password
      = if bool_decide (12 <= length password)%nat
        then {| level := js "fair"; label := js "Fair" |}
        else {| level := js "weak"; label := js "Weak" |})
  /\ ((updatePasswordStrength password).2 = [] <-> password = []).
Proof.
  split; [|split; [|split; [|split; [|split]]]].
  - rewrite !strengthRank_score.
    assert (strengthScore password <= strengthScore (before ++ password ++ after))%nat;
      [|lia].
    apply strengthScore_mono.
    + intros t Ht. by apply existsb_app_r, existsb_app_l.
    + rewrite !length_app. lia.
  - unfold getPasswordStrength. repeat case_bool_decide; split; (done || lia).
  - unfold getPasswordStrength. repeat case_bool_decide; split; (done || lia).
  - intros Hlen. rewrite strengthRank_score.
    pose proof (strengthScore_bound password) as [_ Hb]. specialize (Hb Hlen). lia.
  - intros Hlow.
    assert (existsb isUpper password = false) as Hup.
    { apply not_true_is_false. intros (c & Hc & Hu)%existsb_exists.
      rewrite forallb_forall in Hlow. specialize (Hlow c Hc).
      unfold isLower, isUpper in *.
      repeat match goal with
             | E : (_ && _) = true |- _ => apply andb_true_iff in E as [? ?]
             | E : (_ <=? _) = true |- _ => apply N.leb_le in E
             end. lia. }
    assert (existsb isDigit password = false) as Hdig.
    { apply not_true_is_false. intros (c & Hc & Hu)%existsb_exists.
      rewrite forallb_forall in Hlow. specialize (Hlow c Hc).
      unfold isLower, isDigit in *.
      repeat match goal with
             | E : (_ && _) = true |- _ => apply andb_true_iff in E as [? ?]
             | E : (_ <=? _) = true |- _ => apply N.leb_le in E
             end. lia. }
    assert (existsb (fun c => negb (isAlphaNumeric c)) password = false) as Hsym.
    { apply not_true_is_false. intros (c & Hc & Hu)%existsb_exists.
      rewrite forallb_forall in Hlow. specialize (Hlow c Hc).
      unfold isAlphaNumeric in Hu. by rewrite Hlow in Hu. }
    unfold getPasswordStrength, strengthScore. rewrite Hup, Hdig, Hsym, andb_false_r.
    repeat case_bool_decide; (done || lia).
  - destruct password as [|c password]; [done|].
    unfold updatePasswordStrength, getPasswordStrength. cbn [snd].
    by repeat case_bool_decide.
Qed.

(** ** secureClear *)

Lemma fmap_const_seq {A B} (f : nat -> A) (b : B) (k n : nat) :
  (fun _ => b) <$> (f <$> seq k n) = replicate n b.
Proof. revert k. induction n as [|n IH]; intros k; [done|]. simpl. by rewrite IH. Qed.

Section SecureClearProperties.
Context `{Environment}.

(** X10. [secureClear] leaves a buffer of at most 65536 bytes with the same
    number of bytes, all 0, whatever the generator supplied, having drawn
    one random byte per byte of the buffer; for a larger buffer
    [crypto.getRandomValues] throws QuotaExceededError before [fill(0)]
    runs, so the call fails and the buffer keeps its content. *)
Theorem secureClear_zeroes (buffer : list byte) (g : RNG) :
  (N.of_nat (length buffer) <= 65536 ->
     secureClear buffer g
     = (replicate (length buffer) x00, Ok tt,
        {| tape := tape g; cursor := cursor g + length buffer |}))
  /\ (65536 < N.of_nat (length buffer) ->
     secureClear buffer g = (buffer, Throw QuotaExceededError, g)).
Proof.
  unfold secureClear, getRandomValues_into, getRandomValues. split; intros Hlen.
  - rewrite (proj2 (N.ltb_ge _ _) Hlen). f_equal. f_equal.
    apply fmap_const_seq.
  - by rewrite (proj2 (N.ltb_lt _ _) Hlen).
Qed.

End SecureClearProperties.

(** ** restoreSession *)

(** X11. A reload of the page within the tab: [restoreSession] brings back
    the email, the password hash and the salt [saveSession] stored, and
    enters the dashboard, provided none of the three is the empty string;
    after [clearSession] (logout) it restores nothing; and whenever one of
    the three items is missing or empty it leaves the state as it is. What
    it restores is what the storage holds, unchecked. *)
Theorem restoreSession_after_reload (email passwordHash saltHex : JSString)
    (st : AppState) (storage : gmap JSString JSString) :
  (email <> [] -> passwordHash <> [] -> saltHex <> [] ->
     let saved := sessionStorage (saveSession email passwordHash saltHex st) in
     restoreSession (pageLoad saved)
     = ({| currentEmail := Some email; currentPasswordHash := Some passwordHash;
           currentSalt := Some saltHex; isUploading := false;
           sessionStorage := saved |}, true))
  /\ (let cleared := sessionStorage (clearSession st) in
      restoreSession (pageLoad cleared) = (pageLoad cleared, false))
  /\ (truthy (storage !! js "scs_email") = false
      \/ truthy (storage !! js "scs_hash") = false
      \/ truthy (storage !! js "scs_salt") = false ->
      restoreSession (pageLoad storage) = (pageLoad storage, false))
  /\ (forall st', restoreSession (pageLoad storage) = (st', true) ->
        currentEmail st' = storage !! js "scs_email"
        /\ currentPasswordHash st' = storage !! js "scs_hash"
        /\ currentSalt st' = storage !! js "scs_salt"
        /\ sessionStorage st' = storage).
Proof.
  split; [|split; [|split]].
  - intros He Hh Hs saved. subst saved. unfold restoreSession, saveSession, pageLoad.
    cbn [sessionStorage isUploading].
    simplify_map_eq. destruct email, passwordHash, saltHex; done.
  - intros cleared. subst cleared. unfold restoreSession, clearSession, pageLoad.
    cbn [sessionStorage isUploading].
    by simplify_map_eq.
  - unfold restoreSession, pageLoad. cbn [sessionStorage isUploading].
    intros [-> | [-> | ->]]; by rewrite ?andb_false_r.
  - intros st'. unfold restoreSession, pageLoad. cbn [sessionStorage isUploading].
    case_match; [|done]. by intros [= <-].
Qed.

(** ** The storage stack *)

Section StorageStackProperties.
Context `{Platform} `{Environment} `{SupabaseLibrary}.

Lemma Traced_bind_Ok {A B} (f : A -> Traced B) (m : Traced A) (a : A) :
  outcome m = Ok a ->
  (m ≫= f) = {| outcome := outcome (f a); trace := trace m ++ trace (f a) |}.
Proof. intros E. unfold mbind, Traced_bind. by rewrite E. Qed.

Lemma Traced_bind_Throw {A B} (f : A -> Traced B) (m : Traced A) (e : JSError) :
  outcome m = Throw e ->
  (m ≫= f) = {| outcome := Throw e; trace := trace m |}.
Proof. intros E. unfold mbind, Traced_bind. by rewrite E. Qed.

Lemma SCSApi_uploadFile_answered backend email passwordHash blob metadata filename :
  SCSApi_uploadFile backend email passwordHash blob metadata filename
  = answered (js "Upload failed.") parseResponse backend
      (uploadFile_request email passwordHash blob metadata filename).
Proof.
  unfold SCSApi_uploadFile, answered, fetch, mbind, Traced_bind, parseResponse.
  cbn [outcome trace].
  destruct (backend _) as [res|e]; [|done].
  destruct (res_ok res); cbn [negb]; [done|].
  by destruct (res_body res) as [|[d|]].
Qed.

Lemma SCSApi_getFileInfo_answered backend email filename :
  SCSApi_getFileInfo backend email filename
  = answered (js "File not found.") parseResponse backend
      (getFileInfo_request email filename).
Proof.
  unfold SCSApi_getFileInfo, answered, fetch, mbind, Traced_bind, parseResponse.
  cbn [outcome trace].
  destruct (backend _) as [res|e]; [|done].
  destruct (res_ok res); cbn [negb]; [done|].
  by destruct (res_body res) as [|[d|]].
Qed.

Lemma SCSApi_downloadBlob_answered backend email filename :
  SCSApi_downloadBlob backend email filename
  = answered (js "Download failed.") res_arrayBuffer backend
      (downloadBlob_request email filename).
Proof.
  unfold SCSApi_downloadBlob, answered, fetch, mbind, Traced_bind, parseResponse.
  cbn [outcome trace].
  destruct (backend _) as [res|e]; [|done].
  destruct (res_ok res); cbn [negb]; [done|].
  by destruct (res_body res) as [|[d|]].
Qed.

Lemma SCSApi_listFiles_answered backend email :
  SCSApi_listFiles backend email
  = answered (js "Failed to load files.") parseResponse backend (listFiles_request email).
Proof.
  unfold SCSApi_listFiles, answered, fetch, mbind, Traced_bind, parseResponse.
  cbn [outcome trace].
  destruct (backend _) as [res|e]; [|done].
  destruct (res_ok res); cbn [negb]; [done|].
  by destruct (res_body res) as [|[d|]].
Qed.

Lemma SCSApi_deleteFile_answered backend email filename passwordHash :
  SCSApi_deleteFile backend email filename passwordHash
  = answered (js "Delete failed.") parseResponse backend
      (deleteFile_request email filename passwordHash).
Proof.
  unfold SCSApi_deleteFile, answered, fetch, mbind, Traced_bind, parseResponse.
  cbn [outcome trace].
  destruct (backend _) as [res|e]; [|done].
  destruct (res_ok res); cbn [negb]; [done|].
  by destruct (res_body res) as [|[d|]].
Qed.

(** X12. The five file operations of SCSApi follow one protocol. Each
    sends exactly one request. If [fetch] rejects, the operation rejects
    with the same error. A response that is [ok] is a success whatever
    its body: the operation resolves to the parsed body (to the bytes,
    for [downloadBlob]), and to the object with the detail "Unexpected
    server response." when the body is not JSON. A response that is not
    [ok] is never a success: the error has the server's [detail] when
    there is one, the operation's own message when there is none,
    "Unexpected server response." when the body is not JSON, and is the
    engine's [TypeError] when the body is the JSON value [null]. The
    read operations carry the email and the file name and nothing else;
    upload and delete carry the password hash. *)
Theorem SCSApi_file_operations (backend : Backend) (email passwordHash : option JSString)
    (filename : JSString) (blob : list byte) (metadata : Metadata) :
  SCSApi_uploadFile backend email passwordHash blob metadata filename
  = answered (js "Upload failed.") parseResponse backend
      {| api_url := js "/api/upload"; api_params := []; api_method := js "POST";
         api_headers := [];
         api_payload :=
           FormBody [(js "email", FormString (ToString email));
                     (js "password_hash", FormString (ToString passwordHash));
                     (js "metadata", FormJSON metadata);
                     (js "file", FormBlob blob filename)] |}
  /\ SCSApi_getFileInfo backend email filename
     = answered (js "File not found.") parseResponse backend
         {| api_url := js "/api/download";
            api_params := [(js "email", ToString email); (js "filename", filename)];
            api_method := js "GET"; api_headers := []; api_payload := NoBody |}
  /\ SCSApi_downloadBlob backend email filename
     = answered (js "Download failed.") res_arrayBuffer backend
         {| api_url := js "/api/download/blob";
            api_params := [(js "email", ToString email); (js "filename", filename)];
            api_method := js "GET"; api_headers := []; api_payload := NoBody |}
  /\ SCSApi_listFiles backend email
     = answered (js "Failed to load files.") parseResponse backend
         {| api_url := js "/api/files"; api_params := [(js "email", ToString email)];
            api_method := js "GET"; api_headers := []; api_payload := NoBody |}
  /\ SCSApi_deleteFile backend email filename passwordHash
     = answered (js "Delete failed.") parseResponse backend
         {| api_url := js "/api/delete"; api_params := []; api_method := js "DELETE";
            api_headers := [(js "Content-Type", js "application/json")];
            api_payload :=
              JSONBody [(js "email", email); (js "filename", Some filename);
                        (js "password_hash", passwordHash)] |}.
Proof.
  split; [apply SCSApi_uploadFile_answered|].
  split; [apply SCSApi_getFileInfo_answered|].
  split; [apply SCSApi_downloadBlob_answered|].
  split; [apply SCSApi_listFiles_answered | apply SCSApi_deleteFile_answered].
Qed.

(** X13. An upload through the Local provider hands the backend all that
    decryption needs. The one request of the upload carries, next to the
    ciphertext and the metadata with the IV and the salt of the file, the
    field [password_hash]; [decryptFile] applied to the fields of that
    request returns the file. *)
Theorem upload_request_suffices_to_decrypt (backend : Backend) (now : JSString)
    (m : Modules) (file : File) (st : AppState) (g : RNG) :
  GCM_lengths -> GCM_correct ->
  currentProvider m = Some SCSLocalProvider ->
  isUploading st = false -> file_size file <= 50 * 1024 * 1024 ->
  let password_hash := ToString (currentPasswordHash st) in
  exists (blob : list byte) (metadata : Metadata),
    callsOf backend now m
      <$> savedCalls (handleFileUpload (storageOf backend now m) file st g)
    = [[Fetch {| api_url := js "/api/upload"; api_params := []; api_method := js "POST";
                 api_headers := [];
                 api_payload :=
                   FormBody [(js "email", FormString (ToString (currentEmail st)));
                             (js "password_hash", FormString password_hash);
                             (js "metadata", FormJSON metadata);
                             (js "file", FormBlob blob (file_name file))] |}]]
    /\ decryptFile blob (md_iv metadata) (md_salt metadata) password_hash
       = Ok (file_data file).
Proof.
  intros Hlen Hcorrect Hprovider Hup Hsize password_hash. subst password_hash.
  rewrite (handleFileUpload_saved _ file st g Hup Hsize).
  rewrite encryptFile_unfold. cbn [fst ciphertext iv salt fileHash].
  eexists _, _. split.
  - cbn [fmap list_fmap]. unfold callsOf, SCSStorage_saveFile. rewrite Hprovider.
    cbn [save_email save_passwordHash save_blob save_metadata save_filename].
    unfold SCSLocalProvider_saveFile. rewrite SCSApi_uploadFile_answered.
    unfold answered, mbind, Traced_bind. cbn [outcome trace].
    repeat f_equal.
    destruct (backend _) as [res|e]; cbn [trace]; [|reflexivity].
    destruct (res_ok res); [reflexivity|].
    destruct (res_body res) as [|[d|]]; reflexivity.
  - cbn [md_iv md_salt].
    change (ToString (currentPasswordHash st))
      with (passwordArgument (currentPasswordHash st)).
    by apply decryptFile_subtle_encrypt.
Qed.

(** X14. The Supabase provider works in two steps that are not undone.
    [saveFile] uploads the blob to [<hash of the email>/<file name>] and
    then writes the row; when the upload fails no row is written, and when
    the row cannot be written the blob stays in the bucket. [deleteFile]
    removes the blob and then deletes the row; when the removal fails the
    row is kept, and when the row cannot be deleted the blob is gone all
    the same. Neither sends the password hash, or depends on it. Without
    a client both fail with "Supabase not initialized." and call nothing. *)
Theorem SCSSupabaseProvider_two_steps (client : SupabaseClient) (now email filename : JSString)
    (passwordHash : option JSString) (blob : list byte) (metadata : Metadata) :
  let path := hashEmail email ++ js "/" ++ filename in
  let upload := StorageUpload (js "scs_files") path blob true (js "application/octet-stream") in
  let upsert :=
    TableUpsert (js "scs_metadata")
      {| row_email := Some email; row_filename := filename;
         row_metadata := metadata; row_updated_at := now |} (js "email, filename") in
  let removeBlob := StorageRemove (js "scs_files") [path] in
  let deleteRow :=
    TableDelete (js "scs_metadata") [(js "email", Some email); (js "filename", Some filename)] in
  let saveFile := SCSSupabaseProvider_saveFile (Some client) now (Some email) in
  let deleteFile := SCSSupabaseProvider_deleteFile (Some client) (Some email) filename in
  saveFile passwordHash blob metadata filename
  = match reply_error (client upload), reply_error (client upsert) with
    | Some uploadError, _ =>
        {| outcome := Throw (Error (js "Supabase Upload failed: " ++ uploadError));
           trace := [Supabase upload] |}
    | None, Some dbError =>
        {| outcome := Throw (Error (js "Supabase DB update failed: " ++ dbError));
           trace := [Supabase upload; Supabase upsert] |}
    | None, None =>
        {| outcome := Ok (StatusObject [(js "status", js "success");
                                        (js "source", js "supabase")]);
           trace := [Supabase upload; Supabase upsert] |}
    end
  /\ deleteFile passwordHash
     = match reply_error (client removeBlob), reply_error (client deleteRow) with
       | Some storageError, _ =>
           {| outcome := Throw (Error (js "Supabase delete failed: " ++ storageError));
              trace := [Supabase removeBlob] |}
       | None, Some dbError =>
           {| outcome := Throw (Error (js "Supabase DB delete failed: " ++ dbError));
              trace := [Supabase removeBlob; Supabase deleteRow] |}
       | None, None =>
           {| outcome := Ok (StatusObject [(js "status", js "success")]);
              trace := [Supabase removeBlob; Supabase deleteRow] |}
       end
  /\ (forall otherHash,
        saveFile otherHash blob metadata filename = saveFile passwordHash blob metadata filename
        /\ deleteFile otherHash = deleteFile passwordHash)
  /\ SCSSupabaseProvider_saveFile None now (Some email) passwordHash blob metadata filename
     = {| outcome := Throw (Error (js "Supabase not initialized.")); trace := [] |}
  /\ SCSSupabaseProvider_deleteFile None (Some email) filename passwordHash
     = {| outcome := Throw (Error (js "Supabase not initialized.")); trace := [] |}.
Proof.
  intros path upload upsert removeBlob deleteRow saveFile deleteFile.
  subst saveFile deleteFile. split; [|split; [|split; [|split]]]; try reflexivity.
  - unfold SCSSupabaseProvider_saveFile, mbind, Traced_bind, supabaseCall, settled,
      hashEmail_of, filePath, BUCKET_NAME, TABLE_NAME. cbn [outcome trace app].
    fold path. fold upload. destruct (reply_error (client upload)); [reflexivity|].
    cbn [outcome trace app]. fold upsert.
    by destruct (reply_error (client upsert)).
  - unfold SCSSupabaseProvider_deleteFile, mbind, Traced_bind, supabaseCall, settled,
      hashEmail_of, filePath, BUCKET_NAME, TABLE_NAME. cbn [outcome trace app].
    fold path. fold removeBlob. destruct (reply_error (client removeBlob)); [reflexivity|].
    cbn [outcome trace app]. fold deleteRow.
    by destruct (reply_error (client deleteRow)).
  - intros otherHash. by split.
Qed.

Lemma hashEmail_length (email : JSString) :
  digest_length -> length (hashEmail email) = 64%nat.
Proof. intros Hd. unfold hashEmail. by rewrite length_bufferToHex, Hd. Qed.

(** X15. Where the Supabase provider keeps a blob. The path
    [<hash of the email>/<file name>] determines both parts, whatever
    characters the file name holds, because the hash always has 64
    characters: two uploads go to the same path only for the same email
    hash and the same file name. Emails that differ only in case or in
    surrounding white space have the same hash, so they share every
    path, while the rows of the table are kept under the email as
    given. *)
Theorem SCSSupabaseProvider_paths :
  digest_length ->
  forall email1 email2 filename1 filename2 : JSString,
    (filePath (hashEmail email1) filename1 = filePath (hashEmail email2) filename2
     <-> hashEmail email1 = hashEmail email2 /\ filename1 = filename2)
    /\ (trim (toLowerCase email1) = trim (toLowerCase email2) ->
        forall (client : SupabaseClient) (now : JSString) passwordHash blob metadata,
          head (trace (SCSSupabaseProvider_saveFile (Some client) now (Some email1)
                         passwordHash blob metadata filename1))
          = head (trace (SCSSupabaseProvider_saveFile (Some client) now (Some email2)
                           passwordHash blob metadata filename1))).
Proof.
  intros Hd email1 email2 filename1 filename2. split.
  - split.
    + unfold filePath. intros E.
      apply app_inj_1 in E as [E1 E2]; [|by rewrite !hashEmail_length].
      split; [done|]. by injection E2.
    + by intros [-> ->].
  - intros Hnorm client now passwordHash blob metadata.
    assert (hashEmail email1 = hashEmail email2) as Hhash.
    { unfold hashEmail. by rewrite Hnorm. }
    unfold SCSSupabaseProvider_saveFile, mbind, Traced_bind, supabaseCall, settled,
      hashEmail_of. cbn [outcome trace app]. rewrite Hhash.
    by repeat case_match.
Qed.

Lemma foldl_encrypted_size_rows (rows : list MetadataRow) (start : N) :
  foldl (fun sum f => sum + entry_encrypted_size f) start (rowEntry <$> rows) = start.
Proof.
  revert start. induction rows as [|row rows IH]; intros start; [done|].
  cbn [fmap list_fmap foldl]. change (list_fmap _ _ rowEntry rows) with (rowEntry <$> rows).
  rewrite IH. cbn [rowEntry entry_encrypted_size]. lia.
Qed.

(** X16. With the Supabase provider the storage used is always shown as
    0 B: the elements [listFiles] makes of the rows have no
    [encrypted_size], which is what [updateStats] adds up. The list has
    one element for each row, in the order of the rows, named by the
    stored file name, so that the search filter compares with that
    name. *)
Theorem SCSSupabaseProvider_listFiles_stats (client : SupabaseClient)
    (email : option JSString) :
  let select :=
    TableSelect (js "scs_metadata") (js "*") [(js "email", email)]
      (Some (js "updated_at", false)) false in
  let listed := SCSSupabaseProvider_listFiles (Some client) email in
  trace listed = [Supabase select]
  /\ match reply_error (client select) with
     | Some error => outcome listed = Throw (Error (js "Supabase list failed: " ++ error))
     | None =>
         exists files,
           outcome listed = Ok files
           /\ entryName <$> files = Some <$> (row_filename <$> reply_rows (client select))
           /\ entry_original_size <$> files
              = (fun row => original_size (row_metadata row)) <$> reply_rows (client select)
           /\ updateStats files = (length (reply_rows (client select)), js "0 B")
     end.
Proof.
  intros select listed. subst listed.
  unfold SCSSupabaseProvider_listFiles, mbind, Traced_bind, supabaseCall, TABLE_NAME.
  cbn [outcome trace]. fold select.
  destruct (reply_error (client select)) as [error|]; [done|].
  cbn [outcome trace app]. split; [done|]. eexists. split; [reflexivity|].
  split; [|split].
  - rewrite <- !list_fmap_compose. apply list_fmap_ext. intros _ row _.
    unfold entryName. cbn. by destruct (row_filename row).
  - by rewrite <- list_fmap_compose.
  - unfold updateStats. rewrite foldl_encrypted_size_rows, length_fmap. done.
Qed.

Lemma initStorage_cases (m : Modules) :
  let m' := initStorage m in
  localStorage m' = localStorage m
  /\ ((currentProvider m' = Some SCSLocalProvider /\ supabaseClient m' = supabaseClient m)
      \/ (currentProvider m' = Some SCSSupabaseProvider
          /\ exists url key client,
               createClient url key = Some client /\ supabaseClient m' = Some client
               /\ url <> [] /\ key <> []
               /\ ((getItemOr (localStorage m) (js "scs_provider") (js "managed") = js "supabase"
                    /\ localStorage m !! js "scs_supabase_url" = Some url
                    /\ localStorage m !! js "scs_supabase_key" = Some key)
                   \/ (getItemOr (localStorage m) (js "scs_provider") (js "managed") = js "managed"
                       /\ url = MANAGED_CONFIG_url /\ key = MANAGED_CONFIG_key)))).
Proof.
  intros m'. subst m'. unfold initStorage, SCSSupabaseProvider_init.
  set (provider := getItemOr _ _ _).
  case_bool_decide as Hs.
  - destruct (localStorage m !! js "scs_supabase_url") as [[|c url]|] eqn:Hurl;
      cbn [truthy negb orb default from_option id]; try (split; [done|left; done]).
    destruct (localStorage m !! js "scs_supabase_key") as [[|d key]|] eqn:Hkey;
      cbn [truthy negb orb default from_option id]; try (split; [done|left; done]).
    destruct (createClient (c :: url) (d :: key)) as [client|] eqn:Hclient;
      (split; [done|]); [right|left; done].
    split; [done|]. exists (c :: url), (d :: key), client.
    repeat split; try done. by left.
  - case_bool_decide as Hm; [|split; [done|left; done]].
    destruct MANAGED_CONFIG_url as [|c url] eqn:Hurl;
      cbn [truthy negb orb default from_option id]; try (split; [done|left; done]).
    destruct MANAGED_CONFIG_key as [|d key] eqn:Hkey;
      cbn [truthy negb orb default from_option id]; try (split; [done|left; done]).
    destruct (createClient (c :: url) (d :: key)) as [client|] eqn:Hclient;
      (split; [done|]); [right|left; done].
    split; [done|]. exists (c :: url), (d :: key), client.
    repeat split; try done. by right.
Qed.

Ltac distinct_keys :=
  let E := fresh in intros E; vm_compute in E; discriminate E.

(** X17. Before [initStorage] has run every operation of SCSStorage fails
    with "No storage provider configured." and calls nothing.
    [initStorage] always leaves a provider set: listing files afterwards
    makes exactly one call. The Supabase provider is set
    only with a client that [createClient] returned for an address and a
    key that are not empty: those stored in [localStorage] when the
    setting is "supabase", those built in when it is "managed" or absent.
    In every other case, an empty address or key and a [createClient]
    that throws included, the Local provider is set and the client of an
    earlier call is kept. [localStorage] is only read. *)
Theorem initStorage_provider (m : Modules) :
  let setting := getItemOr (localStorage m) (js "scs_provider") (js "managed") in
  let m' := initStorage m in
  localStorage m' = localStorage m
  /\ (currentProvider m' = Some SCSLocalProvider
      \/ currentProvider m' = Some SCSSupabaseProvider)
  /\ (currentProvider m' = Some SCSSupabaseProvider ->
      exists url key client,
        createClient url key = Some client /\ supabaseClient m' = Some client
        /\ url <> [] /\ key <> []
        /\ ((setting = js "supabase"
             /\ localStorage m !! js "scs_supabase_url" = Some url
             /\ localStorage m !! js "scs_supabase_key" = Some key)
            \/ (setting = js "managed"
                /\ url = MANAGED_CONFIG_url /\ key = MANAGED_CONFIG_key)))
  /\ (currentProvider m' = Some SCSLocalProvider -> supabaseClient m' = supabaseClient m)
  /\ (setting <> js "supabase" -> setting <> js "managed" ->
      currentProvider m' = Some SCSLocalProvider)
  /\ (forall backend email,
        length (trace (SCSStorage_listFiles backend m' email)) = 1%nat)
  /\ (forall backend now stored email passwordHash blob metadata filename,
        let unset (A : Type) : Traced A :=
          {| outcome := Throw (Error (js "No storage provider configured."));
             trace := [] |} in
        let m0 := scriptsLoaded stored in
        SCSStorage_saveFile backend now m0 email passwordHash blob metadata filename
        = unset Settled
        /\ SCSStorage_listFiles backend m0 email = unset (list FileEntry)
        /\ SCSStorage_getFileBlob backend m0 email filename = unset (list byte)
        /\ SCSStorage_getMetadata backend m0 email filename = unset (option Metadata)
        /\ SCSStorage_deleteFile backend m0 email filename passwordHash = unset Settled).
Proof.
  intros setting m'. destruct (initStorage_cases m) as [Hstored Hcases].
  fold m' in Hstored, Hcases. fold setting in Hcases.
  split; [done|]. split; [|split; [|split; [|split; [|split]]]]; [| | | | |done].
  - destruct Hcases as [[-> _]|[-> _]]; [by left|by right].
  - intros Hp. destruct Hcases as [[Hl _]|[_ Hc]]; [congruence|done].
  - intros Hp. destruct Hcases as [[_ Hl]|[Hc _]]; [done|congruence].
  - intros Hs Hm. destruct Hcases as [[Hl _]|[_ (url & key & client & _ & _ & _ & _ & Hc)]];
      [done|]. by destruct Hc as [[? _]|[? _]].
  - intros backend email. unfold SCSStorage_listFiles.
    destruct Hcases as [[-> _]|[-> (url & key & client & _ & -> & _)]].
    + unfold SCSLocalProvider_listFiles. rewrite SCSApi_listFiles_answered.
      unfold answered, mbind, Traced_bind, settled, member. cbn [outcome trace].
      destruct (backend _) as [res|e]; cbn [trace]; [|reflexivity].
      destruct (res_ok res); [|by destruct (res_body res) as [|[d|]]].
      cbn [outcome trace app]. by destruct (parseResponse res).
    + unfold SCSSupabaseProvider_listFiles, mbind, Traced_bind, supabaseCall.
      cbn [outcome trace]. by destruct (reply_error _).
Qed.

(** X18. Saving the settings stores the chosen provider, and for
    "supabase" the address and the key without surrounding white space,
    before [initStorage] runs on them; other entries of [localStorage]
    are kept. The toast names the provider that is in use afterwards, not
    the one chosen: when "supabase" is chosen and the address or the key
    is blank, or [createClient] throws, the Local provider is in use and
    the toast says "Local Server", while the stored setting stays
    "supabase". *)
Theorem saveSettings_outcome (provider urlField keyField : JSString) (m : Modules) :
  let saved := saveSettings provider urlField keyField m in
  let stored := localStorage saved.1 in
  stored !! js "scs_provider" = Some provider
  /\ (provider = js "supabase" ->
      stored !! js "scs_supabase_url" = Some (trim urlField)
      /\ stored !! js "scs_supabase_key" = Some (trim keyField))
  /\ (forall key, key <> js "scs_provider" ->
        provider <> js "supabase"
        \/ (key <> js "scs_supabase_url" /\ key <> js "scs_supabase_key") ->
        stored !! key = localStorage m !! key)
  /\ (saved.2 = js "Storage provider updated to Local Server"
        /\ currentProvider saved.1 = Some SCSLocalProvider
      \/ saved.2 = js "Storage provider updated to Supabase Cloud"
         /\ currentProvider saved.1 = Some SCSSupabaseProvider)
  /\ (provider = js "supabase" ->
      match trim urlField, trim keyField with
      | [], _ | _, [] => currentProvider saved.1 = Some SCSLocalProvider
      | url, key =>
          match createClient url key with
          | Some client =>
              currentProvider saved.1 = Some SCSSupabaseProvider
              /\ supabaseClient saved.1 = Some client
          | None => currentProvider saved.1 = Some SCSLocalProvider
          end
      end).
Proof.
  intros saved stored. subst stored saved. unfold saveSettings. cbn [fst snd].
  set (m1 := if bool_decide (provider = js "supabase") then _ else _).
  destruct (initStorage_cases m1) as [Hstored Hcases]. cbv zeta in Hstored, Hcases.
  rewrite Hstored.
  assert (js "scs_supabase_key" <> js "scs_provider") as Hkp by distinct_keys.
  assert (js "scs_supabase_url" <> js "scs_provider") as Hup by distinct_keys.
  assert (js "scs_supabase_key" <> js "scs_supabase_url") as Hku by distinct_keys.
  split; [|split; [|split; [|split]]].
  - subst m1. case_bool_decide; unfold setItem; cbn [localStorage].
    + rewrite lookup_insert_ne by done. rewrite lookup_insert_ne by done.
      apply lookup_insert_eq.
    + apply lookup_insert_eq.
  - intros ->. subst m1. rewrite bool_decide_true by done.
    unfold setItem; cbn [localStorage]. split.
    + rewrite lookup_insert_ne by done. apply lookup_insert_eq.
    + apply lookup_insert_eq.
  - intros key Hk Hother. subst m1. case_bool_decide as Hp.
    + destruct Hother as [?|[? ?]]; [done|].
      unfold setItem; cbn [localStorage].
      rewrite lookup_insert_ne by done. rewrite lookup_insert_ne by done.
      by rewrite lookup_insert_ne.
    + unfold setItem; cbn [localStorage]. by rewrite lookup_insert_ne.
  - unfold getProviderName.
    destruct Hcases as [[-> _]|[-> _]]; [left|right]; done.
  - intros ->. subst m1. rewrite bool_decide_true by done. clear Hstored Hcases.
    unfold initStorage, setItem. cbn [localStorage supabaseClient currentProvider].
    assert (getItemOr
              (<[js "scs_supabase_key":=trim keyField]>
                 (<[js "scs_supabase_url":=trim urlField]>
                    (<[js "scs_provider":=js "supabase"]> (localStorage m))))
              (js "scs_provider") (js "managed") = js "supabase") as ->.
    { unfold getItemOr. rewrite lookup_insert_ne by distinct_keys.
      rewrite lookup_insert_ne by distinct_keys. by rewrite lookup_insert_eq. }
    rewrite bool_decide_true by done.
    rewrite lookup_insert_eq.
    rewrite lookup_insert_ne by distinct_keys. rewrite lookup_insert_eq.
    unfold SCSSupabaseProvider_init.
    destruct (trim urlField) as [|c url]; [done|].
    destruct (trim keyField) as [|d key]; [done|].
    cbn [truthy negb orb default from_option id].
    by destruct (createClient (c :: url) (d :: key)).
Qed.

End StorageStackProperties.

(** ** The dashboard *)

Section DashboardProperties.
Context `{Platform} `{Environment} `{SupabaseLibrary}.

Lemma loadFiles_keeps (backend : Backend) (d : Dashboard) :
  session (loadFiles backend d).1.1 = session d
  /\ modules (loadFiles backend d).1.1 = modules d
  /\ deleteTarget (loadFiles backend d).1.1 = deleteTarget d.
Proof.
  unfold loadFiles. destruct (outcome _) as [data|err]; [|done].
  by destruct (renderFileList data []).
Qed.

(** [loadFiles] draws the list without a query, which does not throw. *)
Lemma loadFiles_drawn (backend : Backend) (d : Dashboard) :
  loadFiles backend d =
  let listed := SCSStorage_listFiles backend (modules d) (currentEmail (session d)) in
  match outcome listed with
  | Ok data =>
      ({| session := session d; modules := modules d;
          cachedFiles := data; deleteTarget := deleteTarget d;
          fileList :=
            match data with
            | [] => EmptyState (js "No files yet") (js "Upload your first file to get started")
            | _ => FileCards data
            end;
          stats := updateStats data |},
       trace listed, [])
  | Throw err =>
      (d, trace listed,
       [{| toast_message := js "Failed to load files: " ++ message err;
           toast_type := js "error" |}])
  end.
Proof.
  unfold loadFiles. cbv zeta. destruct (outcome _) as [data|err]; [|done].
  by destruct data.
Qed.

(** The calls [loadFiles] makes: none, one request to the backend, or one
    select on the Supabase client. *)
Lemma loadFiles_calls (backend : Backend) (d : Dashboard) :
  let email := currentEmail (session d) in
  (loadFiles backend d).1.2 = []
  \/ (loadFiles backend d).1.2 = [Fetch (listFiles_request email)]
  \/ (loadFiles backend d).1.2
     = [Supabase (TableSelect TABLE_NAME (js "*") [(js "email", email)]
                    (Some (js "updated_at", false)) false)].
Proof.
  intros email. rewrite loadFiles_drawn. cbv zeta. unfold SCSStorage_listFiles.
  destruct (currentProvider (modules d)) as [[|]|].
  - right; left. unfold SCSLocalProvider_listFiles. rewrite SCSApi_listFiles_answered.
    unfold answered, mbind, Traced_bind, settled, member. cbn [outcome trace].
    destruct (backend _) as [res|e]; [|reflexivity].
    destruct (res_ok res); [|by destruct (res_body res) as [|[d'|]]].
    cbn [outcome trace app]. by destruct (parseResponse res).
  - unfold SCSSupabaseProvider_listFiles.
    destruct (supabaseClient (modules d)) as [client|]; [|by left].
    right; right. unfold mbind, Traced_bind, supabaseCall. cbn [outcome trace].
    by destruct (reply_error _).
  - by left.
Qed.

Lemma loadFiles_local_calls (backend : Backend) (d : Dashboard) :
  currentProvider (modules d) = Some SCSLocalProvider ->
  (loadFiles backend d).1.2 = [Fetch (listFiles_request (currentEmail (session d)))].
Proof.
  intros Hp. rewrite loadFiles_drawn. cbv zeta. unfold SCSStorage_listFiles. rewrite Hp.
  unfold SCSLocalProvider_listFiles. rewrite SCSApi_listFiles_answered.
  unfold answered, mbind, Traced_bind, settled, member. cbn [outcome trace].
  destruct (backend _) as [res|e]; [|reflexivity].
  destruct (res_ok res); [|by destruct (res_body res) as [|[d'|]]].
  cbn [outcome trace app]. by destruct (parseResponse res).
Qed.

Lemma performDelete_settled_no_target (backend : Backend) (value : Settled) (d : Dashboard) :
  deleteTarget d = None ->
  performDelete_settled backend (Ok value) d
  = (setDeleteTarget None d, [],
     [{| toast_message :=
           js "Delete failed: " ++ nullPropertyError_message (js "originalName");
         toast_type := js "error" |}]).
Proof. intros Ht. unfold performDelete_settled. by rewrite Ht. Qed.

Lemma performDelete_settled_clears (backend : Backend) (result : Result Settled) (d : Dashboard) :
  deleteTarget (performDelete_settled backend result d).1.1 = None.
Proof.
  unfold performDelete_settled.
  destruct result as [value|err]; [|done].
  destruct (deleteTarget d); [|done]. cbn [mbind Result_bind].
  by destruct (loadFiles backend d) as [[d1 calls] toasts].
Qed.

(** X19. Deleting a file with the Local provider. [performDelete] sends
    one DELETE request with the email and the password hash of the
    session and the stored name of the chosen file. When the backend
    accepts it, the dialog's file is reported as deleted and the list is
    fetched again; when it does not, the error is shown after "Delete
    failed: " and nothing else is requested. In both cases the target is
    cleared, and the session and the storage settings are as before. *)
Theorem performDelete_through_the_backend (backend : Backend) (d : Dashboard)
    (target : DownloadTarget) :
  currentProvider (modules d) = Some SCSLocalProvider ->
  deleteTarget d = Some target ->
  let email := currentEmail (session d) in
  let deletion :=
    {| api_url := js "/api/delete"; api_params := []; api_method := js "DELETE";
       api_headers := [(js "Content-Type", js "application/json")];
       api_payload :=
         JSONBody [(js "email", email); (js "filename", Some (filename target));
                   (js "password_hash", currentPasswordHash (session d))] |} in
  let reload :=
    {| api_url := js "/api/files"; api_params := [(js "email", ToString email)];
       api_method := js "GET"; api_headers := []; api_payload := NoBody |} in
  let finished := performDelete backend d in
  deleteTarget finished.1.1 = None
  /\ session finished.1.1 = session d /\ modules finished.1.1 = modules d
  /\ match outcome (answered (js "Delete failed.") parseResponse backend deletion) with
     | Ok _ =>
         finished.1.2 = [Fetch deletion; Fetch reload]
         /\ head finished.2
            = Some {| toast_message :=
                        [0x22] ++ originalName target ++ [0x22] ++ js " deleted.";
                      toast_type := js "success" |}
     | Throw err =>
         finished
         = (setDeleteTarget None d, [Fetch deletion],
            [{| toast_message := js "Delete failed: " ++ message err;
                toast_type := js "error" |}])
     end.
Proof.
  intros Hp Ht email deletion reload finished. subst finished.
  unfold performDelete, performDelete_call. rewrite Ht.
  unfold SCSStorage_deleteFile. rewrite Hp. unfold SCSLocalProvider_deleteFile.
  rewrite SCSApi_deleteFile_answered.
  change (deleteFile_request _ _ _) with deletion.
  set (sent := answered _ _ _ _).
  assert (trace sent = [Fetch deletion]) as Htrace by done.
  destruct (outcome sent) as [data|err] eqn:Hsent.
  - rewrite (Traced_bind_Ok _ _ _ Hsent). cbn [outcome trace mret Traced_ret].
    unfold performDelete_settled. rewrite Ht. cbn [mbind Result_bind].
    pose proof (loadFiles_keeps backend d) as (Hs & Hm & _).
    pose proof (loadFiles_local_calls backend d Hp) as Hcalls.
    destruct (loadFiles backend d) as [[d1 calls] toasts]. cbn [fst snd] in *.
    rewrite Htrace, Hcalls. by rewrite app_nil_r.
  - rewrite (Traced_bind_Throw _ _ _ Hsent). cbn [outcome trace].
    unfold performDelete_settled. cbn [mbind Result_bind fst snd].
    by rewrite Htrace.
Qed.

(** X20. [performDelete] relies on [deleteTarget] still being set when
    the call has settled. A click on the confirm button calls
    [SCSStorage.deleteFile] for the stored name given to [confirmDelete]
    and leaves the target untouched until the call has settled, so that a
    second click in between makes the same call again. If the dialog
    is dismissed while the request is under way, or an earlier
    [performDelete] has finished in the meantime, a request that
    succeeded is reported as "Delete failed: " followed by the engine's
    message for reading a property of [null], and the file list is not
    fetched again. After a dismissal the confirm button does nothing. *)
Theorem performDelete_target_cleared_meanwhile (backend : Backend) (d : Dashboard)
    (value : Settled) (earlier : Result Settled) :
  let failed :=
    {| toast_message := js "Delete failed: " ++ nullPropertyError_message (js "originalName");
       toast_type := js "error" |} in
  let afterEarlier := (performDelete_settled backend earlier d).1.1 in
  (forall name original,
     performDelete_call backend (confirmDelete name original d)
     = Some (SCSStorage_deleteFile backend (modules d) (currentEmail (session d)) name
               (currentPasswordHash (session d))))
  /\ performDelete_call backend (cancelDelete d) = None
  /\ performDelete backend (cancelDelete d) = (cancelDelete d, [], [])
  /\ performDelete_settled backend (Ok value) (cancelDelete d)
     = (cancelDelete d, [], [failed])
  /\ performDelete_settled backend (Ok value) afterEarlier = (afterEarlier, [], [failed]).
Proof.
  intros failed afterEarlier. split; [|split; [|split; [|split]]]; try reflexivity.
  - pose proof (performDelete_settled_clears backend earlier d) as Hc.
    fold afterEarlier in Hc.
    rewrite (performDelete_settled_no_target backend value afterEarlier Hc).
    unfold setDeleteTarget. rewrite <- Hc. by destruct afterEarlier.
Qed.

End DashboardProperties.

(** ** Examples of the storage stack *)

Lemma upload_request_suffices_to_decrypt_witness :
  (@GCM_lengths modelPlatform /\ @GCM_correct modelPlatform
   /\ currentProvider localModules = Some SCSLocalProvider
   /\ isUploading demoState = false
   /\ file_size demoFile <= 50 * 1024 * 1024)
  /\ exists (blob : list byte) (metadata : Metadata),
       decryptFile blob (md_iv metadata) (md_salt metadata)
         (ToString (currentPasswordHash demoState))
       = Ok (file_data demoFile).
Proof.
  assert (file_size demoFile <= 50 * 1024 * 1024) as Hsize by (vm_compute; discriminate).
  split.
  - split; [exact modelPlatform_GCM_lengths|]. split; [exact modelPlatform_GCM_correct|].
    split; [reflexivity|]. split; [reflexivity | exact Hsize].
  - destruct (upload_request_suffices_to_decrypt acceptingBackend demoNow localModules
                demoFile demoState (countingRNG 7)
                modelPlatform_GCM_lengths modelPlatform_GCM_correct eq_refl eq_refl Hsize)
      as (blob & metadata & _ & Hdecrypt).
    exact (ex_intro _ blob (ex_intro _ metadata Hdecrypt)).
Defined.

Lemma SCSSupabaseProvider_paths_witness :
  @digest_length modelPlatform
  /\ (filePath (hashEmail demoEmail) (js "a/b.txt") = filePath (hashEmail demoEmail) (js "b.txt")
      <-> hashEmail demoEmail = hashEmail demoEmail /\ js "a/b.txt" = js "b.txt").
Proof.
  split; [exact modelPlatform_digest_length|].
  exact (proj1 (SCSSupabaseProvider_paths modelPlatform_digest_length
                  demoEmail demoEmail (js "a/b.txt") (js "b.txt"))).
Defined.

Lemma performDelete_through_the_backend_witness :
  (currentProvider (modules demoDashboard) = Some SCSLocalProvider
   /\ deleteTarget demoDashboard = Some demoTarget)
  /\ deleteTarget (performDelete acceptingBackend demoDashboard).1.1 = None.
Proof.
  split; [split; reflexivity|].
  exact (proj1 (performDelete_through_the_backend acceptingBackend demoDashboard demoTarget
                  eq_refl eq_refl)).
Defined.

(** ** What the stored metadata tells, and the file list through the stack *)

Section MoreControllerProperties.
Context `{Platform} `{Environment} `{SupabaseLibrary}.


(** X22. The file list through the Local provider. [loadFiles] sends one
    GET /api/files request with the email of the session. It shows the
    files of the answer, with no search filter applied, and counts them,
    when the response is [ok] and its body is a JSON object; a body
    without [files], and a body that is not JSON at all, show the empty
    list "No files yet" without any error. A toast "Failed to load
    files: ..." with the dashboard left as it was is the result in every
    other case: [fetch] rejected, the response was not [ok], or the body
    was the JSON value [null]. *)
Theorem loadFiles_through_the_backend (backend : Backend) (d : Dashboard) :
  currentProvider (modules d) = Some SCSLocalProvider ->
  let request :=
    {| api_url := js "/api/files";
       api_params := [(js "email", ToString (currentEmail (session d)))];
       api_method := js "GET"; api_headers := []; api_payload := NoBody |} in
  let shows (files : list FileEntry) :=
    ({| session := session d; modules := modules d; cachedFiles := files;
        deleteTarget := deleteTarget d;
        fileList := match files with
                    | [] => EmptyState (js "No files yet")
                              (js "Upload your first file to get started")
                    | _ => FileCards files
                    end;
        stats := (length files,
                  formatFileSize (foldl (fun sum f => sum + entry_encrypted_size f) 0 files)) |},
     [Fetch request], @nil Toast) in
  let fails (text : JSString) :=
    (d, [Fetch request],
     [{| toast_message := js "Failed to load files: " ++ text; toast_type := js "error" |}]) in
  loadFiles backend d
  = match backend request with
    | Throw err => fails (message err)
    | Ok res =>
        match res_ok res, res_body res with
        | true, NotJSON => shows []
        | true, JSONValue (Some data) => shows (default [] (data_files data))
        | true, JSONValue None => fails (nullPropertyError_message (js "files"))
        | false, NotJSON => fails (js "Unexpected server response.")
        | false, JSONValue (Some data) =>
            fails (orElse (data_detail data) (js "Failed to load files."))
        | false, JSONValue None => fails (nullPropertyError_message (js "detail"))
        end
    end.
Proof.
  intros Hp request shows fails. subst shows fails.
  unfold loadFiles, SCSStorage_listFiles. rewrite Hp.
  unfold SCSLocalProvider_listFiles. rewrite SCSApi_listFiles_answered.
  change (listFiles_request _) with request.
  unfold answered, mbind, Traced_bind, settled, member, parseResponse.
  cbn [outcome trace].
  destruct (backend request) as [res|err]; [|reflexivity].
  destruct (res_ok res), (res_body res) as [|[data|]]; cbn [outcome trace app];
    try reflexivity.
  - unfold updateStats, renderFileList, filteredFiles.
    by destruct (default [] (data_files data)).
Qed.

End MoreControllerProperties.


Lemma loadFiles_through_the_backend_witness :
  currentProvider (modules demoDashboard) = Some SCSLocalProvider
  /\ (loadFiles acceptingBackend demoDashboard).1.2
     = [Fetch {| api_url := js "/api/files";
                 api_params := [(js "email", ToString (currentEmail (session demoDashboard)))];
                 api_method := js "GET"; api_headers := []; api_payload := NoBody |}].
Proof.
  split; [reflexivity|].
  rewrite (loadFiles_through_the_backend acceptingBackend demoDashboard eq_refl).
  reflexivity.
Defined.

(** ** Signing out and in again *)

Section SignInProperties.
Context `{Platform} `{Environment} `{SupabaseLibrary}.

(** X23. Signing out clears the session and nothing else: the cached
    list of files and the cards on the dashboard stay. They are replaced
    only when a later [loadFiles] succeeds, so when the next user signs
    in within the same tab and the list cannot be fetched, the dashboard
    and every search still show the files of the previous user. *)
Theorem logout_keeps_the_file_list (server : Server) (backend : Backend)
    (btnDisabled : bool) (emailField passwordField : JSString) (d : Dashboard) :
  let left := (logout d).1 in
  let entered :=
    (loginOnPage server backend btnDisabled emailField passwordField left).1 in
  session left = clearSession (session d)
  /\ cachedFiles left = cachedFiles d /\ fileList left = fileList d /\ stats left = stats d
  /\ (forall err,
        outcome (SCSStorage_listFiles backend (modules d) (Some (trim emailField)))
        = Throw err ->
        cachedFiles entered = cachedFiles d /\ fileList entered = fileList d
        /\ stats entered = stats d
        /\ forall value,
             fileList (searchInput value entered)
             = match renderFileList (cachedFiles d) (trim value) with
               | Ok drawn => drawn
               | Throw _ => fileList d
               end).
Proof.
  intros left entered. split; [done|]. split; [done|]. split; [done|]. split; [done|].
  intros err Hfail.
  assert (cachedFiles entered = cachedFiles d /\ fileList entered = fileList d
          /\ stats entered = stats d) as (Hc & Hf & Hs).
  { subst entered left. unfold loginOnPage, loginRun, logout.
    cbn [fst session withSession].
    unfold loginSubmit. destruct btnDisabled; [done|].
    destruct (negb (validateEmail (trim emailField))); [done|].
    case_bool_decide; [done|].
    destruct (SCSApi_login _ _ _) as [[[result|]|e] sent]; [|done..].
    rewrite loadFiles_drawn.
    assert (forall st,
              currentEmail
                match response_salt result with
                | Some salt => saveSession (trim emailField) st salt (clearSession (session d))
                | None => saveSession_undefinedSalt (trim emailField) st (clearSession (session d))
                end = Some (trim emailField)) as Hemail
      by (intros st; by destruct (response_salt result)).
    cbv zeta. cbn [session modules withSession]. rewrite Hemail, Hfail. done. }
  split; [done|]. split; [done|]. split; [done|].
  intros value. unfold searchInput. rewrite Hc.
  destruct (renderFileList (cachedFiles d) (trim value)); [done | exact Hf].
Qed.

End SignInProperties.

(** ** The token: on the wire, and as the password of the files *)

Section TokenProperties.
Context `{Platform} `{Environment} `{SupabaseLibrary}.

(** The hex of 256 derived bits is 64 lower-case hex digits. *)
Lemma derived_bits_hex (password salt : list byte) :
  PBKDF2_length ->
  length (bufferToHex (PBKDF2_HMAC_SHA256 password salt 100000 256)) = 64%nat
  /\ forallb isLowerHexDigit (bufferToHex (PBKDF2_HMAC_SHA256 password salt 100000 256)) = true.
Proof.
  intros Hpbkdf. rewrite length_bufferToHex, Hpbkdf. split; [reflexivity|].
  apply bufferToHex_lower.
Qed.

(** The calls of a registration: none when the handler returns early,
    otherwise the request to the backend and then what [loadFiles]
    sends. *)
Lemma registerRun_calls server backend btnDisabled emailField password confirm d :
  let email := trim emailField in
  let req :=
    register_request email (hashPassword password (authSalt_register email))
      (bufferToHex (authSalt_register email)) in
  let calls := (registerRun server backend btnDisabled emailField password confirm d).1.2 in
  if btnDisabled || negb (validateEmail email) || bool_decide (length password < 8)%nat
     || bool_decide (password <> confirm)
  then calls = []
  else exists listed,
         calls = AuthFetch req :: listed
         /\ (listed = []
             \/ listed = [Fetch (listFiles_request (Some email))]
             \/ listed = [Supabase (TableSelect TABLE_NAME (js "*") [(js "email", Some email)]
                                      (Some (js "updated_at", false)) false)]).
Proof.
  intros email req calls. subst calls. unfold registerRun, registerSubmit.
  destruct btnDisabled; [done|]. fold email.
  destruct (negb (validateEmail email)); [done|].
  destruct (bool_decide (length password < 8)%nat); [done|].
  destruct (bool_decide (password <> confirm)); [done|].
  cbn [orb]. unfold SCSApi_register. fold req.
  destruct (_ ≫= _) as [data|err].
  - pose proof (loadFiles_calls backend
                  (withSession
                     (saveSession email (hashPassword password (authSalt_register email))
                        (bufferToHex (authSalt_register email)) (session d)) d)) as Hcalls.
    cbn [session withSession saveSession currentEmail] in Hcalls.
    destruct (loadFiles backend _) as [[d1 listed] toasts].
    cbn [fst snd fmap list_fmap app] in *. by exists listed.
  - exists []. split; [reflexivity | by left].
Qed.

Lemma loginRun_calls server backend btnDisabled emailField password d :
  let email := trim emailField in
  let req := login_request email (hashPassword password (authSalt_login email)) in
  let calls := (loginRun server backend btnDisabled emailField password d).1.2 in
  if btnDisabled || negb (validateEmail email) || bool_decide (password = [])
  then calls = []
  else exists listed,
         calls = AuthFetch req :: listed
         /\ (listed = []
             \/ listed = [Fetch (listFiles_request (Some email))]
             \/ listed = [Supabase (TableSelect TABLE_NAME (js "*") [(js "email", Some email)]
                                      (Some (js "updated_at", false)) false)]).
Proof.
  intros email req calls. subst calls. unfold loginRun, loginSubmit.
  destruct btnDisabled; [done|]. fold email.
  destruct (negb (validateEmail email)); [done|].
  destruct (bool_decide (password = [])); [done|].
  cbn [orb]. unfold SCSApi_login. fold req.
  destruct (_ ≫= _) as [[result|]|err].
  - set (st := match response_salt result with Some _ => _ | None => _ end).
    assert (currentEmail st = Some email) as Hemail
      by (subst st; by destruct (response_salt result)).
    pose proof (loadFiles_calls backend (withSession st d)) as Hcalls.
    cbn [session withSession] in Hcalls. rewrite Hemail in Hcalls.
    destruct (loadFiles backend _) as [[d1 listed] toasts].
    cbn [fst snd fmap list_fmap app] in *. by exists listed.
  - exists []. split; [reflexivity | by left].
  - exists []. split; [reflexivity | by left].
Qed.

(** A handler that enters the dashboard has sent its request, and
    [loadFiles] then asks the Local provider for the list of the email
    that was signed in. *)
Lemma registerRun_entered server backend btnDisabled emailField password confirm d welcome :
  let email := trim emailField in
  currentProvider (modules d) = Some SCSLocalProvider ->
  (registerSubmit server btnDisabled emailField password confirm (session d)).2
    = EnteredDashboard welcome ->
  (registerRun server backend btnDisabled emailField password confirm d).1.2
  = [AuthFetch (register_request email (hashPassword password (authSalt_register email))
                  (bufferToHex (authSalt_register email)));
     Fetch (listFiles_request (Some email))].
Proof.
  intros email Hp. unfold registerRun.
  pose proof (registerSubmit_sent server btnDisabled emailField password confirm (session d))
    as Hsent. cbv zeta in Hsent. unfold requestsSent in Hsent.
  destruct (registerSubmit _ _ _ _ _ _) as [[st sent] result] eqn:Hsubmit.
  cbn [fst snd] in *. intros ->.
  apply registerSubmit_session in Hsubmit as Hsession. destruct Hsession as (Hemail & _).
  assert (sent <> []) as Hne.
  { intros ->. revert Hsubmit. unfold registerSubmit, SCSApi_register.
    repeat case_match; discriminate. }
  destruct Hsent as [->| ->]; [done|].
  pose proof (loadFiles_local_calls backend (withSession st d) Hp) as Hlisted.
  cbn [session withSession] in Hlisted. rewrite Hemail in Hlisted.
  destruct (loadFiles backend _) as [[d1 listed] toasts]. cbn [fst snd] in *.
  by rewrite Hlisted.
Qed.

Lemma loginRun_entered server backend btnDisabled emailField password d welcome :
  let email := trim emailField in
  currentProvider (modules d) = Some SCSLocalProvider ->
  (loginSubmit server btnDisabled emailField password (session d)).2
    = EnteredDashboard welcome ->
  (loginRun server backend btnDisabled emailField password d).1.2
  = [AuthFetch (login_request email (hashPassword password (authSalt_login email)));
     Fetch (listFiles_request (Some email))].
Proof.
  intros email Hp. unfold loginRun.
  pose proof (loginSubmit_sent server btnDisabled emailField password (session d))
    as Hsent. cbv zeta in Hsent. unfold requestsSent in Hsent.
  destruct (loginSubmit _ _ _ _ _) as [[st sent] result] eqn:Hsubmit.
  cbn [fst snd] in *. intros ->.
  apply loginSubmit_session in Hsubmit as Hsession. destruct Hsession as (Hemail & _).
  assert (sent <> []) as Hne.
  { intros ->. revert Hsubmit. unfold loginSubmit, SCSApi_login.
    repeat case_match; discriminate. }
  destruct Hsent as [->| ->]; [done|].
  pose proof (loadFiles_local_calls backend (withSession st d) Hp) as Hlisted.
  cbn [session withSession] in Hlisted. rewrite Hemail in Hlisted.
  destruct (loadFiles backend _) as [[d1 listed] toasts]. cbn [fst snd] in *.
  by rewrite Hlisted.
Qed.

(** C8. Every call that leaves the page for a registration or a login.
    The handler sends nothing when the button is disabled or a check of
    the form fails; otherwise it sends first the POST to [/api/register],
    whose body has exactly the members [email], [password_hash] and
    [salt], respectively the POST to [/api/login] with exactly [email]
    and [password_hash], and then at most the one call with which
    [loadFiles] fetches the file list, which carries the email alone
    (with the Local provider, exactly that call whenever the handler
    entered the dashboard).
    [password_hash] is the hex of the 256 bits that PBKDF2-HMAC-SHA256
    derives from the UTF-8 password with 100000 iterations under the auth
    salt, 64 lower-case hex digits, and [salt] is the hex of the auth
    salt. The raw password enters only through PBKDF2: two passwords that
    pass the handler's checks and derive the same bits lead to the same
    calls, the same dashboard and the same toasts. *)
Theorem auth_requests_carry_only_the_password_hash
    (server : Server) (backend : Backend) (btnDisabled : bool)
    (emailField password confirm : JSString) (d : Dashboard) :
  let email := trim emailField in
  let authSalt := take 16 (digest_SHA256 (stringToBytes (trim (toLowerCase email)))) in
  let derived (W : JSString) :=
    PBKDF2_HMAC_SHA256 (stringToBytes W) authSalt 100000 256 in
  let registration :=
    AuthFetch {| url := js "/api/register"; method := js "POST";
                 body := [(js "email", email);
                          (js "password_hash", bufferToHex (derived password));
                          (js "salt", bufferToHex authSalt)] |} in
  let login :=
    AuthFetch {| url := js "/api/login"; method := js "POST";
                 body := [(js "email", email);
                          (js "password_hash", bufferToHex (derived password))] |} in
  let listing (calls : list Call) :=
    calls = []
    \/ calls = [Fetch {| api_url := js "/api/files"; api_params := [(js "email", email)];
                         api_method := js "GET"; api_headers := [];
                         api_payload := NoBody |}]
    \/ calls = [Supabase (TableSelect (js "scs_metadata") (js "*") [(js "email", Some email)]
                            (Some (js "updated_at", false)) false)] in
  let registerCalls :=
    (registerRun server backend btnDisabled emailField password confirm d).1.2 in
  let loginCalls := (loginRun server backend btnDisabled emailField password d).1.2 in
  (registerCalls = []
   \/ exists listed, registerCalls = registration :: listed /\ listing listed)
  /\ (registerCalls = [] <->
        btnDisabled = true \/ validateEmail email = false
        \/ (length password < 8)%nat \/ password <> confirm)
  /\ (loginCalls = [] \/ exists listed, loginCalls = login :: listed /\ listing listed)
  /\ (loginCalls = [] <->
        btnDisabled = true \/ validateEmail email = false \/ password = [])
  /\ (forall welcome,
        currentProvider (modules d) = Some SCSLocalProvider ->
        ((registerSubmit server btnDisabled emailField password confirm (session d)).2
           = EnteredDashboard welcome ->
         registerCalls
         = [registration;
            Fetch {| api_url := js "/api/files"; api_params := [(js "email", email)];
                     api_method := js "GET"; api_headers := [];
                     api_payload := NoBody |}])
        /\ ((loginSubmit server btnDisabled emailField password (session d)).2
              = EnteredDashboard welcome ->
            loginCalls
            = [login;
               Fetch {| api_url := js "/api/files"; api_params := [(js "email", email)];
                        api_method := js "GET"; api_headers := [];
                        api_payload := NoBody |}]))
  /\ (PBKDF2_length ->
        length (bufferToHex (derived password)) = 64%nat
        /\ forallb isLowerHexDigit (bufferToHex (derived password)) = true
        /\ (length password <> 64%nat -> bufferToHex (derived password) <> password))
  /\ (forall password2,
        derived password2 = derived password ->
        (8 <= length password)%nat -> (8 <= length password2)%nat ->
        registerRun server backend btnDisabled emailField password2 password2 d
        = registerRun server backend btnDisabled emailField password password d)
  /\ (forall password2,
        derived password2 = derived password ->
        password <> [] -> password2 <> [] ->
        loginRun server backend btnDisabled emailField password2 d
        = loginRun server backend btnDisabled emailField password d).
Proof.
  intros email authSalt derived registration login listing registerCalls loginCalls.
  pose proof (registerRun_calls server backend btnDisabled emailField password confirm d)
    as Hregister.
  pose proof (loginRun_calls server backend btnDisabled emailField password d) as Hlogin.
  cbv zeta in Hregister, Hlogin. fold email registerCalls in Hregister.
  fold email loginCalls in Hlogin.
  split; [|split; [|split; [|split; [|split; [|split; [|split]]]]]].
  - clear Hlogin. destruct (_ || _); [by left|]. right. exact Hregister.
  - destruct btnDisabled; cbn [orb] in Hregister; [split; [intros _; by left | by intros _]|].
    destruct (validateEmail email); cbn [negb orb] in Hregister;
      [|split; [intros _; right; by left | by intros _]].
    destruct (bool_decide_reflect (length password < 8)%nat) as [Hlen|Hlen]; cbn [orb] in Hregister;
      [split; [intros _; right; right; by left | by intros _]|].
    destruct (bool_decide_reflect (password <> confirm)) as [Hconfirm|Hconfirm]; cbn [orb] in Hregister;
      [split; [intros _; right; right; by right | by intros _]|].
    destruct Hregister as (listed & Hcalls & _). split.
    + intros E. rewrite E in Hcalls. discriminate Hcalls.
    + intros [?|[?|[?|?]]]; [discriminate | discriminate | contradiction | contradiction].
  - clear Hregister. destruct (_ || _); [by left|]. right. exact Hlogin.
  - destruct btnDisabled; cbn [orb] in Hlogin; [split; [intros _; by left | by intros _]|].
    destruct (validateEmail email); cbn [negb orb] in Hlogin;
      [|split; [intros _; right; by left | by intros _]].
    destruct (bool_decide_reflect (password = [])) as [Hpw|Hpw]; cbn [orb] in Hlogin;
      [split; [intros _; right; by right | by intros _]|].
    destruct Hlogin as (listed & Hcalls & _). split.
    + intros E. rewrite E in Hcalls. discriminate Hcalls.
    + intros [?|[?|?]]; [discriminate | discriminate | contradiction].
  - intros welcome Hp. split; intros Hentered.
    + exact (registerRun_entered server backend btnDisabled emailField password confirm d
               welcome Hp Hentered).
    + exact (loginRun_entered server backend btnDisabled emailField password d
               welcome Hp Hentered).
  - intros Hpbkdf. destruct (derived_bits_hex (stringToBytes password) authSalt Hpbkdf)
      as [Hlen Hlower].
    split; [exact Hlen|]. split; [exact Hlower|].
    intros Hne E. fold (derived password) in Hlen. rewrite E in Hlen. done.
  - intros password2 Ederived Hlen Hlen2. unfold registerRun.
    destruct btnDisabled; [reflexivity|].
    destruct (validateEmail (trim emailField)) eqn:Hv.
    + rewrite !registerSubmit_valid by done. unfold hashPassword.
      change (PBKDF2_HMAC_SHA256 (stringToBytes password2) _ _ _) with (derived password2).
      by rewrite Ederived.
    + unfold registerSubmit. by rewrite Hv.
  - intros password2 Ederived Hpw Hpw2. unfold loginRun.
    destruct btnDisabled; [reflexivity|].
    destruct (validateEmail (trim emailField)) eqn:Hv.
    + rewrite !loginSubmit_valid by done. unfold hashPassword.
      change (PBKDF2_HMAC_SHA256 (stringToBytes password2) _ _ _) with (derived password2).
      by rewrite Ederived.
    + unfold loginSubmit. by rewrite Hv.
Qed.

End TokenProperties.

Section FilePassword.
Context `{Platform} `{Environment}.



End FilePassword.


(** ** An upload on the dashboard *)

Section UploadOnPageProperties.
Context `{Platform} `{Environment} `{SupabaseLibrary}.


End UploadOnPageProperties.

(** ** Examples of the sign-in, the upload and the search *)

Lemma auth_requests_carry_only_the_password_hash_witness :
  lettersPassword 33 <> lettersPassword 32
  /\ registerRun acceptingServer acceptingBackend false demoEmail
       (lettersPassword 33) (lettersPassword 33) loadedPage
     = registerRun acceptingServer acceptingBackend false demoEmail
         (lettersPassword 32) (lettersPassword 32) loadedPage.
Proof.
  split; [discriminate|].
  refine (proj1 (proj2 (proj2 (proj2 (proj2 (proj2 (proj2
            (auth_requests_carry_only_the_password_hash acceptingServer acceptingBackend
               false demoEmail (lettersPassword 32) (lettersPassword 32) loadedPage)))))))
            (lettersPassword 33) _ _ _).
  - vm_compute. reflexivity.
  - vm_compute. lia.
  - vm_compute. lia.
Defined.

Example registerRun_calls_model :
  (registerRun acceptingServer acceptingBackend false (js " user@example.com ")
     demoPassword demoPassword loadedPage).1.2
  = [AuthFetch
       {| url := js "/api/register"; method := js "POST";
          body := [(js "email", js "user@example.com");
                   (js "password_hash",
                    js "537472306e67504073732175736572406578616d706c652e636f6d0000000000");
                   (js "salt", js "75736572406578616d706c652e636f6d")] |};
     Fetch {| api_url := js "/api/files"; api_params := [(js "email", js "user@example.com")];
              api_method := js "GET"; api_headers := []; api_payload := NoBody |}].
Proof. vm_compute. reflexivity. Qed.

Example loginSubmit_null_body :
  loginSubmit nullBodyServer false demoEmail demoPassword initialState
  = (initialState, [login_request demoEmail demoToken],
     AuthFailed (js "Cannot read properties of null (reading 'salt')")).
Proof. vm_compute. reflexivity. Qed.

Example loginSubmit_no_salt :
  let st := (loginSubmit noSaltServer false demoEmail demoPassword initialState).1.1 in
  currentSalt st = None /\ sessionStorage st !! js "scs_salt" = Some (js "undefined").
Proof. split; vm_compute; reflexivity. Qed.


Example handleFileUpload_without_session :
  save_passwordHash
    <$> savedCalls (handleFileUpload acceptingStorage demoFile initialState (countingRNG 7))
  = [None]
  /\ save_blob
       <$> savedCalls (handleFileUpload acceptingStorage demoFile initialState (countingRNG 7))
     = [ciphertext (encryptFile helloWorld (js "null") (countingRNG 7)).1].
Proof. split; vm_compute; reflexivity. Qed.

Example handleFileUpload_sign_out_meanwhile :
  let waiting := (handleFileUpload_begin demoFile demoState).1 in
  let signedOut := (logout (withSession waiting demoDashboard)).1 in
  save_passwordHash
    <$> savedCalls (handleFileUpload_resume acceptingStorage demoFile (session signedOut)
                      (countingRNG 7))
  = [None]
  /\ save_blob
       <$> savedCalls (handleFileUpload_resume acceptingStorage demoFile (session signedOut)
                         (countingRNG 7))
     = [ciphertext (encryptFile helloWorld (js "null") (countingRNG 7)).1].
Proof. split; vm_compute; reflexivity. Qed.

Example renderFileList_nameless :
  renderFileList [namedEntry; namelessEntry] (js "hello")
  = Throw {| name := js "TypeError";
             message := js "Cannot read properties of undefined (reading 'toLowerCase')" |}
  /\ renderFileList [namedEntry; namelessEntry] [] = Ok (FileCards [namedEntry; namelessEntry])
  /\ renderFileList [namedEntry] (js "hello") = Ok (FileCards [namedEntry]).
Proof. repeat split; vm_compute; reflexivity. Qed.

Example uploadOnPage_reloads :
  (uploadOnPage acceptingBackend demoNow demoFile demoDashboard (countingRNG 7)).1.2
  = [Fetch (uploadFile_request (Some demoEmail) (Some demoToken) (ciphertext demoEnvelope)
              demoMetadata (js "hello.txt"));
     Fetch (listFiles_request (Some demoEmail))].
Proof. vm_compute. reflexivity. Qed.

Example decryptFile_flipped_bit_model :
  decryptFile (flipBit 10 0 (ciphertext demoEnvelope)) (iv demoEnvelope) (salt demoEnvelope)
    demoToken
  = Throw OperationError.
Proof. vm_compute. reflexivity. Qed.

(** ** The read operations of the providers *)

Section ReadOperations.
Context `{Platform} `{Environment} `{SupabaseLibrary}.

(** X24. The Supabase provider reads where it wrote. [getFileBlob]
    downloads from the path to which [saveFile] uploads and which
    [deleteFile] removes, and [getMetadata] selects the one row with the
    email and the file name under which [saveFile] writes it. Each makes
    one call; an error of the client is reported with the provider's
    prefix, and otherwise the bytes, or the [metadata] member of the row,
    are returned as they come. *)
Theorem SCSSupabaseProvider_reads_where_it_wrote (client : SupabaseClient)
    (now email filename : JSString) (passwordHash : option JSString) (blob : list byte)
    (metadata : Metadata) :
  let path := hashEmail email ++ js "/" ++ filename in
  let download := StorageDownload (js "scs_files") path in
  let select :=
    TableSelect (js "scs_metadata") (js "metadata")
      [(js "email", Some email); (js "filename", Some filename)] None true in
  head (trace (SCSSupabaseProvider_saveFile (Some client) now (Some email) passwordHash
                 blob metadata filename))
  = Some (Supabase (StorageUpload (js "scs_files") path blob true
                      (js "application/octet-stream")))
  /\ head (trace (SCSSupabaseProvider_deleteFile (Some client) (Some email) filename
                    passwordHash))
     = Some (Supabase (StorageRemove (js "scs_files") [path]))
  /\ SCSSupabaseProvider_getFileBlob (Some client) (Some email) filename
     = {| outcome :=
            match reply_error (client download) with
            | Some error => Throw (Error (js "Supabase download failed: " ++ error))
            | None => Ok (reply_blob (client download))
            end;
          trace := [Supabase download] |}
  /\ SCSSupabaseProvider_getMetadata (Some client) (Some email) filename
     = {| outcome :=
            match reply_error (client select) with
            | Some error => Throw (Error (js "Supabase metadata fetch failed: " ++ error))
            | None => Ok (reply_metadata (client select))
            end;
          trace := [Supabase select] |}.
Proof.
  intros path download select.
  unfold SCSSupabaseProvider_saveFile, SCSSupabaseProvider_deleteFile,
    SCSSupabaseProvider_getFileBlob, SCSSupabaseProvider_getMetadata,
    mbind, Traced_bind, supabaseCall, settled, hashEmail_of, filePath,
    BUCKET_NAME, TABLE_NAME.
  cbn [outcome trace app]. fold path. fold download. fold select.
  split; [by repeat case_match|]. split; [by repeat case_match|].
  split.
  - by destruct (reply_error (client download)).
  - by destruct (reply_error (client select)).
Qed.

(** X25. What the Local provider returns for a download. [getMetadata]
    and [getFileBlob] send one GET request each, with the email and the
    file name. For a response that is [ok], [getFileBlob] returns the
    body as it is and [getMetadata] the [metadata] member of the parsed
    body, which is absent when the body has no such member or is not
    JSON; only the JSON value [null] makes it fail. A response that is
    not [ok] makes both fail with the server's detail or their own
    message. *)
Theorem SCSLocalProvider_reads (backend : Backend) (email : option JSString)
    (filename : JSString) :
  let params := [(js "email", ToString email); (js "filename", filename)] in
  let info :=
    {| api_url := js "/api/download"; api_params := params;
       api_method := js "GET"; api_headers := []; api_payload := NoBody |} in
  let blob :=
    {| api_url := js "/api/download/blob"; api_params := params;
       api_method := js "GET"; api_headers := []; api_payload := NoBody |} in
  SCSLocalProvider_getFileBlob backend email filename
  = answered (js "Download failed.") res_arrayBuffer backend blob
  /\ trace (SCSLocalProvider_getMetadata backend email filename) = [Fetch info]
  /\ outcome (SCSLocalProvider_getMetadata backend email filename)
     = match backend info with
       | Throw err => Throw err
       | Ok res =>
           match res_ok res, res_body res with
           | true, NotJSON => Ok None
           | true, JSONValue (Some data) => Ok (data_metadata data)
           | true, JSONValue None =>
               Throw {| name := js "TypeError";
                        message := nullPropertyError_message (js "metadata") |}
           | false, NotJSON => Throw (Error (js "Unexpected server response."))
           | false, JSONValue (Some data) =>
               Throw (Error (orElse (data_detail data) (js "File not found.")))
           | false, JSONValue None =>
               Throw {| name := js "TypeError";
                        message := nullPropertyError_message (js "detail") |}
           end
       end.
Proof.
  intros params info blob.
  split; [apply SCSApi_downloadBlob_answered|].
  unfold SCSLocalProvider_getMetadata. rewrite SCSApi_getFileInfo_answered.
  change (getFileInfo_request _ _) with info.
  unfold answered, mbind, Traced_bind, settled, member, parseResponse.
  cbn [outcome trace].
  destruct (backend info) as [res|err]; [|done].
  by destruct (res_ok res), (res_body res) as [|[data|]].
Qed.

End ReadOperations.
